(** * Go_todo: authentication, token codec and ownership scoping

    A shallow embedding of the Go packages [pkg/utils] (JWT manager and
    response helpers), [internal/services], [internal/repository],
    [internal/middleware] and [internal/handlers] of the todo API, and the
    properties of its authentication and ownership-scoping core.

    Go values are embedded as follows: [uint] as [N], [string] as [string],
    [time.Time] and [time.Duration] as [Z] counted in nanoseconds, a pointer
    that may be [nil] as [option], an [error] as a value of the inductive
    [error] together with its [Error()] message.  Code that talks to the
    database or reads the clock runs in the monad [M] over a [World]. *)

From stdpp Require Import gmap strings list fin_maps countable.
From Stdlib Require Import ZArith Lia Ascii.

Local Open Scope string_scope.
Local Open Scope Z_scope.

(** ** Go base types *)

Abbreviation uint := N (only parsing).
Abbreviation Time := Z (only parsing).
Abbreviation Duration := Z (only parsing).

(** [time.Second] as a [time.Duration]. *)
Definition time_Second : Duration := 1000000000.
Definition time_Hour : Duration := 3600 * time_Second.

(** The zero [time.Time] (January 1, year 1 UTC) on the Unix nanosecond
    axis. *)
Definition time_zero : Time := -62135596800 * time_Second.

(** [t.Truncate(d)] for [d > 0]: round [t] down to a multiple of [d].  The
    Unix epoch is a whole number of seconds after the zero time, so for
    [d = time.Second] rounding on the Unix axis agrees with Go's rounding
    "since the zero time". *)
Definition Truncate (t : Time) (d : Duration) : Time := t - t mod d.

(** ** Errors *)

(** The causes [jwt.Validator.Validate] can report for the registered
    claims that this program sets. *)
Inductive ClaimFault :=
| TokenExpired
| TokenNotValidYet.

(** The Go [error] values that flow through the program. *)
Inductive error :=
| errors_New (msg : string)          (* errors.New(msg) *)
| ErrDB (msg : string)               (* an error surfaced by the SQL driver *)
| ErrRecordNotFound                  (* gorm.ErrRecordNotFound *)
| ErrUniqueViolation (index : string) (* insert violating a unique index *)
| ErrBcrypt (msg : string)           (* bcrypt.GenerateFromPassword failing *)
| ErrHashMismatch                    (* bcrypt.ErrMismatchedHashAndPassword *)
| ErrBinding (msg : string)          (* gin's ShouldBindJSON failing *)
| ErrNum (msg : string)              (* *strconv.NumError *)
| ErrTokenMalformed (detail : string)
| ErrTokenUnverifiable (detail : string)
| ErrTokenSignatureInvalid
| ErrTokenInvalidClaims (faults : list ClaimFault).

Definition ClaimFault_message (f : ClaimFault) : string :=
  match f with
  | TokenExpired => "token is expired"
  | TokenNotValidYet => "token is not valid yet"
  end.

Fixpoint join_messages (l : list string) : string :=
  match l with
  | [] => ""
  | [m] => m
  | m :: rest => m +:+ ", " +:+ join_messages rest
  end.

(** The [Error()] method. *)
Definition Error (e : error) : string :=
  match e with
  | errors_New msg => msg
  | ErrDB msg => msg
  | ErrRecordNotFound => "record not found"
  | ErrUniqueViolation index => "UNIQUE constraint failed: " +:+ index
  | ErrBcrypt msg => msg
  | ErrHashMismatch =>
      "crypto/bcrypt: hashedPassword is not the hash of the given password"
  | ErrBinding msg => msg
  | ErrNum msg => msg
  | ErrTokenMalformed detail => "token is malformed: " +:+ detail
  | ErrTokenUnverifiable detail => "token is unverifiable: " +:+ detail
  | ErrTokenSignatureInvalid => "token signature is invalid: signature is invalid"
  | ErrTokenInvalidClaims faults =>
      "token has invalid claims: " +:+ join_messages (ClaimFault_message <$> faults)
  end.

(** A Go result pair [(value, err)]: either the value, with [err == nil], or
    the error. *)
Inductive Result (A : Type) :=
| Ok (a : A)
| Err (e : error).
Arguments Ok {A} a.
Arguments Err {A} e.

Definition is_Ok {A} (r : Result A) : bool :=
  match r with Ok _ => true | Err _ => false end.

(** ** Models (package [models]) *)

Record Todo := mkTodo {
  Todo_ID : uint;
  Todo_Title : string;
  Todo_Description : string;
  Todo_Completed : bool;
  Todo_Priority : string;
  Todo_DueDate : option Time;
  Todo_UserID : uint;
  Todo_CreatedAt : Time;
  Todo_UpdatedAt : Time;
  Todo_DeletedAt : option Time
}.

Record UpdateTodoRequest := mkUpdateTodoRequest {
  Req_Title : option string;
  Req_Description : option string;
  Req_Completed : option bool;
  Req_Priority : option string;
  Req_DueDate : option Time
}.

Record TodoResponse := mkTodoResponse {
  TR_ID : uint;
  TR_Title : string;
  TR_Description : string;
  TR_Completed : bool;
  TR_Priority : string;
  TR_DueDate : option Time;
  TR_CreatedAt : Time;
  TR_UpdatedAt : Time
}.

(** [func (t *Todo) ToResponse() TodoResponse] *)
Definition Todo_ToResponse (t : Todo) : TodoResponse :=
  {| TR_ID := Todo_ID t;
     TR_Title := Todo_Title t;
     TR_Description := Todo_Description t;
     TR_Completed := Todo_Completed t;
     TR_Priority := Todo_Priority t;
     TR_DueDate := Todo_DueDate t;
     TR_CreatedAt := Todo_CreatedAt t;
     TR_UpdatedAt := Todo_UpdatedAt t |}.

Record User := mkUser {
  User_ID : uint;
  User_Email : string;
  User_Password : string;
  User_CreatedAt : Time;
  User_UpdatedAt : Time;
  User_DeletedAt : option Time
}.

Record UserResponse := mkUserResponse {
  UR_ID : uint;
  UR_Email : string;
  UR_CreatedAt : Time
}.

(** [func (u *User) ToResponse() UserResponse] *)
Definition User_ToResponse (u : User) : UserResponse :=
  {| UR_ID := User_ID u; UR_Email := User_Email u; UR_CreatedAt := User_CreatedAt u |}.

Definition set_Todo_ID (k : uint) (t : Todo) : Todo :=
  mkTodo k (Todo_Title t) (Todo_Description t) (Todo_Completed t)
    (Todo_Priority t) (Todo_DueDate t) (Todo_UserID t) (Todo_CreatedAt t)
    (Todo_UpdatedAt t) (Todo_DeletedAt t).

Definition set_Todo_UpdatedAt (now : Time) (t : Todo) : Todo :=
  mkTodo (Todo_ID t) (Todo_Title t) (Todo_Description t) (Todo_Completed t)
    (Todo_Priority t) (Todo_DueDate t) (Todo_UserID t) (Todo_CreatedAt t)
    now (Todo_DeletedAt t).

Definition set_Todo_DeletedAt (d : option Time) (t : Todo) : Todo :=
  mkTodo (Todo_ID t) (Todo_Title t) (Todo_Description t) (Todo_Completed t)
    (Todo_Priority t) (Todo_DueDate t) (Todo_UserID t) (Todo_CreatedAt t)
    (Todo_UpdatedAt t) d.

Definition set_User_ID (k : uint) (u : User) : User :=
  mkUser k (User_Email u) (User_Password u) (User_CreatedAt u)
    (User_UpdatedAt u) (User_DeletedAt u).

(** [models.CreateTodoRequest] *)
Record CreateTodoRequest := mkCreateTodoRequest {
  CReq_Title : string;
  CReq_Description : string;
  CReq_Priority : string;
  CReq_DueDate : option Time
}.

(** [models.TodoListResponse]; Go's [int64] and [int] counters as [Z]. *)
Record TodoListResponse := mkTodoListResponse {
  TL_Todos : list TodoResponse;
  TL_Total : Z;
  TL_Page : Z;
  TL_PerPage : Z;
  TL_TotalPages : Z
}.

(** ** The world: database, clock and driver faults *)

(** The two tables are keyed by their primary-key column; the [ID] field of
    a stored record is not trusted and is rebuilt from the key when a row is
    read.  [users_seq] and [todos_seq] are the auto-increment counters.
    [faults] schedules the outcome of the coming database round trips
    ([Some e]: the driver fails that round trip with [e]); an exhausted
    schedule means a healthy database.  [wall] is the wall clock and
    [elapse] the time that passes after each of its coming readings (the
    clock stands still once the schedule is exhausted). *)
Record World := mkWorld {
  users : gmap N User;
  users_seq : N;
  todos : gmap N Todo;
  todos_seq : N;
  faults : list (option error);
  wall : Time;
  elapse : list Duration
}.

Definition set_users (us : gmap N User) (seq : N) (w : World) : World :=
  mkWorld us seq (todos w) (todos_seq w) (faults w) (wall w) (elapse w).

Definition set_todos (ts : gmap N Todo) (w : World) : World :=
  mkWorld (users w) (users_seq w) ts (todos_seq w) (faults w) (wall w) (elapse w).

Definition set_faults (fs : list (option error)) (w : World) : World :=
  mkWorld (users w) (users_seq w) (todos w) (todos_seq w) fs (wall w) (elapse w).

(** The world after a reading of the clock. *)
Definition tick (w : World) : World :=
  match elapse w with
  | d :: rest =>
      mkWorld (users w) (users_seq w) (todos w) (todos_seq w) (faults w)
        (wall w + d) rest
  | [] => w
  end.

(** The next reading of the wall clock. *)
Definition now (w : World) : Time := wall w.

(** ** The monad of effectful Go code *)

(** A computation returns a Go result pair and the world it leaves behind;
    an error does not roll the world back. *)
Definition M (A : Type) : Type := World → Result A * World.

Definition ret {A} (a : A) : M A := fun w => (Ok a, w).

Definition fail {A} (e : error) : M A := fun w => (Err e, w).

Definition bind {A B} (c : M A) (k : A → M B) : M B := fun w =>
  match c w with
  | (Ok a, w') => k a w'
  | (Err e, w') => (Err e, w')
  end.

Notation "x <- c ;; k" := (bind c (fun x => k))
  (at level 100, c at next level, right associativity,
   format "'[v' x  <-  c  ;; '/' k ']'").

(** Lift a Go result pair that needs no world. *)
Definition lift {A} (r : Result A) : M A := fun w => (r, w).

(** [time.Now()] *)
Definition time_Now : M Time := fun w => (Ok (now w), tick w).

(** One round trip to the database: the driver may fail it, in which case
    the statement has no effect. *)
Definition db_exec {A} (stmt : M A) : M A := fun w =>
  match faults w with
  | Some e :: rest => (Err e, set_faults rest w)
  | None :: rest => stmt (set_faults rest w)
  | [] => stmt w
  end.

(** The fault scheduled for the next round trip, if any. *)
Definition next_fault (w : World) : option error :=
  match faults w with Some e :: _ => Some e | _ => None end.

(** No fault is scheduled for the next round trip. *)
Definition healthy (w : World) : Prop := next_fault w = None.

(** The world in which the next round trip's statement runs. *)
Definition served (w : World) : World :=
  match faults w with _ :: rest => set_faults rest w | [] => w end.

(** Rows that are not soft-deleted ([deleted_at IS NULL]), which is what
    every GORM query on a model with a [gorm.DeletedAt] field selects. *)
Definition Todo_live (t : Todo) : bool :=
  match Todo_DeletedAt t with None => true | Some _ => false end.

Definition User_live (u : User) : bool :=
  match User_DeletedAt u with None => true | Some _ => false end.

(** [ORDER BY id LIMIT 1] over the selected rows. *)
Definition first_by_key {T} (rows : list (N * T)) : option (N * T) :=
  foldr (fun r acc =>
           match acc with
           | Some r' => if (r.1 <=? r'.1)%N then Some r else Some r'
           | None => Some r
           end) None rows.

(** ** GORM statements over a table *)

Section Gorm.
Context {T : Type} (live : T → bool).

(** [SELECT ... WHERE cond AND deleted_at IS NULL]: the rows, each with
    its primary key. *)
Definition gorm_select (tbl : gmap N T) (cond : N → T → bool) : list (N * T) :=
  List.filter (fun r => live r.2 && cond r.1 r.2) (map_to_list tbl).

(** [db.Where(cond).First(&row)]: the matching row with the least primary
    key, or [gorm.ErrRecordNotFound]. *)
Definition gorm_First (tbl : gmap N T) (cond : N → T → bool) : Result (N * T) :=
  match first_by_key (gorm_select tbl cond) with
  | Some r => Ok r
  | None => Err ErrRecordNotFound
  end.

(** [db.Model(&row).Where(cond).Count(&count)] *)
Definition gorm_Count (tbl : gmap N T) (cond : N → T → bool) : N :=
  N.of_nat (length (gorm_select tbl cond)).
End Gorm.

(** ** Package [repository]: [TodoRepository] *)

Module TodoRepository.

(** The [WHERE] clause ["id = ? AND user_id = ?"]. *)
Definition id_and_user_id (id userID : uint) (k : N) (t : Todo) : bool :=
  (k =? id)%N && (Todo_UserID t =? userID)%N.

(** [func (r *TodoRepository) FindByIDAndUserID(id, userID uint)], returning
    a [*models.Todo] and an [error].

    A missing row is reported as [(nil, nil)], here [Ok None]; any other
    error of the statement is returned as it is. *)
Definition FindByIDAndUserID (id userID : uint) : M (option Todo) :=
  db_exec (fun w =>
    match gorm_First Todo_live (todos w) (id_and_user_id id userID) with
    | Ok (k, t) => (Ok (Some (set_Todo_ID k t)), w)
    | Err ErrRecordNotFound => (Ok None, w)
    | Err e => (Err e, w)
    end).

(** [func (r *TodoRepository) Update(todo *models.Todo) error], that is
    [r.db.Save(todo)]: every column of the struct is written to the row of
    its primary key and [updated_at] is set to the current time, in the
    struct as well.  The updated struct is returned in place of the
    mutation through the pointer. *)
Definition Update (todo : Todo) : M Todo :=
  db_exec (
    t <- time_Now ;;
    fun w =>
      let todo' := set_Todo_UpdatedAt t todo in
      (Ok todo', set_todos (<[Todo_ID todo := todo']> (todos w)) w)).

(** [func (r *TodoRepository) Delete(id uint) error], that is
    [r.db.Delete(&models.Todo{}, id)]: a soft delete, which stamps
    [deleted_at] on the row with that primary key if it is not deleted yet
    and succeeds whether or not a row was affected. *)
Definition Delete (id : uint) : M unit :=
  db_exec (
    t <- time_Now ;;
    fun w =>
      (Ok tt,
       set_todos
         (alter (fun r => if Todo_live r then set_Todo_DeletedAt (Some t) r else r)
                id (todos w)) w)).

(** [func (r *TodoRepository) Create(todo *models.Todo) error], that is
    [r.db.Create(todo)]: a zero [ID] is replaced by the next value of the
    sequence, the zero timestamps are set to the current time, and the row
    is inserted under its primary key, which must be free.  The stored
    struct is returned in place of the mutation through the pointer. *)
Definition Create (todo : Todo) : M Todo :=
  db_exec (
    t <- time_Now ;;
    fun w =>
      let id := if (Todo_ID todo =? 0)%N then (todos_seq w + 1)%N else Todo_ID todo in
      if bool_decide (is_Some (todos w !! id)) then
        (Err (ErrUniqueViolation "todos.id"), w)
      else
        let todo' :=
          mkTodo id (Todo_Title todo) (Todo_Description todo) (Todo_Completed todo)
            (Todo_Priority todo) (Todo_DueDate todo) (Todo_UserID todo)
            (if Todo_CreatedAt todo =? time_zero then t else Todo_CreatedAt todo)
            (if Todo_UpdatedAt todo =? time_zero then t else Todo_UpdatedAt todo)
            (Todo_DeletedAt todo) in
        (Ok todo',
         mkWorld (users w) (users_seq w) (<[id := todo']> (todos w))
           (N.max (todos_seq w) id) (faults w) (wall w) (elapse w))).

(** The [WHERE] clause of a lookup by primary key. *)
Definition id_is (id : uint) (k : N) (t : Todo) : bool := (k =? id)%N.

(** [func (r *TodoRepository) FindByID(id uint)], returning a
    [*models.Todo] and an [error]: [r.db.First(&todo, id)]. *)
Definition FindByID (id : uint) : M (option Todo) :=
  db_exec (fun w =>
    match gorm_First Todo_live (todos w) (id_is id) with
    | Ok (k, t) => (Ok (Some (set_Todo_ID k t)), w)
    | Err ErrRecordNotFound => (Ok None, w)
    | Err e => (Err e, w)
    end).

(** [UPDATE todos SET deleted_at = t WHERE cond AND deleted_at IS NULL] *)
Definition soft_delete (cond : N → Todo → bool) (t : Time) (tbl : gmap N Todo) : gmap N Todo :=
  map_imap (fun k r =>
              Some (if Todo_live r && cond k r then set_Todo_DeletedAt (Some t) r else r))
           tbl.

(** [func (r *TodoRepository) DeleteByIDAndUserID(id, userID uint) error].
    The statement stamps [deleted_at] on the live rows that match and
    reports how many there were; a statement that the driver fails has
    affected no row, so the check of [RowsAffected], which comes first,
    answers [gorm.ErrRecordNotFound] for it. *)
Definition DeleteByIDAndUserID (id userID : uint) : M unit := fun w =>
  match db_exec (
          t <- time_Now ;;
          fun w =>
            (Ok (gorm_Count Todo_live (todos w) (id_and_user_id id userID)),
             set_todos (soft_delete (id_and_user_id id userID) t (todos w)) w)) w with
  | (Err _, w') => (Err ErrRecordNotFound, w')
  | (Ok RowsAffected, w') =>
      if (RowsAffected =? 0)%N then (Err ErrRecordNotFound, w') else (Ok tt, w')
  end.

(** The [WHERE] clause ["user_id = ?"]. *)
Definition user_id_is (userID : uint) (k : N) (t : Todo) : bool :=
  (Todo_UserID t =? userID)%N.

(** The [WHERE] clause ["user_id = ? AND completed = ?"]. *)
Definition user_id_and_completed (userID : uint) (completed : bool) (k : N) (t : Todo) : bool :=
  (Todo_UserID t =? userID)%N && Bool.eqb (Todo_Completed t) completed.

(** [func (r *TodoRepository) CountByUserID(userID uint) (int64, error)] *)
Definition CountByUserID (userID : uint) : M Z :=
  db_exec (fun w =>
    (Ok (Z.of_N (gorm_Count Todo_live (todos w) (user_id_is userID))), w)).

(** [func (r *TodoRepository) CountCompletedByUserID(userID uint) (int64, error)] *)
Definition CountCompletedByUserID (userID : uint) : M Z :=
  db_exec (fun w =>
    (Ok (Z.of_N (gorm_Count Todo_live (todos w) (user_id_and_completed userID true))), w)).

End TodoRepository.

(** ** Package [services]: [TodoService] *)

Definition set_Todo_Title (v : string) (t : Todo) : Todo :=
  mkTodo (Todo_ID t) v (Todo_Description t) (Todo_Completed t)
    (Todo_Priority t) (Todo_DueDate t) (Todo_UserID t) (Todo_CreatedAt t)
    (Todo_UpdatedAt t) (Todo_DeletedAt t).

Definition set_Todo_Description (v : string) (t : Todo) : Todo :=
  mkTodo (Todo_ID t) (Todo_Title t) v (Todo_Completed t)
    (Todo_Priority t) (Todo_DueDate t) (Todo_UserID t) (Todo_CreatedAt t)
    (Todo_UpdatedAt t) (Todo_DeletedAt t).

Definition set_Todo_Completed (v : bool) (t : Todo) : Todo :=
  mkTodo (Todo_ID t) (Todo_Title t) (Todo_Description t) v
    (Todo_Priority t) (Todo_DueDate t) (Todo_UserID t) (Todo_CreatedAt t)
    (Todo_UpdatedAt t) (Todo_DeletedAt t).

Definition set_Todo_Priority (v : string) (t : Todo) : Todo :=
  mkTodo (Todo_ID t) (Todo_Title t) (Todo_Description t) (Todo_Completed t)
    v (Todo_DueDate t) (Todo_UserID t) (Todo_CreatedAt t)
    (Todo_UpdatedAt t) (Todo_DeletedAt t).

Definition set_Todo_DueDate (v : option Time) (t : Todo) : Todo :=
  mkTodo (Todo_ID t) (Todo_Title t) (Todo_Description t) (Todo_Completed t)
    (Todo_Priority t) v (Todo_UserID t) (Todo_CreatedAt t)
    (Todo_UpdatedAt t) (Todo_DeletedAt t).

(** [if p != nil { field = *p }] *)
Definition if_not_nil {A B} (p : option A) (set : A → B → B) (b : B) : B :=
  match p with
  | Some v => set v b
  | None => b
  end.

(** [func (r *TodoRepository) ListByUserID(userID uint, page, perPage int, completed *bool)].
    Its result depends on how the database orders rows created at the same
    time and on floating-point division; it is taken as given. *)
Class Listing := {
  ListByUserID : uint → Z → Z → option bool → M TodoListResponse
}.

Module TodoService.

(** [func (s *TodoService) GetByID(todoID, userID uint)], returning a
    [*models.TodoResponse] and an [error]. *)
Definition GetByID (todoID userID : uint) : M TodoResponse :=
  todo <- TodoRepository.FindByIDAndUserID todoID userID ;;
  match todo with
  | None => fail (errors_New "todo not found")
  | Some todo => ret (Todo_ToResponse todo)
  end.

(** The "Apply updates" block of [Update], in the order of the source. *)
Definition apply_updates (req : UpdateTodoRequest) (todo : Todo) : Todo :=
  let todo := if_not_nil (Req_Title req) set_Todo_Title todo in
  let todo := if_not_nil (Req_Description req) set_Todo_Description todo in
  let todo := if_not_nil (Req_Completed req) set_Todo_Completed todo in
  let todo := if_not_nil (Req_Priority req) set_Todo_Priority todo in
  let todo := if_not_nil (Req_DueDate req) (fun v => set_Todo_DueDate (Some v)) todo in
  todo.

(** [func (s *TodoService) Update(todoID, userID uint, req *models.UpdateTodoRequest)] *)
Definition Update (todoID userID : uint) (req : UpdateTodoRequest) : M TodoResponse :=
  todo <- TodoRepository.FindByIDAndUserID todoID userID ;;
  match todo with
  | None => fail (errors_New "todo not found")
  | Some todo =>
      todo <- TodoRepository.Update (apply_updates req todo) ;;
      ret (Todo_ToResponse todo)
  end.

(** [func (s *TodoService) Delete(todoID, userID uint) error] *)
Definition Delete (todoID userID : uint) : M unit :=
  todo <- TodoRepository.FindByIDAndUserID todoID userID ;;
  match todo with
  | None => fail (errors_New "todo not found")
  | Some _ => TodoRepository.Delete todoID
  end.

(** [func (s *TodoService) Create(userID uint, req *models.CreateTodoRequest)] *)
Definition Create (userID : uint) (req : CreateTodoRequest) : M TodoResponse :=
  let priority := CReq_Priority req in
  let priority := if String.eqb priority "" then "medium" else priority in
  let todo :=
    mkTodo 0 (CReq_Title req) (CReq_Description req) false priority (CReq_DueDate req)
      userID time_zero time_zero None in
  todo <- TodoRepository.Create todo ;;
  ret (Todo_ToResponse todo).

(** [func (s *TodoService) List(userID uint, page, perPage int, completed *bool)] *)
Definition List `{Listing} (userID : uint) (page perPage : Z) (completed : option bool)
    : M TodoListResponse :=
  let page := if page <? 1 then 1 else page in
  let perPage := if (perPage <? 1) || (100 <? perPage) then 10 else perPage in
  ListByUserID userID page perPage completed.

(** [func (s *TodoService) GetStats(userID uint) (map[string]int64, error)].
    Both counts are row counts, so the subtraction stays within [int64]. *)
Definition GetStats (userID : uint) : M (gmap string Z) :=
  total <- TodoRepository.CountByUserID userID ;;
  completed <- TodoRepository.CountCompletedByUserID userID ;;
  ret ({[ "total" := total; "completed" := completed; "pending" := total - completed ]}).

End TodoService.

(** ** Package [utils]: the response envelope *)

(** [services.AuthResponse] *)
Record AuthResponse := mkAuthResponse {
  AR_User : UserResponse;
  AR_Token : string
}.

(** The values this program passes as [data interface{}]. *)
Inductive Data :=
| NoData
| DataAuth (r : AuthResponse)
| DataTodo (t : TodoResponse)
| DataUser (u : UserResponse).

Record APIError := mkAPIError {
  Code : string;
  Message : string;
  Details : option string
}.

Record APIResponse := mkAPIResponse {
  Resp_Success : bool;
  Resp_Message : string;
  Resp_Data : Data;
  Resp_Error : option APIError
}.

Definition ErrCodeValidation := "VALIDATION_ERROR".
Definition ErrCodeUnauthorized := "UNAUTHORIZED".
Definition ErrCodeForbidden := "FORBIDDEN".
Definition ErrCodeNotFound := "NOT_FOUND".
Definition ErrCodeConflict := "CONFLICT".
Definition ErrCodeInternal := "INTERNAL_ERROR".
Definition ErrCodeBadRequest := "BAD_REQUEST".

Definition StatusOK : Z := 200.
Definition StatusCreated : Z := 201.
Definition StatusNoContent : Z := 204.
Definition StatusBadRequest : Z := 400.
Definition StatusUnauthorized : Z := 401.
Definition StatusNotFound : Z := 404.
Definition StatusConflict : Z := 409.
Definition StatusInternalServerError : Z := 500.

(** ** The part of [gin.Context] the program uses *)

(** A value stored with [c.Set]. *)
Inductive Any :=
| AnyUint (n : uint)
| AnyString (s : string).

(** [Authorization] is what [c.GetHeader("Authorization")] returns (the
    empty string when the header is absent), [Param_id] what [c.Param("id")]
    returns, [Body] the request body; [Keys] is the per-request key/value
    store, [Aborted] is set by [c.Abort()], and [Written] holds the status
    code and JSON body written so far. *)
Record Context := mkContext {
  Authorization : string;
  Param_id : string;
  Body : string;
  Keys : gmap string Any;
  Aborted : bool;
  Written : option (Z * option APIResponse)
}.

(** A fresh context for a request. *)
Definition request (authorization param_id body : string) : Context :=
  mkContext authorization param_id body ∅ false None.

(** [c.JSON(statusCode, obj)] *)
Definition JSON (c : Context) (statusCode : Z) (obj : APIResponse) : Context :=
  mkContext (Authorization c) (Param_id c) (Body c) (Keys c) (Aborted c)
    (Some (statusCode, Some obj)).

(** [c.Status(statusCode)] *)
Definition Status (c : Context) (statusCode : Z) : Context :=
  mkContext (Authorization c) (Param_id c) (Body c) (Keys c) (Aborted c)
    (Some (statusCode, None)).

(** [c.Abort()] *)
Definition Abort (c : Context) : Context :=
  mkContext (Authorization c) (Param_id c) (Body c) (Keys c) true (Written c).

(** [c.Set(key, value)] *)
Definition Set_ (c : Context) (key : string) (value : Any) : Context :=
  mkContext (Authorization c) (Param_id c) (Body c) (<[key := value]> (Keys c))
    (Aborted c) (Written c).

(** [c.Get(key)] *)
Definition Get (c : Context) (key : string) : option Any := Keys c !! key.

Module utils.

(** [func Success(c *gin.Context, statusCode int, message string, data interface{})] *)
Definition Success (c : Context) (statusCode : Z) (message : string) (data : Data) : Context :=
  JSON c statusCode
    {| Resp_Success := true; Resp_Message := message; Resp_Data := data; Resp_Error := None |}.

(** [func Error(c *gin.Context, statusCode int, code string, message string, details interface{})] *)
Definition Error (c : Context) (statusCode : Z) (code message : string)
    (details : option string) : Context :=
  JSON c statusCode
    {| Resp_Success := false; Resp_Message := ""; Resp_Data := NoData;
       Resp_Error := Some {| Code := code; Message := message; Details := details |} |}.

Definition ValidationError (c : Context) (details : string) : Context :=
  Error c StatusBadRequest ErrCodeValidation "Validation failed" (Some details).

Definition UnauthorizedError (c : Context) (message : string) : Context :=
  let message := if String.eqb message "" then "Authentication required" else message in
  Error c StatusUnauthorized ErrCodeUnauthorized message None.

Definition NotFoundError (c : Context) (resource : string) : Context :=
  Error c StatusNotFound ErrCodeNotFound (resource +:+ " not found") None.

Definition ConflictError (c : Context) (message : string) : Context :=
  Error c StatusConflict ErrCodeConflict message None.

Definition InternalError (c : Context) (message : string) : Context :=
  let message := if String.eqb message "" then "An internal error occurred" else message in
  Error c StatusInternalServerError ErrCodeInternal message None.

Definition BadRequestError (c : Context) (message : string) : Context :=
  Error c StatusBadRequest ErrCodeBadRequest message None.

Definition Created (c : Context) (message : string) (data : Data) : Context :=
  Success c StatusCreated message data.

Definition OK (c : Context) (message : string) (data : Data) : Context :=
  Success c StatusOK message data.

Definition NoContent (c : Context) : Context := Status c StatusNoContent.

End utils.

(** ** Package [middleware]: reading the injected identity *)

(** [func GetUserID(c *gin.Context) (uint, bool)] *)
Definition GetUserID (c : Context) : uint * bool :=
  match Get c "user_id" with
  | None => (0%N, false)
  | Some (AnyUint id) => (id, true)
  | Some _ => (0%N, false)
  end.

(** [func GetUserEmail(c *gin.Context) (string, bool)] *)
Definition GetUserEmail (c : Context) : string * bool :=
  match Get c "user_email" with
  | None => ("", false)
  | Some (AnyString e) => (e, true)
  | Some _ => ("", false)
  end.

(** ** [strconv.ParseUint(s, 10, 32)] *)

Fixpoint parse_digits (s : string) (acc : N) : option N :=
  match s with
  | EmptyString => Some acc
  | String c s' =>
      let n := Ascii.N_of_ascii c in
      if ((48 <=? n) && (n <=? 57))%N
      then parse_digits s' (acc * 10 + (n - 48))%N
      else None
  end.

(** Decimal digits only, at least one, and a value that fits 32 bits. *)
Definition strconv_ParseUint32 (s : string) : Result N :=
  match s with
  | EmptyString => Err (ErrNum "invalid syntax")
  | _ =>
      match parse_digits s 0 with
      | None => Err (ErrNum "invalid syntax")
      | Some n => if (n <? 2 ^ 32)%N then Ok n else Err (ErrNum "value out of range")
      end
  end.

(** ** gin's request binding *)

Record RegisterRequest := mkRegisterRequest {
  Reg_Email : string;
  Reg_Password : string
}.

Record LoginRequest := mkLoginRequest {
  Login_Email : string;
  Login_Password : string
}.

(** [c.ShouldBindJSON(&req)] for the three request types: JSON decoding
    followed by the validation of the [binding] tags.  It is a part of gin
    and go-playground/validator; the program's properties below do not
    depend on what it accepts. *)
Class Binding := {
  ShouldBindJSON_Register : string → Result RegisterRequest;
  ShouldBindJSON_Login : string → Result LoginRequest;
  ShouldBindJSON_UpdateTodo : string → Result UpdateTodoRequest
}.

(** [c.ShouldBindJSON(&req)] for [models.CreateTodoRequest]. *)
Class BindingCreate := {
  ShouldBindJSON_CreateTodo : string → Result CreateTodoRequest
}.

(** A handler runs on the context of a request and leaves the context with
    the response written. *)
Definition HandlerFunc : Type := Context → World → Context * World.

(** ** Package [handlers]: [TodoHandler] *)

Module TodoHandler.
Section WithBinding.
Context `{Binding}.

(** [func (h *TodoHandler) GetByID(c *gin.Context)] *)
Definition GetByID : HandlerFunc := fun c w =>
  match GetUserID c with
  | (_, false) => (utils.UnauthorizedError c "", w)
  | (userID, true) =>
      match strconv_ParseUint32 (Param_id c) with
      | Err _ => (utils.BadRequestError c "Invalid todo ID", w)
      | Ok todoID =>
          match TodoService.GetByID todoID userID w with
          | (Err _, w') => (utils.NotFoundError c "Todo", w')
          | (Ok todo, w') => (utils.OK c "Todo retrieved" (DataTodo todo), w')
          end
      end
  end.

(** [func (h *TodoHandler) Update(c *gin.Context)] *)
Definition Update : HandlerFunc := fun c w =>
  match GetUserID c with
  | (_, false) => (utils.UnauthorizedError c "", w)
  | (userID, true) =>
      match strconv_ParseUint32 (Param_id c) with
      | Err _ => (utils.BadRequestError c "Invalid todo ID", w)
      | Ok todoID =>
          match ShouldBindJSON_UpdateTodo (Body c) with
          | Err err => (utils.ValidationError c (Error err), w)
          | Ok req =>
              match TodoService.Update todoID userID req w with
              | (Err err, w') =>
                  if String.eqb (Error err) "todo not found"
                  then (utils.NotFoundError c "Todo", w')
                  else (utils.InternalError c "Failed to update todo", w')
              | (Ok todo, w') =>
                  (utils.OK c "Todo updated successfully" (DataTodo todo), w')
              end
          end
      end
  end.

(** [func (h *TodoHandler) Delete(c *gin.Context)] *)
Definition Delete : HandlerFunc := fun c w =>
  match GetUserID c with
  | (_, false) => (utils.UnauthorizedError c "", w)
  | (userID, true) =>
      match strconv_ParseUint32 (Param_id c) with
      | Err _ => (utils.BadRequestError c "Invalid todo ID", w)
      | Ok todoID =>
          match TodoService.Delete todoID userID w with
          | (Err err, w') =>
              if String.eqb (Error err) "todo not found"
              then (utils.NotFoundError c "Todo", w')
              else (utils.InternalError c "Failed to delete todo", w')
          | (Ok _, w') => (utils.NoContent c, w')
          end
      end
  end.

(** [func (h *TodoHandler) Create(c *gin.Context)] *)
Definition Create `{BindingCreate} : HandlerFunc := fun c w =>
  match GetUserID c with
  | (_, false) => (utils.UnauthorizedError c "", w)
  | (userID, true) =>
      match ShouldBindJSON_CreateTodo (Body c) with
      | Err err => (utils.ValidationError c (Error err), w)
      | Ok req =>
          match TodoService.Create userID req w with
          | (Err _, w') => (utils.InternalError c "Failed to create todo", w')
          | (Ok todo, w') => (utils.Created c "Todo created successfully" (DataTodo todo), w')
          end
      end
  end.

End WithBinding.
End TodoHandler.

(** ** Package [repository]: [UserRepository] *)

Module UserRepository.

(** The [WHERE] clause ["email = ?"]. *)
Definition email_is (email : string) (k : N) (u : User) : bool :=
  String.eqb (User_Email u) email.

(** The [WHERE] clause of a lookup by primary key. *)
Definition id_is (id : uint) (k : N) (u : User) : bool := (k =? id)%N.

(** Modelled from the spec: [exists_by_email] of the Credential Store, whose
    source file [internal/repository/user_repository.go] is not at hand.  It
    counts the users with that email, as the sibling [TodoRepository] counts
    todos, and answers whether there is one. *)
Definition ExistsByEmail (email : string) : M bool :=
  db_exec (fun w =>
    (Ok (0 <? gorm_Count User_live (users w) (email_is email))%N, w)).

(** Modelled from the spec: [find_by_email] of the Credential Store (source
    file not at hand), written like [TodoRepository.FindByIDAndUserID]: the
    first user with that email, [(nil, nil)] when there is none. *)
Definition FindByEmail (email : string) : M (option User) :=
  db_exec (fun w =>
    match gorm_First User_live (users w) (email_is email) with
    | Ok (k, u) => (Ok (Some (set_User_ID k u)), w)
    | Err ErrRecordNotFound => (Ok None, w)
    | Err e => (Err e, w)
    end).

(** Modelled from the spec: [find_by_id] of the Credential Store (source
    file not at hand). *)
Definition FindByID (id : uint) : M (option User) :=
  db_exec (fun w =>
    match gorm_First User_live (users w) (id_is id) with
    | Ok (k, u) => (Ok (Some (set_User_ID k u)), w)
    | Err ErrRecordNotFound => (Ok None, w)
    | Err e => (Err e, w)
    end).

(** Modelled from the spec: [insert] of the Credential Store (source file
    not at hand), that is [r.db.Create(user)] on a table whose [email]
    column carries a unique index ([gorm:"uniqueIndex"] on [User.Email]).
    A zero [ID] is replaced by the next value of the sequence; the unique
    index spans every row of the table, soft-deleted ones included; the
    zero timestamps are set to the current time.  The stored struct is
    returned in place of the mutation through the pointer. *)
Definition Create (user : User) : M User :=
  db_exec (
    t <- time_Now ;;
    fun w =>
      let id := if (User_ID user =? 0)%N then (users_seq w + 1)%N else User_ID user in
      if bool_decide (is_Some (users w !! id)) then
        (Err (ErrUniqueViolation "users.id"), w)
      else if bool_decide (map_Exists (fun _ u => User_Email u = User_Email user) (users w)) then
        (Err (ErrUniqueViolation "users.email"), w)
      else
        let user' :=
          mkUser id (User_Email user) (User_Password user)
            (if User_CreatedAt user =? time_zero then t else User_CreatedAt user)
            (if User_UpdatedAt user =? time_zero then t else User_UpdatedAt user)
            (User_DeletedAt user) in
        (Ok user', set_users (<[id := user']> (users w)) (N.max (users_seq w) id) w)).

End UserRepository.

(** ** [golang.org/x/crypto/bcrypt] *)

(** [GenerateFromPassword] is called with [bcrypt.DefaultCost]; the salt it
    draws is left implicit.  [CompareHashAndPassword hashedPassword password]
    returns [nil], here [Ok tt], exactly when the password matches. *)
Class Bcrypt := {
  GenerateFromPassword : string → Result string;
  CompareHashAndPassword : string → string → Result unit
}.

(** ** [github.com/golang-jwt/jwt/v5] *)

Inductive HashAlg := SHA256 | SHA384 | SHA512.

(** The registered signing methods: the HMAC family ([*SigningMethodHMAC])
    and the others (RSA, RSA-PSS, ECDSA, Ed25519, none), known by their
    [alg] name. *)
Inductive SigningMethod :=
| SigningMethodHMAC (h : HashAlg)
| SigningMethodOther (alg : string).

Definition SigningMethodHS256 : SigningMethod := SigningMethodHMAC SHA256.

(** [func (m SigningMethod) Alg() string] *)
Definition Alg (m : SigningMethod) : string :=
  match m with
  | SigningMethodHMAC SHA256 => "HS256"
  | SigningMethodHMAC SHA384 => "HS384"
  | SigningMethodHMAC SHA512 => "HS512"
  | SigningMethodOther alg => alg
  end.

Definition other_algs : list string :=
  ["RS256"; "RS384"; "RS512"; "PS256"; "PS384"; "PS512";
   "ES256"; "ES384"; "ES512"; "EdDSA"; "none"].

(** [jwt.GetSigningMethod(alg)], [nil] for an unregistered name. *)
Definition GetSigningMethod (alg : string) : option SigningMethod :=
  if String.eqb alg "HS256" then Some (SigningMethodHMAC SHA256)
  else if String.eqb alg "HS384" then Some (SigningMethodHMAC SHA384)
  else if String.eqb alg "HS512" then Some (SigningMethodHMAC SHA512)
  else if bool_decide (alg ∈ other_algs) then Some (SigningMethodOther alg)
  else None.

(** [utils.JWTClaims]: the two custom claims and the registered claims the
    program sets.  A [*jwt.NumericDate] is an optional [time.Time]. *)
Record JWTClaims := mkJWTClaims {
  UserID : uint;
  Email : string;
  ExpiresAt : option Time;
  IssuedAt : option Time;
  NotBefore : option Time;
  Issuer : string
}.

(** [jwt.TimePrecision], which is [time.Second] unless a program changes
    it; this one does not. *)
Definition TimePrecision : Duration := time_Second.

(** [jwt.NewNumericDate(t)]: [&NumericDate{t.Truncate(TimePrecision)}] *)
Definition NewNumericDate (t : Time) : option Time := Some (Truncate t TimePrecision).

(** [jwt.Token] *)
Record Token := mkToken {
  Method : SigningMethod;
  Claims : JWTClaims;
  Signature : string;
  Valid : bool
}.

(** [jwt.NewWithClaims(method, claims)] *)
Definition NewWithClaims (method : SigningMethod) (claims : JWTClaims) : Token :=
  mkToken method claims "" false.

(** What the parser reads off a token string of three segments: the text
    that was signed ([parts[0] + "." + parts[1]]), the [alg] entry of the
    header when it is a string, the decoded claims, and the decoded
    signature segment ([None] when it is not base64url). *)
Record Segments := mkSegments {
  Seg_text : string;
  Seg_alg : option string;
  Seg_claims : JWTClaims;
  Seg_sig : option string
}.

Inductive Parse :=
| Malformed (detail : string)
| Wellformed (s : Segments).

(** The wire format and the keyed hash of the library, left abstract:
    - [HMAC h key message] is the MAC that [SigningMethodHMAC.Sign] computes
      and [Verify] recomputes;
    - [SigningString alg claims] is the base64url encoding of the JSON
      header [{"alg":alg,"typ":"JWT"}], a dot, and the base64url encoding of
      the JSON claims;
    - [AppendSignature text sig] is [text + "." + EncodeSegment(sig)];
    - [ParseSegments] is the decoding part of [Parser.ParseUnverified]
      together with the decoding of the signature segment. *)
Class JWTWire := {
  HMAC : HashAlg → string → string → string;
  SigningString : string → JWTClaims → string;
  AppendSignature : string → string → string;
  ParseSegments : string → Parse
}.

Section Library.
Context `{JWTWire}.

(** [func (m *SigningMethodHMAC) Sign(signingString string, key interface{})]
    for a [[]byte] key; the other families refuse a [[]byte] key. *)
Definition Sign (m : SigningMethod) (signingString key : string) : Result string :=
  match m with
  | SigningMethodHMAC h => Ok (HMAC h key signingString)
  | SigningMethodOther _ => Err (errors_New "key is of invalid type")
  end.

(** [func (m *SigningMethodHMAC) Verify(signingString string, sig []byte, key interface{}) error] *)
Definition Verify (m : SigningMethod) (signingString sig key : string) : Result unit :=
  match m with
  | SigningMethodHMAC h =>
      if String.eqb sig (HMAC h key signingString) then Ok tt
      else Err (errors_New "signature is invalid")
  | SigningMethodOther _ => Err (errors_New "key is of invalid type")
  end.

(** [func (t *Token) SignedString(key interface{}) (string, error)] *)
Definition SignedString (t : Token) (key : string) : Result string :=
  let sstr := SigningString (Alg (Method t)) (Claims t) in
  match Sign (Method t) sstr key with
  | Err e => Err e
  | Ok sig => Ok (AppendSignature sstr sig)
  end.

(** [verifyExpiresAt]: the claim is optional; when present the token is
    expired unless [now.Before(exp)]. *)
Definition verifyExpiresAt (claims : JWTClaims) (cmp : Time) : list ClaimFault :=
  match ExpiresAt claims with
  | None => []
  | Some exp => if cmp <? exp then [] else [TokenExpired]
  end.

(** [verifyNotBefore]: the claim is optional; when present the token is not
    valid yet if [now.Before(nbf)]. *)
Definition verifyNotBefore (claims : JWTClaims) (cmp : Time) : list ClaimFault :=
  match NotBefore claims with
  | None => []
  | Some nbf => if cmp <? nbf then [TokenNotValidYet] else []
  end.

(** [func (v *Validator) Validate(claims Claims) error] of the default
    validator: no leeway, the clock is [time.Now], issued-at is not
    verified, and no issuer, subject or audience is expected. *)
Definition Validate (claims : JWTClaims) : M unit :=
  now <- time_Now ;;
  match (verifyExpiresAt claims now ++ verifyNotBefore claims now)%list with
  | [] => ret tt
  | errs => fail (ErrTokenInvalidClaims errs)
  end.

(** [func (p *Parser) ParseWithClaims(tokenString string, claims Claims, keyFunc Keyfunc)]
    of the default parser: decode the three segments, resolve the signing
    method, ask [keyFunc] for the key, verify the signature, validate the
    claims. *)
Definition ParseWithClaims (tokenString : string)
    (keyFunc : Token → Result string) : M Token :=
  match ParseSegments tokenString with
  | Malformed detail => fail (ErrTokenMalformed detail)
  | Wellformed s =>
      match Seg_alg s with
      | None => fail (ErrTokenUnverifiable "signing method (alg) is unspecified")
      | Some alg =>
          match GetSigningMethod alg with
          | None => fail (ErrTokenUnverifiable "signing method (alg) is unavailable")
          | Some method =>
              let token := mkToken method (Seg_claims s) "" false in
              match keyFunc token with
              | Err e =>
                  fail (ErrTokenUnverifiable
                          ("error while executing keyfunc: " +:+ Error e))
              | Ok key =>
                  match Seg_sig s with
                  | None => fail (ErrTokenMalformed "could not base64 decode signature")
                  | Some sig =>
                      match Verify method (Seg_text s) sig key with
                      | Err _ => fail ErrTokenSignatureInvalid
                      | Ok _ =>
                          _ <- Validate (Seg_claims s) ;;
                          ret (mkToken method (Seg_claims s) sig true)
                      end
                  end
              end
          end
      end
  end.

End Library.

(** ** Package [utils]: [JWTManager] *)

Record JWTManager := NewJWTManager {
  secret : string;
  expiry : Duration;
  issuer : string
}.

Module JWT.
Section WithWire.
Context `{JWTWire}.

(** [func (j *JWTManager) GenerateToken(userID uint, email string) (string, error)].
    The three [time.Now()] calls of the struct literal are three readings of
    the clock, taken in the order of the fields. *)
Definition GenerateToken (j : JWTManager) (userID : uint) (email : string) : M string :=
  t_exp <- time_Now ;;
  t_iat <- time_Now ;;
  t_nbf <- time_Now ;;
  let claims :=
    {| UserID := userID;
       Email := email;
       ExpiresAt := NewNumericDate (t_exp + expiry j);
       IssuedAt := NewNumericDate t_iat;
       NotBefore := NewNumericDate t_nbf;
       Issuer := issuer j |} in
  let token := NewWithClaims SigningMethodHS256 claims in
  lift (SignedString token (secret j)).

(** The key function passed by [ValidateToken]. *)
Definition keyFunc (j : JWTManager) (token : Token) : Result string :=
  match Method token with
  | SigningMethodHMAC _ => Ok (secret j)
  | _ => Err (errors_New "invalid signing method")
  end.

(** [func (j *JWTManager) ValidateToken(tokenString string)], returning a
    [*JWTClaims] and an [error]. *)
Definition ValidateToken (j : JWTManager) (tokenString : string) : M JWTClaims :=
  fun w =>
    match ParseWithClaims tokenString (keyFunc j) w with
    | (Err err, w') => (Err err, w')
    | (Ok token, w') =>
        if negb (Valid token) then (Err (errors_New "invalid token"), w')
        else (Ok (Claims token), w')
    end.

(** [func (j *JWTManager) RefreshToken(claims *JWTClaims) (string, error)] *)
Definition RefreshToken (j : JWTManager) (claims : JWTClaims) : M string :=
  GenerateToken j (UserID claims) (Email claims).

End WithWire.
End JWT.

(** ** Package [services]: [AuthService] *)

(** Other requests running while this one is between two of its database
    round trips: they take the world to another world. *)
Definition yield (others : World → World) : M unit := fun w => (Ok tt, others w).

Module AuthService.
Section WithLibraries.
Context `{Bcrypt} `{JWTWire}.

(** [func (s *AuthService) Register(req *RegisterRequest)], returning an
    [*AuthResponse] and an [error], with the requests of other clients
    scheduled between the uniqueness check and the insert. *)
Definition Register_among (others : World → World) (jwtManager : JWTManager)
    (req : RegisterRequest) : M AuthResponse :=
  exists_ <- UserRepository.ExistsByEmail (Reg_Email req) ;;
  if (exists_ : bool) then fail (errors_New "email already registered")
  else
    hashedPassword <- lift (GenerateFromPassword (Reg_Password req)) ;;
    let user := mkUser 0 (Reg_Email req) hashedPassword time_zero time_zero None in
    _ <- yield others ;;
    user <- UserRepository.Create user ;;
    token <- JWT.GenerateToken jwtManager (User_ID user) (User_Email user) ;;
    ret {| AR_User := User_ToResponse user; AR_Token := token |}.

(** [Register] of a request that runs alone. *)
Definition Register : JWTManager → RegisterRequest → M AuthResponse :=
  Register_among (fun w => w).

(** [func (s *AuthService) Login(req *LoginRequest)], returning an
    [*AuthResponse] and an [error]. *)
Definition Login (jwtManager : JWTManager) (req : LoginRequest) : M AuthResponse :=
  user <- UserRepository.FindByEmail (Login_Email req) ;;
  match user with
  | None => fail (errors_New "invalid email or password")
  | Some user =>
      match CompareHashAndPassword (User_Password user) (Login_Password req) with
      | Err _ => fail (errors_New "invalid email or password")
      | Ok _ =>
          token <- JWT.GenerateToken jwtManager (User_ID user) (User_Email user) ;;
          ret {| AR_User := User_ToResponse user; AR_Token := token |}
      end
  end.

End WithLibraries.
End AuthService.

(** ** Package [handlers]: [AuthHandler] *)

Module AuthHandler.
Section WithLibraries.
Context `{Binding} `{Bcrypt} `{JWTWire}.

(** The body of [func (h *AuthHandler) Register(c *gin.Context)] around a
    given registration service call. *)
Definition Register_with (register : RegisterRequest → M AuthResponse) : HandlerFunc :=
  fun c w =>
    match ShouldBindJSON_Register (Body c) with
    | Err err => (utils.ValidationError c (Error err), w)
    | Ok req =>
        match register req w with
        | (Err err, w') =>
            if String.eqb (Error err) "email already registered"
            then (utils.ConflictError c (Error err), w')
            else (utils.InternalError c "Failed to register user", w')
        | (Ok response, w') =>
            (utils.Created c "User registered successfully" (DataAuth response), w')
        end
    end.

(** [func (h *AuthHandler) Register(c *gin.Context)] *)
Definition Register (jwtManager : JWTManager) : HandlerFunc :=
  Register_with (AuthService.Register jwtManager).

(** [func (h *AuthHandler) Login(c *gin.Context)] *)
Definition Login (jwtManager : JWTManager) : HandlerFunc := fun c w =>
  match ShouldBindJSON_Login (Body c) with
  | Err err => (utils.ValidationError c (Error err), w)
  | Ok req =>
      match AuthService.Login jwtManager req w with
      | (Err err, w') => (utils.UnauthorizedError c (Error err), w')
      | (Ok response, w') => (utils.OK c "Login successful" (DataAuth response), w')
      end
  end.

End WithLibraries.
End AuthHandler.

(** ** Package [middleware]: [AuthMiddleware] *)

(** [strings.SplitN(s, " ", 2)]: the text before the first space and the
    text after it, or [s] alone when it has no space. *)
Fixpoint SplitN2 (s : string) : list string :=
  match s with
  | EmptyString => [EmptyString]
  | String c rest =>
      if Ascii.eqb c " "%char then [EmptyString; rest]
      else match SplitN2 rest with
           | [a] => [String c a]
           | a :: l => String c a :: l
           | [] => []
           end
  end.

Definition lower (c : ascii) : ascii :=
  let n := Ascii.N_of_ascii c in
  if ((65 <=? n) && (n <=? 90))%N then Ascii.ascii_of_N (n + 32) else c.

(** [strings.ToLower] on the ASCII letters.  Go also maps the letters
    beyond ASCII, none of which maps to a letter of ["bearer"]; the
    comparison with ["bearer"] is the only use made of the result. *)
Fixpoint ToLower (s : string) : string :=
  match s with
  | EmptyString => EmptyString
  | String c rest => String (lower c) (ToLower rest)
  end.

Section Middleware.
Context `{JWTWire}.

(** [func AuthMiddleware(jwtManager *utils.JWTManager) gin.HandlerFunc].
    [next] is the rest of the handler chain, which [c.Next()] runs and a
    handler that calls [c.Abort()] and returns does not. *)
Definition AuthMiddleware (jwtManager : JWTManager) (next : HandlerFunc) : HandlerFunc :=
  fun c w =>
    let authHeader := Authorization c in
    if String.eqb authHeader "" then
      (Abort (utils.UnauthorizedError c "Authorization header required"), w)
    else
      let parts := SplitN2 authHeader in
      if negb (length parts =? 2)%nat
         || negb (String.eqb (ToLower (nth 0 parts "")) "bearer")
      then
        (Abort (utils.UnauthorizedError c
                  "Invalid authorization format. Use: Bearer <token>"), w)
      else
        let tokenString := nth 1 parts "" in
        match JWT.ValidateToken jwtManager tokenString w with
        | (Err _, w') =>
            (Abort (utils.UnauthorizedError c "Invalid or expired token"), w')
        | (Ok claims, w') =>
            let c := Set_ c "user_id" (AnyUint (UserID claims)) in
            let c := Set_ c "user_email" (AnyString (Email claims)) in
            next c w'
        end.

End Middleware.

(** ** A reference instantiation of the libraries

    The properties below hold for every implementation of the library
    interfaces.  To run the model on concrete requests, this module provides
    small executable stand-ins with the same shape: a token is a header, a
    claims and a signature segment joined by dots, and numeric dates travel
    as whole seconds. *)

Module Reference.

Fixpoint bits (p : positive) : string :=
  match p with
  | xH => EmptyString
  | xO p => String "0" (bits p)
  | xI p => String "1" (bits p)
  end.

Fixpoint unbits (s : string) : option positive :=
  match s with
  | EmptyString => Some xH
  | String c rest =>
      match unbits rest with
      | None => None
      | Some p =>
          if Ascii.eqb c "0" then Some (xO p)
          else if Ascii.eqb c "1" then Some (xI p)
          else None
      end
  end.

(** The text before the first occurrence of [sep] and the text after it. *)
Fixpoint cut (sep : ascii) (s : string) : option (string * string) :=
  match s with
  | EmptyString => None
  | String c rest =>
      if Ascii.eqb c sep then Some (EmptyString, rest)
      else match cut sep rest with
           | Some (a, b) => Some (String c a, b)
           | None => None
           end
  end.

(** A reader consumes a prefix of its input. *)
Definition Reader (A : Type) : Type := string → option (A * string).

Definition write_N (n : N) : string := bits (N.succ_pos n) +:+ ";".

Definition read_N : Reader N := fun s =>
  match cut ";" s with
  | Some (b, rest) =>
      match unbits b with
      | Some p => Some (Pos.pred_N p, rest)
      | None => None
      end
  | None => None
  end.

(** A string is written as its length, a colon, and its bytes. *)
Definition write_string (v : string) : string :=
  bits (Pos.of_succ_nat (String.length v)) +:+ ":" +:+ v.

Definition read_string : Reader string := fun s =>
  match cut ":" s with
  | Some (b, rest) =>
      match unbits b with
      | Some p =>
          let n := Nat.pred (Pos.to_nat p) in
          if (String.length rest <? n)%nat then None
          else Some (String.substring 0 n rest,
                     String.substring n (String.length rest - n) rest)
      | None => None
      end
  | None => None
  end.

Definition write_date (d : option Time) : string :=
  match d with
  | None => "-;"
  | Some t => write_N (Z.to_N (Z.quot t time_Second))
  end.

Definition read_date : Reader (option Time) := fun s =>
  match cut ";" s with
  | Some (b, rest) =>
      if String.eqb b "-" then Some (None, rest)
      else match unbits b with
           | Some p => Some (Some (Z.of_N (Pos.pred_N p) * time_Second), rest)
           | None => None
           end
  | None => None
  end.

Definition write_claims (c : JWTClaims) : string :=
  write_N (UserID c) +:+ write_string (Email c) +:+ write_date (ExpiresAt c)
  +:+ write_date (IssuedAt c) +:+ write_date (NotBefore c) +:+ write_string (Issuer c).

Definition read_claims : Reader JWTClaims := fun s =>
  match read_N s with
  | Some (u, s) =>
  match read_string s with
  | Some (e, s) =>
  match read_date s with
  | Some (x, s) =>
  match read_date s with
  | Some (i, s) =>
  match read_date s with
  | Some (n, s) =>
  match read_string s with
  | Some (iss, s) => Some (mkJWTClaims u e x i n iss, s)
  | None => None end
  | None => None end
  | None => None end
  | None => None end
  | None => None end
  | None => None end.

(** The token string [header.claims.signature] is read from the left: the
    header and the claims are self-delimiting, the signature is the rest. *)
Definition read_token (tokenString : string) : Parse :=
  match read_string tokenString with
  | Some (alg, String "." rest) =>
      match read_claims rest with
      | Some (claims, String "." sig) =>
          let text :=
            String.substring 0 (String.length tokenString - String.length sig - 1)
              tokenString in
          Wellformed (mkSegments text (Some alg) claims (Some sig))
      | Some _ => Malformed "token contains an invalid number of segments"
      | None => Malformed "could not decode claim"
      end
  | Some _ => Malformed "token contains an invalid number of segments"
  | None => Malformed "could not decode header"
  end.

#[global] Instance wire : JWTWire := {|
  HMAC h key message :=
    match h with SHA256 => "256" | SHA384 => "384" | SHA512 => "512" end
    +:+ "/" +:+ key +:+ "/" +:+ message;
  SigningString alg claims := write_string alg +:+ "." +:+ write_claims claims;
  AppendSignature text sig := text +:+ "." +:+ sig;
  ParseSegments := read_token
|}.

#[global] Instance bcrypt : Bcrypt := {|
  GenerateFromPassword password :=
    if (72 <? String.length password)%nat
    then Err (ErrBcrypt "bcrypt: password length exceeds 72 bytes")
    else Ok ("$2a$10$" +:+ password);
  CompareHashAndPassword hashedPassword password :=
    if String.eqb hashedPassword ("$2a$10$" +:+ password) then Ok tt
    else Err ErrHashMismatch
|}.

(** Request bodies are read as [email password] for the two authentication
    requests and as a new title for an update. *)
#[global] Instance binding : Binding := {|
  ShouldBindJSON_Register body :=
    match SplitN2 body with
    | [e; p] => Ok (mkRegisterRequest e p)
    | _ => Err (ErrBinding "invalid request")
    end;
  ShouldBindJSON_Login body :=
    match SplitN2 body with
    | [e; p] => Ok (mkLoginRequest e p)
    | _ => Err (ErrBinding "invalid request")
    end;
  ShouldBindJSON_UpdateTodo body :=
    if String.eqb body "" then Err (ErrBinding "EOF")
    else Ok (mkUpdateTodoRequest (Some body) None None None None)
|}.

(** A world with empty tables whose clock stands half a second past a whole
    second and advances by a quarter of a second per reading. *)
Definition quarter : Duration := 250000000.

Definition empty_world : World :=
  mkWorld ∅ 0 ∅ 0 [] 1700000000500000000 (replicate 12 quarter).

Definition manager : JWTManager := NewJWTManager "test-secret" time_Hour "test".

(** A todo of user 1, stored under the primary key 7. *)
Definition alice_todo : Todo :=
  mkTodo 7 "Write report" "quarterly" false "medium" None 1
    1700000000000000000 1700000000000000000 None.

Definition alice_world : World :=
  mkWorld ∅ 0 {[ 7%N := alice_todo ]} 7 [] 1700000000500000000 (replicate 12 quarter).

(** A request on which the authorization gate has injected the identity of
    user [id]. *)
Definition request_of (id : uint) (email body : string) : Context :=
  Set_ (Set_ (request "" "" body) "user_id" (AnyUint id)) "user_email" (AnyString email).

End Reference.

(** ** Specification-level views of the store *)

(** The todo with primary key [id], provided it is live and owned by
    [userID]: the predicate "resource with this ID and this owning
    identity". *)
Definition owned_by (w : World) (id userID : uint) : option Todo :=
  match todos w !! id with
  | Some t =>
      if Todo_live t && (Todo_UserID t =? userID)%N then Some (set_Todo_ID id t)
      else None
  | None => None
  end.

(** The response a handler has written: status code and JSON body. *)
Definition response (r : Context * World) : option (Z * option APIResponse) :=
  Written r.1.

(** The [NotFound] outcome on the wire. *)
Definition NotFound (resource : string) : option (Z * option APIResponse) :=
  Some (404,
        Some {| Resp_Success := false; Resp_Message := ""; Resp_Data := NoData;
                Resp_Error := Some {| Code := "NOT_FOUND";
                                      Message := resource +:+ " not found";
                                      Details := None |} |}).

(** The same request for another path parameter. *)
Definition with_Param_id (p : string) (c : Context) : Context :=
  mkContext (Authorization c) p (Body c) (Keys c) (Aborted c) (Written c).

(** The same two responses and the same two worlds. *)
Definition same_outcome (a b : Context * World) : Prop :=
  response a = response b ∧ a.2 = b.2.

(** What a service call returns for a todo the caller does not own. *)
Definition not_found_or_fault (w : World) : error :=
  match next_fault w with
  | Some e => e
  | None => errors_New "todo not found"
  end.

(** Whether a live user holds [email]: the answer of the uniqueness
    pre-check. *)
Definition email_taken (w : World) (email : string) : bool :=
  (0 <? gorm_Count User_live (users w) (UserRepository.email_is email))%N.

(** The live user holding [email] (the one of least primary key). *)
Definition user_by_email (w : World) (email : string) : option User :=
  match first_by_key (gorm_select User_live (users w) (UserRepository.email_is email)) with
  | Some (k, u) => Some (set_User_ID k u)
  | None => None
  end.

(** The [InvalidCredentials] outcome on the wire. *)
Definition InvalidCredentials : option (Z * option APIResponse) :=
  Some (401,
        Some {| Resp_Success := false; Resp_Message := ""; Resp_Data := NoData;
                Resp_Error := Some {| Code := "UNAUTHORIZED";
                                      Message := "invalid email or password";
                                      Details := None |} |}).

(** The [EmailTaken] outcome on the wire. *)
Definition EmailTaken : option (Z * option APIResponse) :=
  Some (409,
        Some {| Resp_Success := false; Resp_Message := ""; Resp_Data := NoData;
                Resp_Error := Some {| Code := "CONFLICT";
                                      Message := "email already registered";
                                      Details := None |} |}).

(** The [Internal] outcome on the wire, with the handler's message. *)
Definition Internal (message : string) : option (Z * option APIResponse) :=
  Some (500,
        Some {| Resp_Success := false; Resp_Message := ""; Resp_Data := NoData;
                Resp_Error := Some {| Code := "INTERNAL_ERROR";
                                      Message := message;
                                      Details := None |} |}).

(** The [Unauthenticated] outcome on the wire, with the gate's message. *)
Definition Unauthenticated (message : string) : option (Z * option APIResponse) :=
  Some (401,
        Some {| Resp_Success := false; Resp_Message := ""; Resp_Data := NoData;
                Resp_Error := Some {| Code := "UNAUTHORIZED";
                                      Message := message;
                                      Details := None |} |}).

(** The same request with another body. *)
Definition with_Body (b : string) (c : Context) : Context :=
  mkContext (Authorization c) (Param_id c) b (Keys c) (Aborted c) (Written c).

(** The claims that [GenerateToken] signs in world [w]: the registered
    dates are the three clock readings (the first one plus the time to
    live), each truncated to [TimePrecision]. *)
Definition issued_claims (j : JWTManager) (userID : uint) (email : string)
    (w : World) : JWTClaims :=
  {| UserID := userID;
     Email := email;
     ExpiresAt := Some (Truncate (now w + expiry j) time_Second);
     IssuedAt := Some (Truncate (now (tick w)) time_Second);
     NotBefore := Some (Truncate (now (tick (tick w))) time_Second);
     Issuer := issuer j |}.

(** The wire format carries this token faithfully: parsing what was
    assembled gives back the signed text, the header's [alg], the claims and
    the signature. *)
Definition wire_faithful `{JWTWire} (alg : string) (claims : JWTClaims)
    (sig : string) : Prop :=
  ParseSegments (AppendSignature (SigningString alg claims) sig)
  = Wellformed (mkSegments (SigningString alg claims) (Some alg) claims (Some sig)).

(** The four causes for which the parser rejects a token string, in the
    order in which it checks them. *)
Inductive Rejection :=
| MalformedEncoding
| WrongAlgorithmFamily
| SignatureMismatch
| OutsideValidityWindow.

(** The cause, if any, for which [tokenString] is rejected under the key
    [key] at the instant [t]. *)
Definition rejection `{JWTWire} (key tokenString : string) (t : Time) : option Rejection :=
  match ParseSegments tokenString with
  | Malformed _ => Some MalformedEncoding
  | Wellformed s =>
      match Seg_alg s with
      | None => Some WrongAlgorithmFamily
      | Some alg =>
          match GetSigningMethod alg with
          | Some (SigningMethodHMAC h) =>
              match Seg_sig s with
              | None => Some MalformedEncoding
              | Some sig =>
                  if String.eqb sig (HMAC h key (Seg_text s)) then
                    match (verifyExpiresAt (Seg_claims s) t
                           ++ verifyNotBefore (Seg_claims s) t)%list with
                    | [] => None
                    | _ => Some OutsideValidityWindow
                    end
                  else Some SignatureMismatch
              end
          | _ => Some WrongAlgorithmFamily
          end
      end
  end.

(** The rejection cause an error of [ValidateToken] discloses. *)
Definition disclosed (e : error) : option Rejection :=
  match e with
  | ErrTokenMalformed _ => Some MalformedEncoding
  | ErrTokenUnverifiable _ => Some WrongAlgorithmFamily
  | ErrTokenSignatureInvalid => Some SignatureMismatch
  | ErrTokenInvalidClaims _ => Some OutsideValidityWindow
  | _ => None
  end.

Fixpoint spaceless (s : string) : bool :=
  match s with
  | EmptyString => true
  | String c rest => negb (Ascii.eqb c " ") && spaceless rest
  end.

(** The header consists of a scheme that is [Bearer] up to the case of its
    letters, one space, and the token string [tokenString]. *)
Definition bearer_header (header tokenString : string) : Prop :=
  ∃ scheme, ToLower scheme = "bearer" ∧ header = scheme +:+ " " +:+ tokenString.

(** The context with the identity of [claims] injected. *)
Definition inject (claims : JWTClaims) (c : Context) : Context :=
  Set_ (Set_ c "user_id" (AnyUint (UserID claims))) "user_email" (AnyString (Email claims)).

(** The conditions under which the gate refuses a request. *)
Definition refused `{JWTWire} (j : JWTManager) (c : Context) (w : World) : Prop :=
  Authorization c = ""
  ∨ (∀ tokenString, ¬ bearer_header (Authorization c) tokenString)
  ∨ (∃ tokenString, bearer_header (Authorization c) tokenString
                    ∧ is_Ok (JWT.ValidateToken j tokenString w).1 = false).

(** The two worlds hold the same database and the same fault schedule. *)
Definition same_database (w w' : World) : Prop :=
  users w' = users w ∧ users_seq w' = users_seq w ∧ todos w' = todos w
  ∧ todos_seq w' = todos_seq w ∧ faults w' = faults w.

(** ** Sample tokens of the reference instantiation *)

Module Samples.

(** A world whose clock stands still at half past a whole second. *)
Definition still_world : World := mkWorld ∅ 0 ∅ 0 [] 1700000000500000000 [].

(** Ten days later. *)
Definition later_world : World := mkWorld ∅ 0 ∅ 0 [] 1700864000500000000 [].

(** A token of the reference manager, issued in [still_world] for one
    hour. *)
Definition fresh_token : string :=
  match (JWT.GenerateToken Reference.manager 1 "alice@example.com" still_world).1 with
  | Ok t => t
  | Err _ => ""
  end.

(** A token signed with another secret. *)
Definition forged_token : string :=
  match (JWT.GenerateToken (NewJWTManager "guessed" time_Hour "test") 1
           "alice@example.com" still_world).1 with
  | Ok t => t
  | Err _ => ""
  end.

(** A token whose header names an algorithm outside the HMAC family. *)
Definition rs256_token : string :=
  AppendSignature
    (SigningString "RS256" (issued_claims Reference.manager 1 "alice@example.com" still_world))
    "signature".

(** A manager whose tokens live for one nanosecond. *)
Definition brief_manager : JWTManager := NewJWTManager "test-secret" 1 "test".

Definition brief_token : string :=
  match (JWT.GenerateToken brief_manager 1 "alice@example.com" still_world).1 with
  | Ok t => t
  | Err _ => ""
  end.

(** A manager whose tokens are born expired. *)
Definition expired_manager : JWTManager := NewJWTManager "test-secret" (-1) "test".

End Samples.

(** ** Package [config] *)

(** [strconv.Atoi] on a platform whose [int] has 64 bits: an optional sign,
    then decimal digits, at least one, and a value within [int]. *)
Definition strconv_Atoi (s : string) : Result Z :=
  let '(negative, digits) :=
    match s with
    | String "-" rest => (true, rest)
    | String "+" rest => (false, rest)
    | _ => (false, s)
    end in
  match digits with
  | EmptyString => Err (ErrNum "invalid syntax")
  | _ =>
      match parse_digits digits 0 with
      | None => Err (ErrNum "invalid syntax")
      | Some n =>
          let v := if negative then - Z.of_N n else Z.of_N n in
          if (- 2 ^ 63 <=? v) && (v <=? 2 ^ 63 - 1) then Ok v
          else Err (ErrNum "value out of range")
      end
  end.

(** The value of an [int64] computation: the result modulo [2^64], read as
    a signed number. *)
Definition int64 (z : Z) : Z := (z + 2 ^ 63) mod 2 ^ 64 - 2 ^ 63.

Module config.

Record ServerConfig := mkServerConfig {
  Port : string;
  Environment : string;
  ReadTimeout : Duration;
  WriteTimeout : Duration
}.

Record DatabaseConfig := mkDatabaseConfig {
  Host : string;
  DB_Port : string;
  User : string;
  Password : string;
  DBName : string;
  SSLMode : string
}.

Record JWTConfig := mkJWTConfig {
  Secret : string;
  Expiry : Duration;
  Issuer : string
}.

Record Config := mkConfig {
  Server : ServerConfig;
  Database : DatabaseConfig;
  JWT : JWTConfig
}.

(** [os.Getenv(key)] in the environment [env]: the empty string for a
    variable that is not set. *)
Definition Getenv (env : gmap string string) (key : string) : string :=
  default "" (env !! key).

(** [func getEnv(key, defaultValue string) string] *)
Definition getEnv (env : gmap string string) (key defaultValue : string) : string :=
  let value := Getenv env key in
  if negb (String.eqb value "") then value else defaultValue.

(** [func getDurationEnv(key string, defaultValue time.Duration) time.Duration] *)
Definition getDurationEnv (env : gmap string string) (key : string)
    (defaultValue : Duration) : Duration :=
  let value := Getenv env key in
  if negb (String.eqb value "") then
    match strconv_Atoi value with
    | Ok seconds => int64 (seconds * time_Second)
    | Err _ => defaultValue
    end
  else defaultValue.

(** [func Load()], returning a [*Config] and an [error], in the environment that
    [godotenv.Load()] leaves. *)
Definition Load (env : gmap string string) : Config :=
  {| Server :=
       {| Port := getEnv env "SERVER_PORT" "8080";
          Environment := getEnv env "ENVIRONMENT" "development";
          ReadTimeout := getDurationEnv env "READ_TIMEOUT" (10 * time_Second);
          WriteTimeout := getDurationEnv env "WRITE_TIMEOUT" (10 * time_Second) |};
     Database :=
       {| Host := getEnv env "DB_HOST" "localhost";
          DB_Port := getEnv env "DB_PORT" "5432";
          User := getEnv env "DB_USER" "postgres";
          Password := getEnv env "DB_PASSWORD" "postgres";
          DBName := getEnv env "DB_NAME" "todo_api";
          SSLMode := getEnv env "DB_SSLMODE" "disable" |};
     JWT :=
       {| Secret := getEnv env "JWT_SECRET" "your-super-secret-key-change-in-production";
          Expiry := getDurationEnv env "JWT_EXPIRY" (24 * time_Hour);
          Issuer := getEnv env "JWT_ISSUER" "todo-api" |} |}.

(** [func (c *DatabaseConfig) DSN() string] *)
Definition DSN (c : DatabaseConfig) : string :=
  "host=" +:+ Host c +:+ " port=" +:+ DB_Port c +:+ " user=" +:+ User c
  +:+ " password=" +:+ Password c +:+ " dbname=" +:+ DBName c
  +:+ " sslmode=" +:+ SSLMode c.

End config.

(** The JWT manager that [main] builds from the configuration:
    [utils.NewJWTManager(cfg.JWT.Secret, cfg.JWT.Expiry, cfg.JWT.Issuer)]. *)
Definition main_jwtManager (cfg : config.Config) : JWTManager :=
  NewJWTManager (config.Secret (config.JWT cfg)) (config.Expiry (config.JWT cfg))
    (config.Issuer (config.JWT cfg)).

(** ** More specification-level views *)

(** The number of live todos of [userID] that satisfy [P]. *)
Definition count_todos (w : World) (userID : uint) (P : Todo → bool) : Z :=
  Z.of_N (gorm_Count Todo_live (todos w)
            (fun _ t => (Todo_UserID t =? userID)%N && P t)).

(** The reference stand-in for the binding of a new todo: the
    body is the title. *)
#[global] Instance Reference_binding_create : BindingCreate := {|
  ShouldBindJSON_CreateTodo body :=
    if String.eqb body "" then Err (ErrBinding "EOF")
    else Ok (mkCreateTodoRequest body "" "" None)
|}.

(** The handler, called on the context [c] in the world [w], has written
    an error response of the given status and code and returned: it has
    left the world as it found it, and the abort flag of the context too
    (among the functions embedded here only [AuthMiddleware] calls
    [c.Abort()]). *)
Definition refused_with (status : Z) (code : string) (c : Context) (w : World)
    (r : Context * World) : Prop :=
  r.2 = w
  ∧ Aborted r.1 = Aborted c
  ∧ ∃ message details,
      Written r.1
      = Some (status,
              Some {| Resp_Success := false; Resp_Message := ""; Resp_Data := NoData;
                      Resp_Error := Some {| Code := code; Message := message;
                                            Details := details |} |}).

(** The success response of the given status that carries [data]. *)
Definition succeeded_with (status : Z) (message : string) (data : Data)
    : option (Z * option APIResponse) :=
  Some (status,
        Some {| Resp_Success := true; Resp_Message := message; Resp_Data := data;
                Resp_Error := None |}).

(** A todo of user 2, stored under the primary key 9. *)
Definition bob_todo : Todo :=
  mkTodo 9 "Call Bob" "" false "low" None 2
    1700000000000000000 1700000000000000000 None.

(** A world in which the todo 7 of user 1 has a due date. *)
Definition due_world : World :=
  mkWorld ∅ 0
    {[ 7%N := set_Todo_DueDate (Some 1700600000000000000) Reference.alice_todo ]}
    7 [] 1700000000500000000 [].

(** The auto-increment sequence of the todos is ahead of every key in
    use. *)
Definition seq_covers (w : World) : Prop :=
  ∀ k, is_Some (todos w !! k) → (k ≤ todos_seq w)%N.

(** A manager whose tokens live for one second. *)
Definition second_manager : JWTManager := NewJWTManager "test-secret" time_Second "test".

(** A world whose clock shows nine tenths of a second past a whole second
    and advances by a tenth of a second at each reading. *)
Definition straddling_world : World :=
  mkWorld ∅ 0 ∅ 0 [] 1700000000900000000
    [100000000; 100000000; 100000000; 100000000].


(** * Properties *)

(** ** Database round trips *)

Lemma db_exec_cases {A} (stmt : M A) w :
  db_exec stmt w =
  match next_fault w with
  | Some e => (Err e, served w)
  | None => stmt (served w)
  end.
Proof. unfold db_exec, served, next_fault. by destruct (faults w) as [|[e|] rest]. Qed.

Lemma db_exec_healthy {A} (stmt : M A) w :
  healthy w → db_exec stmt w = stmt (served w).
Proof. intros Hh. by rewrite db_exec_cases, Hh. Qed.

Lemma served_tables w :
  users (served w) = users w ∧ users_seq (served w) = users_seq w ∧
  todos (served w) = todos w ∧ todos_seq (served w) = todos_seq w ∧
  wall (served w) = wall w ∧ elapse (served w) = elapse w.
Proof. unfold served. by destruct (faults w). Qed.

(** ** [ORDER BY id LIMIT 1] *)

Lemma first_by_key_None {T} (rows : list (N * T)) :
  first_by_key rows = None ↔ rows = [].
Proof.
  destruct rows as [|r rows]; [done|]. split; [|done].
  unfold first_by_key. simpl.
  destruct (foldr _ None rows) as [r'|]; [|done].
  by destruct (r.1 <=? r'.1)%N.
Qed.

Lemma first_by_key_In {T} (rows : list (N * T)) r :
  first_by_key rows = Some r → In r rows.
Proof.
  revert r. induction rows as [|a rows IH]; intros r; [done|].
  unfold first_by_key. simpl. fold (first_by_key rows).
  destruct (first_by_key rows) as [r'|] eqn:E.
  - destruct (a.1 <=? r'.1)%N; intros [= <-]; auto.
  - intros [= <-]. auto.
Qed.

Lemma gorm_select_In {T} (live : T → bool) tbl cond k (t : T) :
  In (k, t) (gorm_select live tbl cond) ↔
  tbl !! k = Some t ∧ live t = true ∧ cond k t = true.
Proof.
  unfold gorm_select. rewrite filter_In, <- list_elem_of_In, elem_of_map_to_list.
  simpl. rewrite andb_true_iff. tauto.
Qed.

(** A lookup by ["id = ? AND user_id = ?"] reads the row of that primary
    key and keeps it when it is live and owned. *)
Lemma gorm_First_id_and_user_id (tbl : gmap N Todo) id userID :
  gorm_First Todo_live tbl (TodoRepository.id_and_user_id id userID) =
  match tbl !! id with
  | Some t =>
      if Todo_live t && (Todo_UserID t =? userID)%N then Ok (id, t)
      else Err ErrRecordNotFound
  | None => Err ErrRecordNotFound
  end.
Proof.
  unfold gorm_First.
  destruct (first_by_key _) as [[k t]|] eqn:E.
  - apply first_by_key_In, gorm_select_In in E as (Hk & Hl & Hc).
    unfold TodoRepository.id_and_user_id in Hc. apply andb_true_iff in Hc as [Hid Hu].
    apply N.eqb_eq in Hid as ->. by rewrite Hk, Hl, Hu.
  - apply first_by_key_None in E.
    destruct (tbl !! id) as [t|] eqn:Hk; [|done].
    destruct (Todo_live t && (Todo_UserID t =? userID)%N) eqn:Hc; [|done].
    apply andb_true_iff in Hc as [Hl Hu].
    assert (In (id, t) (gorm_select Todo_live tbl (TodoRepository.id_and_user_id id userID))) as Hin.
    { apply gorm_select_In. unfold TodoRepository.id_and_user_id.
      by rewrite N.eqb_refl, Hu. }
    rewrite E in Hin. destruct Hin.
Qed.

(** The ownership-scoped lookup, whatever the driver does. *)
Lemma FindByIDAndUserID_cases id userID w :
  TodoRepository.FindByIDAndUserID id userID w =
  match next_fault w with
  | Some e => (Err e, served w)
  | None => (Ok (owned_by w id userID), served w)
  end.
Proof.
  unfold TodoRepository.FindByIDAndUserID. rewrite db_exec_cases.
  destruct (next_fault w); [done|].
  rewrite gorm_First_id_and_user_id. unfold owned_by.
  destruct (served_tables w) as (_ & _ & -> & _).
  destruct (todos w !! id) as [t|]; try done.
  by destruct (Todo_live t && (Todo_UserID t =? userID)%N).
Qed.

(** ** Ownership scoping *)

Section NotOwned.
Context (w : World) (id caller : uint).
Hypothesis not_owned : owned_by w id caller = None.

Lemma GetByID_not_owned :
  TodoService.GetByID id caller w = (Err (not_found_or_fault w), served w).
Proof.
  unfold TodoService.GetByID, bind, not_found_or_fault.
  rewrite FindByIDAndUserID_cases, not_owned.
  by destruct (next_fault w).
Qed.

Lemma Update_not_owned req :
  TodoService.Update id caller req w = (Err (not_found_or_fault w), served w).
Proof.
  unfold TodoService.Update, bind, not_found_or_fault.
  rewrite FindByIDAndUserID_cases, not_owned.
  by destruct (next_fault w).
Qed.

Lemma Delete_not_owned :
  TodoService.Delete id caller w = (Err (not_found_or_fault w), served w).
Proof.
  unfold TodoService.Delete, bind, not_found_or_fault.
  rewrite FindByIDAndUserID_cases, not_owned.
  by destruct (next_fault w).
Qed.
End NotOwned.

Lemma owned_by_foreign w id caller t :
  todos w !! id = Some t → Todo_UserID t ≠ caller → owned_by w id caller = None.
Proof.
  intros Ht Hne. unfold owned_by. rewrite Ht.
  destruct (N.eqb_spec (Todo_UserID t) caller); [done|].
  by rewrite andb_false_r.
Qed.

Lemma owned_by_missing w id caller :
  todos w !! id = None → owned_by w id caller = None.
Proof. intros Ht. unfold owned_by. by rewrite Ht. Qed.

Lemma not_found_or_fault_healthy w :
  healthy w → not_found_or_fault w = errors_New "todo not found".
Proof. intros Hh. unfold not_found_or_fault. by rewrite Hh. Qed.

Section NotOwnedHandlers.
Context `{Binding} (w : World) (id caller : uint) (c : Context) (p : string).
Hypothesis not_owned : owned_by w id caller = None.
Hypothesis authenticated : GetUserID c = (caller, true).
Hypothesis parsed : strconv_ParseUint32 p = Ok id.

Lemma handler_GetByID_not_owned :
  TodoHandler.GetByID (with_Param_id p c) w
  = (utils.NotFoundError (with_Param_id p c) "Todo", served w).
Proof.
  unfold TodoHandler.GetByID.
  change (GetUserID (with_Param_id p c)) with (GetUserID c).
  rewrite authenticated. simpl Param_id. rewrite parsed.
  by rewrite (GetByID_not_owned _ _ _ not_owned).
Qed.

Lemma handler_Update_not_owned req :
  ShouldBindJSON_UpdateTodo (Body c) = Ok req →
  TodoHandler.Update (with_Param_id p c) w
  = (if String.eqb (Error (not_found_or_fault w)) "todo not found"
     then utils.NotFoundError (with_Param_id p c) "Todo"
     else utils.InternalError (with_Param_id p c) "Failed to update todo",
     served w).
Proof.
  intros Hb. unfold TodoHandler.Update.
  change (GetUserID (with_Param_id p c)) with (GetUserID c).
  rewrite authenticated. simpl Param_id. simpl Body. rewrite parsed, Hb.
  rewrite (Update_not_owned _ _ _ not_owned).
  by destruct (String.eqb _ _).
Qed.

Lemma handler_Delete_not_owned :
  TodoHandler.Delete (with_Param_id p c) w
  = (if String.eqb (Error (not_found_or_fault w)) "todo not found"
     then utils.NotFoundError (with_Param_id p c) "Todo"
     else utils.InternalError (with_Param_id p c) "Failed to delete todo",
     served w).
Proof.
  unfold TodoHandler.Delete.
  change (GetUserID (with_Param_id p c)) with (GetUserID c).
  rewrite authenticated. simpl Param_id. rewrite parsed.
  rewrite (Delete_not_owned _ _ _ not_owned).
  by destruct (String.eqb _ _).
Qed.
End NotOwnedHandlers.

(** C1.  For an authenticated caller, reading, updating or deleting a todo
    that belongs to someone else has the same outcome as the same operation
    on an identifier under which nothing is stored.  The repository answers
    by the single predicate [owned_by] (identifier and owner together),
    which holds of neither identifier; each of the three service calls
    returns the same result and leaves the same world for both identifiers,
    on a healthy database the error ["todo not found"] with no row touched;
    and each of the three handlers answers both requests with the same
    response, on a healthy database the 404 [NOT_FOUND] response. *)
Theorem not_found_is_uniform `{Binding} (w : World) (caller theirs missing : uint)
    (t : Todo) (c : Context) (p_theirs p_missing : string) (req : UpdateTodoRequest) :
  todos w !! theirs = Some t → Todo_UserID t ≠ caller →
  todos w !! missing = None →
  GetUserID c = (caller, true) →
  strconv_ParseUint32 p_theirs = Ok theirs →
  strconv_ParseUint32 p_missing = Ok missing →
  ShouldBindJSON_UpdateTodo (Body c) = Ok req →
  (∀ id, healthy w →
     TodoRepository.FindByIDAndUserID id caller w = (Ok (owned_by w id caller), served w))
  ∧ (owned_by w theirs caller = None ∧ owned_by w missing caller = None)
  ∧ (TodoService.GetByID theirs caller w = TodoService.GetByID missing caller w
     ∧ TodoService.Update theirs caller req w = TodoService.Update missing caller req w
     ∧ TodoService.Delete theirs caller w = TodoService.Delete missing caller w)
  ∧ (healthy w →
       TodoService.GetByID theirs caller w = (Err (errors_New "todo not found"), served w)
     ∧ TodoService.Update theirs caller req w = (Err (errors_New "todo not found"), served w)
     ∧ TodoService.Delete theirs caller w = (Err (errors_New "todo not found"), served w))
  ∧ (same_outcome (TodoHandler.GetByID (with_Param_id p_theirs c) w)
                  (TodoHandler.GetByID (with_Param_id p_missing c) w)
     ∧ same_outcome (TodoHandler.Update (with_Param_id p_theirs c) w)
                    (TodoHandler.Update (with_Param_id p_missing c) w)
     ∧ same_outcome (TodoHandler.Delete (with_Param_id p_theirs c) w)
                    (TodoHandler.Delete (with_Param_id p_missing c) w))
  ∧ (healthy w →
       response (TodoHandler.GetByID (with_Param_id p_theirs c) w) = NotFound "Todo"
     ∧ response (TodoHandler.Update (with_Param_id p_theirs c) w) = NotFound "Todo"
     ∧ response (TodoHandler.Delete (with_Param_id p_theirs c) w) = NotFound "Todo").
Proof.
  intros Ht Hne Hm Hc Hp1 Hp2 Hb.
  pose proof (owned_by_foreign _ _ _ _ Ht Hne) as Ho1.
  pose proof (owned_by_missing w missing caller Hm) as Ho2.
  rewrite (GetByID_not_owned _ _ _ Ho1), (GetByID_not_owned _ _ _ Ho2),
    (Update_not_owned _ _ _ Ho1), (Update_not_owned _ _ _ Ho2),
    (Delete_not_owned _ _ _ Ho1), (Delete_not_owned _ _ _ Ho2).
  rewrite (handler_GetByID_not_owned _ _ _ _ _ Ho1 Hc Hp1),
    (handler_GetByID_not_owned _ _ _ _ _ Ho2 Hc Hp2),
    (handler_Update_not_owned _ _ _ _ _ Ho1 Hc Hp1 _ Hb),
    (handler_Update_not_owned _ _ _ _ _ Ho2 Hc Hp2 _ Hb),
    (handler_Delete_not_owned _ _ _ _ _ Ho1 Hc Hp1),
    (handler_Delete_not_owned _ _ _ _ _ Ho2 Hc Hp2).
  split; [|split; [done|split; [done|split; [|split]]]].
  - intros id Hh. by rewrite FindByIDAndUserID_cases, Hh.
  - intros Hh. by rewrite (not_found_or_fault_healthy _ Hh).
  - unfold same_outcome, response. repeat split;
      by destruct (String.eqb (Error (not_found_or_fault w)) "todo not found").
  - intros Hh. rewrite (not_found_or_fault_healthy _ Hh). done.
Qed.

Lemma not_found_is_uniform_witness :
  let c := Reference.request_of 2 "bob@example.com" "Take over" in
  let w := Reference.alice_world in
  todos w !! 7%N = Some Reference.alice_todo
  ∧ todos w !! 99999%N = None
  ∧ response (TodoHandler.GetByID (with_Param_id "7" c) w) = NotFound "Todo"
  ∧ response (TodoHandler.Update (with_Param_id "7" c) w) = NotFound "Todo"
  ∧ response (TodoHandler.Delete (with_Param_id "7" c) w) = NotFound "Todo"
  ∧ same_outcome (TodoHandler.Delete (with_Param_id "7" c) w)
                 (TodoHandler.Delete (with_Param_id "99999" c) w).
Proof.
  intros c w.
  destruct (not_found_is_uniform w 2 7 99999 Reference.alice_todo c "7" "99999"
              (mkUpdateTodoRequest (Some "Take over") None None None None))
    as (_ & _ & _ & _ & (_ & _ & Hd) & Hr);
    [reflexivity | discriminate | reflexivity | reflexivity | reflexivity
    | reflexivity | reflexivity | ].
  destruct Hr as (Hg & Hu & Hd'); [reflexivity|].
  repeat split; try reflexivity; try assumption; apply Hd.
Defined.

(** ** Partial update *)

Lemma owned_by_Some w id userID t :
  owned_by w id userID = Some t →
  ∃ old, todos w !! id = Some old ∧ Todo_live old = true
         ∧ Todo_UserID old = userID ∧ t = set_Todo_ID id old.
Proof.
  unfold owned_by. destruct (todos w !! id) as [old|]; [|done].
  destruct (Todo_live old) eqn:Hl; [|done].
  destruct (N.eqb_spec (Todo_UserID old) userID); [|done].
  intros [= <-]. by exists old.
Qed.

Lemma tick_tables w :
  users (tick w) = users w ∧ users_seq (tick w) = users_seq w ∧
  todos (tick w) = todos w ∧ todos_seq (tick w) = todos_seq w ∧
  faults (tick w) = faults w.
Proof. unfold tick. by destruct (elapse w). Qed.

(** [r.db.Save(todo)] on a healthy round trip. *)
Lemma TodoRepository_Update_cases todo w :
  TodoRepository.Update todo w =
  match next_fault w with
  | Some e => (Err e, served w)
  | None =>
      let todo' := set_Todo_UpdatedAt (now (served w)) todo in
      (Ok todo',
       set_todos (<[Todo_ID todo := todo']> (todos (tick (served w)))) (tick (served w)))
  end.
Proof.
  unfold TodoRepository.Update. rewrite db_exec_cases. by destruct (next_fault w).
Qed.

(** C10.  A successful [Update] leaves the todo under its identifier and
    with its owner; each of title, description, completed, priority and due
    date keeps its prior value when the request carries [nil] for it and
    takes the supplied value otherwise; the creation time and the deletion
    mark are kept and no other row of either table is touched.  The stored
    row is the row read with the supplied fields applied, on which the
    persistence layer's [Save] stamps [updated_at]. *)
Theorem update_changes_supplied_fields_only (w w' : World) (todoID userID : uint)
    (req : UpdateTodoRequest) (resp : TodoResponse) :
  TodoService.Update todoID userID req w = (Ok resp, w') →
  ∃ old new : Todo,
    todos w !! todoID = Some old
    ∧ Todo_live old = true
    ∧ todos w' !! todoID = Some new
    ∧ resp = Todo_ToResponse new
    ∧ Todo_ID new = todoID
    ∧ Todo_UserID new = Todo_UserID old
    ∧ Todo_UserID new = userID
    ∧ Todo_Title new = default (Todo_Title old) (Req_Title req)
    ∧ Todo_Description new = default (Todo_Description old) (Req_Description req)
    ∧ Todo_Completed new = default (Todo_Completed old) (Req_Completed req)
    ∧ Todo_Priority new = default (Todo_Priority old) (Req_Priority req)
    ∧ Todo_DueDate new
      = match Req_DueDate req with Some v => Some v | None => Todo_DueDate old end
    ∧ Todo_CreatedAt new = Todo_CreatedAt old
    ∧ Todo_DeletedAt new = Todo_DeletedAt old
    ∧ Todo_UpdatedAt new = now w
    ∧ (∀ k, k ≠ todoID → todos w' !! k = todos w !! k)
    ∧ users w' = users w
    ∧ new = set_Todo_UpdatedAt (now w)
              (TodoService.apply_updates req (set_Todo_ID todoID old)).
Proof.
  unfold TodoService.Update, bind. rewrite FindByIDAndUserID_cases.
  destruct (next_fault w); [done|].
  destruct (owned_by w todoID userID) as [t|] eqn:Ho; [|done].
  apply owned_by_Some in Ho as (old & Hold & Hlive & Howner & ->).
  rewrite TodoRepository_Update_cases.
  destruct (next_fault (served w)); [done|]. cbv zeta. unfold ret.
  intros [= <- <-].
  assert (Todo_ID (TodoService.apply_updates req (set_Todo_ID todoID old)) = todoID) as Hid.
  { unfold TodoService.apply_updates, if_not_nil.
    by destruct (Req_Title req), (Req_Description req), (Req_Completed req),
      (Req_Priority req), (Req_DueDate req). }
  rewrite Hid.
  exists old, (set_Todo_UpdatedAt (now (served (served w)))
                 (TodoService.apply_updates req (set_Todo_ID todoID old))).
  destruct (tick_tables (served (served w))) as (Hu & _ & Ht & _).
  destruct (served_tables (served w)) as (Hu1 & _ & Ht1 & _).
  destruct (served_tables w) as (Hu2 & _ & Ht2 & _ & Hw2 & _).
  destruct (served_tables (served w)) as (_ & _ & _ & _ & Hw1 & _).
  assert (now (served (served w)) = now w) as Hnow by (unfold now; congruence).
  rewrite Hnow.
  split; [done|]. split; [done|].
  split; [simpl; by rewrite lookup_insert_eq|].
  split; [done|].
  split; [done|].
  unfold TodoService.apply_updates, if_not_nil.
  repeat split;
    try (by destruct (Req_Title req), (Req_Description req), (Req_Completed req),
           (Req_Priority req), (Req_DueDate req)).
  - intros k Hk. simpl. rewrite lookup_insert_ne by done. congruence.
  - simpl. congruence.
Qed.

Lemma update_changes_supplied_fields_only_witness :
  let req := mkUpdateTodoRequest None None (Some true) None None in
  ∃ resp w',
    TodoService.Update 7 1 req Reference.alice_world = (Ok resp, w')
    ∧ TR_Completed resp = true
    ∧ TR_Title resp = "Write report"
    ∧ ∃ new, todos w' !! 7%N = Some new
             ∧ Todo_UserID new = 1%N
             ∧ Todo_Title new = "Write report"
             ∧ Todo_Completed new = true.
Proof.
  intros req.
  destruct (TodoService.Update 7 1 req Reference.alice_world) as [[resp|e] w'] eqn:E;
    [|vm_compute in E; discriminate E].
  exists resp, w'. split; [reflexivity|].
  destruct (update_changes_supplied_fields_only _ _ _ _ _ _ E)
    as (old & new & Hold & _ & Hnew & -> & _ & _ & Hu & Ht & _ & Hc & _).
  vm_compute in Hold. injection Hold as <-.
  split; [exact Hc|]. split; [exact Ht|].
  exists new. repeat split; assumption.
Defined.

(** ** The credential store *)

Lemma email_taken_true w email :
  email_taken w email = true ↔
  ∃ k u, users w !! k = Some u ∧ User_live u = true ∧ User_Email u = email.
Proof.
  unfold email_taken, gorm_Count. rewrite N.ltb_lt. split.
  - destruct (gorm_select _ _ _) as [|[k u] rows] eqn:E; [simpl; lia|].
    intros _. exists k, u.
    assert (In (k, u) (gorm_select User_live (users w) (UserRepository.email_is email)))
      as Hin by (rewrite E; by left).
    apply gorm_select_In in Hin as (? & ? & He).
    unfold UserRepository.email_is in He. by apply String.eqb_eq in He.
  - intros (k & u & Hk & Hl & He).
    assert (In (k, u) (gorm_select User_live (users w) (UserRepository.email_is email)))
      as Hin.
    { apply gorm_select_In. unfold UserRepository.email_is.
      by rewrite He, String.eqb_refl. }
    destruct (gorm_select _ _ _); [destruct Hin|]. simpl length. lia.
Qed.

Lemma user_by_email_None w email :
  user_by_email w email = None ↔
  ∀ k u, users w !! k = Some u → User_live u = true → User_Email u ≠ email.
Proof.
  unfold user_by_email. split.
  - destruct (first_by_key _) as [[k u]|] eqn:E; [done|]. intros _.
    apply first_by_key_None in E. intros k u Hk Hl He.
    assert (In (k, u) (gorm_select User_live (users w) (UserRepository.email_is email)))
      as Hin.
    { apply gorm_select_In. unfold UserRepository.email_is.
      by rewrite He, String.eqb_refl. }
    rewrite E in Hin. destruct Hin.
  - intros Hnone. destruct (first_by_key _) as [[k u]|] eqn:E; [|done].
    apply first_by_key_In, gorm_select_In in E as (Hk & Hl & He).
    unfold UserRepository.email_is in He. apply String.eqb_eq in He.
    by destruct (Hnone k u).
Qed.

Lemma user_by_email_Some w email user :
  user_by_email w email = Some user →
  ∃ k u, users w !! k = Some u ∧ User_live u = true ∧ User_Email u = email
         ∧ user = set_User_ID k u.
Proof.
  unfold user_by_email.
  destruct (first_by_key _) as [[k u]|] eqn:E; [|done]. intros [= <-].
  apply first_by_key_In, gorm_select_In in E as (Hk & Hl & He).
  unfold UserRepository.email_is in He. apply String.eqb_eq in He.
  by exists k, u.
Qed.

Lemma ExistsByEmail_cases email w :
  UserRepository.ExistsByEmail email w =
  match next_fault w with
  | Some e => (Err e, served w)
  | None => (Ok (email_taken w email), served w)
  end.
Proof.
  unfold UserRepository.ExistsByEmail. rewrite db_exec_cases.
  destruct (next_fault w); [done|]. unfold email_taken.
  by destruct (served_tables w) as (-> & _).
Qed.

Lemma FindByEmail_cases email w :
  UserRepository.FindByEmail email w =
  match next_fault w with
  | Some e => (Err e, served w)
  | None => (Ok (user_by_email w email), served w)
  end.
Proof.
  unfold UserRepository.FindByEmail. rewrite db_exec_cases.
  destruct (next_fault w); [done|]. unfold user_by_email, gorm_First.
  destruct (served_tables w) as (-> & _).
  by destruct (first_by_key _) as [[k u]|].
Qed.

(** ** Login *)

(** What [Login] returns when the credentials are not accepted. *)
Lemma Login_rejected `{Bcrypt} `{JWTWire} (j : JWTManager) (w : World) (req : LoginRequest) :
  (∀ user, user_by_email w (Login_Email req) = Some user →
     is_Ok (CompareHashAndPassword (User_Password user) (Login_Password req)) = false) →
  AuthService.Login j req w
  = (Err (match next_fault w with
          | Some e => e
          | None => errors_New "invalid email or password"
          end), served w).
Proof.
  intros Hrej. unfold AuthService.Login, bind. rewrite FindByEmail_cases.
  destruct (next_fault w); [done|].
  destruct (user_by_email w (Login_Email req)) as [user|]; [|done].
  specialize (Hrej user eq_refl).
  by destruct (CompareHashAndPassword _ _).
Qed.

(** C4.  On one credential store, a login with an email that no user holds
    and a login with an email that a user holds but with a password that
    does not match return the same result and leave the same world; on a
    healthy store that result is the error ["invalid email or password"],
    and the handler answers both requests with the same 401 response. *)
Theorem login_failures_are_uniform `{Binding} `{Bcrypt} `{JWTWire}
    (j : JWTManager) (w : World) (unknown present password wrong : string)
    (c : Context) (body_unknown body_wrong : string) :
  (∀ k u, users w !! k = Some u → User_live u = true → User_Email u ≠ unknown) →
  (∃ k u, users w !! k = Some u ∧ User_live u = true ∧ User_Email u = present) →
  (∀ k u, users w !! k = Some u → User_live u = true → User_Email u = present →
     is_Ok (CompareHashAndPassword (User_Password u) wrong) = false) →
  ShouldBindJSON_Login body_unknown = Ok (mkLoginRequest unknown password) →
  ShouldBindJSON_Login body_wrong = Ok (mkLoginRequest present wrong) →
  AuthService.Login j (mkLoginRequest unknown password) w
  = AuthService.Login j (mkLoginRequest present wrong) w
  ∧ (healthy w →
       AuthService.Login j (mkLoginRequest unknown password) w
       = (Err (errors_New "invalid email or password"), served w)
     ∧ AuthService.Login j (mkLoginRequest present wrong) w
       = (Err (errors_New "invalid email or password"), served w))
  ∧ same_outcome (AuthHandler.Login j (with_Body body_unknown c) w)
                 (AuthHandler.Login j (with_Body body_wrong c) w)
  ∧ (healthy w →
       response (AuthHandler.Login j (with_Body body_unknown c) w) = InvalidCredentials
     ∧ response (AuthHandler.Login j (with_Body body_wrong c) w) = InvalidCredentials).
Proof.
  intros Hunknown _ Hwrong Hb1 Hb2.
  assert (AuthService.Login j (mkLoginRequest unknown password) w
          = (Err (match next_fault w with
                  | Some e => e
                  | None => errors_New "invalid email or password"
                  end), served w)) as E1.
  { apply Login_rejected. simpl. intros user Hu.
    apply user_by_email_None in Hunknown. congruence. }
  assert (AuthService.Login j (mkLoginRequest present wrong) w
          = (Err (match next_fault w with
                  | Some e => e
                  | None => errors_New "invalid email or password"
                  end), served w)) as E2.
  { apply Login_rejected. simpl. intros user Hu.
    apply user_by_email_Some in Hu as (k & u & Hk & Hl & He & ->).
    by apply (Hwrong k u). }
  unfold same_outcome, response, AuthHandler.Login. simpl Body.
  rewrite Hb1, Hb2, E1, E2.
  repeat split; try done;
    match goal with Hh : healthy _ |- _ => by rewrite Hh end.
Qed.

Lemma login_failures_are_uniform_witness :
  let w := (AuthService.Register Reference.manager
              (mkRegisterRequest "alice@example.com" "password123")
              Reference.empty_world).2 in
  let c := request "" "" "" in
  response (AuthHandler.Login Reference.manager
              (with_Body "bob@example.com password123" c) w) = InvalidCredentials
  ∧ response (AuthHandler.Login Reference.manager
                (with_Body "alice@example.com wrongpassword" c) w) = InvalidCredentials.
Proof.
  intros w c.
  destruct (login_failures_are_uniform Reference.manager w
              "bob@example.com" "alice@example.com" "password123" "wrongpassword" c
              "bob@example.com password123" "alice@example.com wrongpassword")
    as (_ & _ & _ & Hr).
  - apply (bool_decide_unpack
             (map_Forall (fun _ u => User_live u = true → User_Email u ≠ "bob@example.com")
                (users w))).
    vm_compute. exact I.
  - exists 1%N. eexists. repeat split; vm_compute; reflexivity.
  - apply (bool_decide_unpack
             (map_Forall (fun _ u => User_live u = true → User_Email u = "alice@example.com" →
                is_Ok (CompareHashAndPassword (User_Password u) "wrongpassword") = false)
                (users w))).
    vm_compute. exact I.
  - reflexivity.
  - reflexivity.
  - apply Hr. reflexivity.
Defined.

(** ** Registration *)

(** [GenerateToken] always returns a token and reads the clock three
    times; it does not touch the database. *)
Lemma GenerateToken_cases `{JWTWire} (j : JWTManager) userID email w :
  JWT.GenerateToken j userID email w =
  (Ok (AppendSignature
         (SigningString "HS256"
            (mkJWTClaims userID email
               (NewNumericDate (now w + expiry j))
               (NewNumericDate (now (tick w)))
               (NewNumericDate (now (tick (tick w))))
               (issuer j)))
         (HMAC SHA256 (secret j)
            (SigningString "HS256"
               (mkJWTClaims userID email
                  (NewNumericDate (now w + expiry j))
                  (NewNumericDate (now (tick w)))
                  (NewNumericDate (now (tick (tick w))))
                  (issuer j))))),
   tick (tick (tick w))).
Proof. reflexivity. Qed.

(** The row that [Create] stores for a new user. *)
Lemma Create_cases user w :
  UserRepository.Create user w =
  match next_fault w with
  | Some e => (Err e, served w)
  | None =>
      let id := if (User_ID user =? 0)%N then (users_seq w + 1)%N else User_ID user in
      let user' :=
        mkUser id (User_Email user) (User_Password user)
          (if User_CreatedAt user =? time_zero then now w else User_CreatedAt user)
          (if User_UpdatedAt user =? time_zero then now w else User_UpdatedAt user)
          (User_DeletedAt user) in
      if bool_decide (is_Some (users w !! id)) then
        (Err (ErrUniqueViolation "users.id"), tick (served w))
      else if bool_decide (map_Exists (fun _ u => User_Email u = User_Email user) (users w)) then
        (Err (ErrUniqueViolation "users.email"), tick (served w))
      else
        (Ok user',
         set_users (<[id := user']> (users w)) (N.max (users_seq w) id) (tick (served w)))
  end.
Proof.
  unfold UserRepository.Create. rewrite db_exec_cases.
  destruct (next_fault w); [done|].
  unfold bind, time_Now. cbv zeta.
  destruct (tick_tables (served w)) as (-> & -> & _).
  destruct (served_tables w) as (-> & -> & _ & _ & Hw & _).
  unfold now. rewrite Hw.
  repeat case_bool_decide; done.
Qed.

(** A successful [Create] stores a live row under a fresh key; no other row
    holds its email. *)
Lemma Create_Ok user w user' w' :
  UserRepository.Create user w = (Ok user', w') →
  User_DeletedAt user = None →
  users w' !! User_ID user' = Some user'
  ∧ users w !! User_ID user' = None
  ∧ users w' = <[User_ID user' := user']> (users w)
  ∧ User_Email user' = User_Email user
  ∧ User_Password user' = User_Password user
  ∧ User_live user' = true
  ∧ (∀ k u, users w !! k = Some u → User_Email u ≠ User_Email user)
  ∧ faults w' = faults (served w).
Proof.
  rewrite Create_cases. destruct (next_fault w); [done|]. cbv zeta.
  case_bool_decide as Hfresh; [done|].
  case_bool_decide as Hunique; [done|].
  intros [= <- <-] Hlive. simpl.
  destruct (tick_tables (served w)) as (_ & _ & _ & _ & ->).
  repeat split.
  - by rewrite lookup_insert_eq.
  - by apply eq_None_not_Some.
  - unfold User_live. simpl. by rewrite Hlive.
  - intros k u Hk He. apply Hunique. by exists k, u.
Qed.

Lemma Register_among_cases `{Bcrypt} `{JWTWire} others (j : JWTManager) req w :
  AuthService.Register_among others j req w =
  match next_fault w with
  | Some e => (Err e, served w)
  | None =>
      if email_taken w (Reg_Email req)
      then (Err (errors_New "email already registered"), served w)
      else
        match GenerateFromPassword (Reg_Password req) with
        | Err e => (Err e, served w)
        | Ok hashedPassword =>
            match UserRepository.Create
                    (mkUser 0 (Reg_Email req) hashedPassword time_zero time_zero None)
                    (others (served w)) with
            | (Err e, w1) => (Err e, w1)
            | (Ok user, w1) =>
                match JWT.GenerateToken j (User_ID user) (User_Email user) w1 with
                | (Ok token, w2) =>
                    (Ok {| AR_User := User_ToResponse user; AR_Token := token |}, w2)
                | (Err e, w2) => (Err e, w2)
                end
            end
        end
  end.
Proof.
  unfold AuthService.Register_among, bind. rewrite ExistsByEmail_cases.
  destruct (next_fault w); [done|].
  destruct (email_taken w (Reg_Email req)); [done|].
  unfold lift at 1, yield.
  destruct (GenerateFromPassword (Reg_Password req)); [|done].
  destruct (UserRepository.Create _ _) as [[user|e] w1]; [|done].
  rewrite GenerateToken_cases. done.
Qed.

(** C5.  (a) When a live user already holds the email of the request and
    the pre-check query is served, [Register] fails with
    ["email already registered"], which the handler turns into the 409
    [CONFLICT] response; no response with a token is produced, neither
    table nor sequence of the store changes and the clock is not read.
    (b) Whenever [Register] succeeds, the insert of the new user succeeded
    first, the token was generated afterwards for the identifier and email
    of the stored row, and that row is in the store that [Register] leaves
    behind.  Both hold whatever other requests do in between. *)
Theorem register_conflict_and_persist_then_issue `{Binding} `{Bcrypt} `{JWTWire}
    (others : World → World) (j : JWTManager) (req : RegisterRequest) (w : World)
    (c : Context) :
  ShouldBindJSON_Register (Body c) = Ok req →
  (healthy w →
   (∃ k u, users w !! k = Some u ∧ User_live u = true ∧ User_Email u = Reg_Email req) →
     AuthService.Register_among others j req w
     = (Err (errors_New "email already registered"), served w)
   ∧ AuthHandler.Register_with (AuthService.Register_among others j) c w
     = (utils.ConflictError c "email already registered", served w)
   ∧ response (AuthHandler.Register_with (AuthService.Register_among others j) c w)
     = EmailTaken
   ∧ users (served w) = users w ∧ users_seq (served w) = users_seq w
   ∧ todos (served w) = todos w ∧ wall (served w) = wall w
   ∧ elapse (served w) = elapse w)
  ∧ (∀ resp w',
       AuthService.Register_among others j req w = (Ok resp, w') →
       ∃ hashedPassword user w1,
         GenerateFromPassword (Reg_Password req) = Ok hashedPassword
         ∧ UserRepository.Create
             (mkUser 0 (Reg_Email req) hashedPassword time_zero time_zero None)
             (others (served w)) = (Ok user, w1)
         ∧ users w1 !! User_ID user = Some user
         ∧ JWT.GenerateToken j (User_ID user) (User_Email user) w1 = (Ok (AR_Token resp), w')
         ∧ AR_User resp = User_ToResponse user
         ∧ User_Email user = Reg_Email req
         ∧ User_Password user = hashedPassword
         ∧ users w' !! UR_ID (AR_User resp) = Some user).
Proof.
  intros Hb. split.
  - intros Hh Htaken. apply email_taken_true in Htaken.
    assert (AuthService.Register_among others j req w
            = (Err (errors_New "email already registered"), served w)) as E.
    { by rewrite Register_among_cases, Hh, Htaken. }
    unfold response, AuthHandler.Register_with. rewrite Hb, E.
    destruct (served_tables w) as (? & ? & ? & ? & ? & ?). done.
  - intros resp w'. rewrite Register_among_cases.
    destruct (next_fault w); [done|].
    destruct (email_taken w (Reg_Email req)); [done|].
    destruct (GenerateFromPassword (Reg_Password req)) as [hashed|]; [|done].
    destruct (UserRepository.Create _ _) as [[user|e] w1] eqn:EC; [|done].
    rewrite GenerateToken_cases. intros [= <- <-].
    destruct (Create_Ok _ _ _ _ EC eq_refl) as (Hin & _ & Heq & He & Hp & _).
    exists hashed, user, w1. simpl.
    repeat split; try done.
    by rewrite !(proj1 (tick_tables _)).
Qed.

Lemma register_conflict_and_persist_then_issue_witness :
  let first := AuthService.Register Reference.manager
                 (mkRegisterRequest "alice@example.com" "password123")
                 Reference.empty_world in
  let c := request "" "" "alice@example.com secret99" in
  is_Ok first.1 = true
  ∧ response (AuthHandler.Register Reference.manager c first.2) = EmailTaken
  ∧ users (AuthHandler.Register Reference.manager c first.2).2 = users first.2.
Proof.
  intros first c.
  destruct (register_conflict_and_persist_then_issue (fun w => w) Reference.manager
              (mkRegisterRequest "alice@example.com" "secret99") first.2 c)
    as [Ha _]; [vm_compute; reflexivity|].
  destruct Ha as (_ & Hh & Hr & Hu & _).
  - reflexivity.
  - exists 1%N. eexists. repeat split; vm_compute; reflexivity.
  - split; [reflexivity|]. split; [exact Hr|].
    unfold AuthHandler.Register, AuthService.Register. rewrite Hh. exact Hu.
Defined.

(** ** Registering an email twice *)

(** C8 (as the code has it).  After a registration has succeeded, a
    registration with the same email string (whatever the password), served
    by the database, fails with ["email already registered"] and is
    answered with the 409 [CONFLICT] response; afterwards exactly one row
    of the credential store holds that email, the one whose identifier the
    first registration returned.  The email is compared as the string
    received: the program applies no normalisation of its own. *)
Theorem second_registration_is_rejected `{Binding} `{Bcrypt} `{JWTWire}
    (j j' : JWTManager) (req req' : RegisterRequest) (resp : AuthResponse)
    (w w1 : World) (c : Context) :
  AuthService.Register j req w = (Ok resp, w1) →
  Reg_Email req' = Reg_Email req →
  healthy w1 →
  ShouldBindJSON_Register (Body c) = Ok req' →
  AuthService.Register j' req' w1
  = (Err (errors_New "email already registered"), served w1)
  ∧ response (AuthHandler.Register j' c w1) = EmailTaken
  ∧ (AuthHandler.Register j' c w1).2 = served w1
  ∧ ∃ u, users (served w1) !! UR_ID (AR_User resp) = Some u
         ∧ User_Email u = Reg_Email req
         ∧ ∀ k' u', users (served w1) !! k' = Some u' →
                    User_Email u' = Reg_Email req → k' = UR_ID (AR_User resp).
Proof.
  intros E1 He Hh Hb. unfold AuthService.Register in E1.
  rewrite Register_among_cases in E1.
  destruct (next_fault w); [done|].
  destruct (email_taken w (Reg_Email req)); [done|].
  destruct (GenerateFromPassword (Reg_Password req)) as [hashed|]; [|done].
  destruct (UserRepository.Create _ _) as [[user|e] w0] eqn:EC; [|done].
  rewrite GenerateToken_cases in E1. injection E1 as <- <-.
  destruct (Create_Ok _ _ _ _ EC eq_refl) as (Hin & Hfresh & Heq & Hemail & _ & Hlive & Huniq & _).
  simpl in Hemail, Huniq.
  set (w1 := tick (tick (tick w0))) in *.
  assert (users w1 = users w0) as Hu1.
  { unfold w1. by rewrite !(proj1 (tick_tables _)). }
  assert (email_taken w1 (Reg_Email req') = true) as Ht.
  { apply email_taken_true. exists (User_ID user), user.
    rewrite Hu1. repeat split; try done. congruence. }
  assert (AuthService.Register j' req' w1
          = (Err (errors_New "email already registered"), served w1)) as E2.
  { unfold AuthService.Register. by rewrite Register_among_cases, Hh, Ht. }
  unfold response, AuthHandler.Register, AuthHandler.Register_with.
  fold (AuthService.Register j' req' w1). rewrite Hb.
  fold (AuthService.Register j'). rewrite E2.
  split; [done|]. split; [done|]. split; [done|].
  destruct (served_tables w1) as (-> & _). rewrite Hu1. simpl.
  exists user. split; [done|]. split; [done|].
  intros k' u' Hk' He'. rewrite Heq in Hk'.
  apply lookup_insert_Some in Hk' as [[? ?]|[_ Hold]]; [done|].
  by destruct (Huniq k' u' Hold).
Qed.

Lemma second_registration_is_rejected_witness :
  let first := AuthService.Register Reference.manager
                 (mkRegisterRequest "alice@example.com" "password123")
                 Reference.empty_world in
  let c := request "" "" "alice@example.com password123" in
  is_Ok first.1 = true
  ∧ response (AuthHandler.Register Reference.manager c first.2) = EmailTaken
  ∧ ∃ u, users (served first.2) !! 1%N = Some u ∧ User_Email u = "alice@example.com".
Proof.
  intros first c.
  destruct first as [[resp|e] w1] eqn:E; [|vm_compute in E; discriminate E].
  destruct (second_registration_is_rejected Reference.manager Reference.manager
              (mkRegisterRequest "alice@example.com" "password123")
              (mkRegisterRequest "alice@example.com" "password123")
              resp Reference.empty_world w1 c E eq_refl)
    as (_ & Hr & _ & u & Hu & He & _).
  - vm_compute in E. injection E as _ <-. reflexivity.
  - reflexivity.
  - split; [reflexivity|]. split; [exact Hr|].
    exists u. split; [|exact He].
    vm_compute in E. injection E as <- <-. exact Hu.
Defined.

(** C8 (as stated) fails: two emails that differ in the case of their
    letters only, and so are one email once lower-cased ([ToLower] is exact
    on ASCII strings such as these), are two emails to the program.  After
    ["alice@example.com"] has been registered, the registration of
    ["Alice@Example.com"] succeeds as well, through the service and through
    the handler (201, not the 409 [CONFLICT] response), and the credential
    store then holds two live users, one under each spelling. *)
Lemma differently_cased_email_registers_twice :
  let first := AuthService.Register Reference.manager
                 (mkRegisterRequest "alice@example.com" "password123")
                 Reference.empty_world in
  let second := AuthService.Register Reference.manager
                  (mkRegisterRequest "Alice@Example.com" "password123") first.2 in
  let c := request "" "" "Alice@Example.com password123" in
  ToLower "Alice@Example.com" = ToLower "alice@example.com"
  ∧ is_Ok first.1 = true
  ∧ healthy first.2
  ∧ is_Ok second.1 = true
  ∧ ShouldBindJSON_Register (Body c) = Ok (mkRegisterRequest "Alice@Example.com" "password123")
  ∧ response (AuthHandler.Register Reference.manager c first.2) ≠ EmailTaken
  ∧ (fst <$> response (AuthHandler.Register Reference.manager c first.2)) = Some 201
  ∧ ((fun u => (User_Email u, User_live u)) <$> users second.2 !! 1%N)
    = Some ("alice@example.com", true)
  ∧ ((fun u => (User_Email u, User_live u)) <$> users second.2 !! 2%N)
    = Some ("Alice@Example.com", true).
Proof.
  intros first second c.
  repeat split; try (vm_compute; reflexivity). vm_compute. discriminate.
Qed.

(** ** A uniqueness violation surfacing after the pre-check *)

Lemma unique_violation_is_not_conflict index :
  String.eqb (Error (ErrUniqueViolation index)) "email already registered" = false.
Proof. reflexivity. Qed.

(** C7 (as the code has it).  When the pre-check of [Register] finds the
    email free, the password is hashed, and the insert then fails with a
    uniqueness violation (another request stored the email in between),
    [Register] returns the persistence error unchanged and the handler
    answers with the 500 [INTERNAL_ERROR] response "Failed to register
    user", which is not the conflict response. *)
Theorem late_uniqueness_violation_is_internal_error `{Binding} `{Bcrypt} `{JWTWire}
    (others : World → World) (j : JWTManager) (req : RegisterRequest)
    (hashedPassword index : string) (w w1 : World) (c : Context) :
  ShouldBindJSON_Register (Body c) = Ok req →
  UserRepository.ExistsByEmail (Reg_Email req) w = (Ok false, served w) →
  GenerateFromPassword (Reg_Password req) = Ok hashedPassword →
  UserRepository.Create
    (mkUser 0 (Reg_Email req) hashedPassword time_zero time_zero None)
    (others (served w)) = (Err (ErrUniqueViolation index), w1) →
  AuthService.Register_among others j req w = (Err (ErrUniqueViolation index), w1)
  ∧ response (AuthHandler.Register_with (AuthService.Register_among others j) c w)
    = Internal "Failed to register user"
  ∧ response (AuthHandler.Register_with (AuthService.Register_among others j) c w)
    ≠ EmailTaken.
Proof.
  intros Hb Hpre Hhash Hins.
  assert (AuthService.Register_among others j req w
          = (Err (ErrUniqueViolation index), w1)) as E.
  { unfold AuthService.Register_among, bind.
    rewrite Hpre. unfold lift at 1, yield. by rewrite Hhash, Hins. }
  unfold response, AuthHandler.Register_with.
  rewrite Hb, E, unique_violation_is_not_conflict.
  repeat split; done.
Qed.

Lemma late_uniqueness_violation_is_internal_error_witness :
  let rival := fun w =>
    (AuthService.Register Reference.manager
       (mkRegisterRequest "alice@example.com" "rival-password") w).2 in
  let c := request "" "" "alice@example.com password123" in
  response (AuthHandler.Register_with
              (AuthService.Register_among rival Reference.manager) c
              Reference.empty_world)
  = Internal "Failed to register user".
Proof.
  intros rival c.
  destruct (late_uniqueness_violation_is_internal_error rival Reference.manager
              (mkRegisterRequest "alice@example.com" "password123")
              "$2a$10$password123" "users.email" Reference.empty_world
              (UserRepository.Create
                 (mkUser 0 "alice@example.com" "$2a$10$password123" time_zero time_zero None)
                 (rival (served Reference.empty_world))).2 c)
    as (_ & Hr & _);
    [vm_compute; reflexivity | vm_compute; reflexivity | vm_compute; reflexivity
    | vm_compute; reflexivity | exact Hr].
Defined.

(** C7 (as stated) fails: a registration whose pre-check passes and whose
    insert then hits the unique index on the email is answered with the
    internal error, not with the conflict. *)
Lemma late_uniqueness_violation_is_not_EmailTaken :
  let rival := fun w =>
    (AuthService.Register Reference.manager
       (mkRegisterRequest "alice@example.com" "rival-password") w).2 in
  let req := mkRegisterRequest "alice@example.com" "password123" in
  let c := request "" "" "alice@example.com password123" in
  let w := Reference.empty_world in
  (UserRepository.ExistsByEmail (Reg_Email req) w).1 = Ok false
  ∧ (UserRepository.Create
       (mkUser 0 "alice@example.com" "$2a$10$password123" time_zero time_zero None)
       (rival (served w))).1 = Err (ErrUniqueViolation "users.email")
  ∧ (AuthService.Register_among rival Reference.manager req w).1
    = Err (ErrUniqueViolation "users.email")
  ∧ response (AuthHandler.Register_with
                (AuthService.Register_among rival Reference.manager) c w)
    = Internal "Failed to register user"
  ∧ response (AuthHandler.Register_with
                (AuthService.Register_among rival Reference.manager) c w)
    ≠ EmailTaken.
Proof.
  intros rival req c w.
  repeat split; try (vm_compute; reflexivity).
  vm_compute. discriminate.
Qed.

(** ** The token codec *)

(** [ValidateToken] rejects for exactly the four causes of [rejection]; its
    error discloses the cause, and it reads the clock only to validate the
    claims. *)
Lemma ValidateToken_cases `{JWTWire} (j : JWTManager) tokenString w :
  match rejection (secret j) tokenString (now w) with
  | Some r =>
      ∃ e w', JWT.ValidateToken j tokenString w = (Err e, w')
              ∧ disclosed e = Some r ∧ (w' = w ∨ w' = tick w)
  | None =>
      ∃ s, ParseSegments tokenString = Wellformed s
           ∧ JWT.ValidateToken j tokenString w = (Ok (Seg_claims s), tick w)
  end.
Proof.
  unfold rejection, JWT.ValidateToken, ParseWithClaims.
  destruct (ParseSegments tokenString) as [detail|s].
  { eexists _, _. split; [reflexivity|]. split; [done|by left]. }
  destruct (Seg_alg s) as [alg|].
  2: { eexists _, _. split; [reflexivity|]. split; [done|by left]. }
  destruct (GetSigningMethod alg) as [[h|other]|].
  2,3: eexists _, _; (split; [reflexivity|]); split; [done|by left].
  unfold JWT.keyFunc. cbn [Method].
  destruct (Seg_sig s) as [sig|].
  2: { eexists _, _. split; [reflexivity|]. split; [done|by left]. }
  unfold Verify.
  destruct (String.eqb sig (HMAC h (secret j) (Seg_text s))).
  2: { eexists _, _. split; [reflexivity|]. split; [done|by left]. }
  unfold bind, Validate, bind, time_Now.
  destruct (verifyExpiresAt (Seg_claims s) (now w) ++ verifyNotBefore (Seg_claims s) (now w))%list.
  - exists s. done.
  - eexists _, _. split; [reflexivity|]. split; [done|by right].
Qed.

Lemma ValidateToken_same_database `{JWTWire} (j : JWTManager) tokenString w :
  same_database w (JWT.ValidateToken j tokenString w).2.
Proof.
  pose proof (ValidateToken_cases j tokenString w) as Hc.
  destruct (tick_tables w) as (? & ? & ? & ? & ?).
  destruct (rejection _ _ _).
  - destruct Hc as (e & w' & -> & _ & [-> | ->]); by repeat split.
  - destruct Hc as (s & _ & ->). by repeat split.
Qed.

(** ** The shape of the authorization header *)

Lemma lower_space c : Ascii.eqb (lower c) " " = Ascii.eqb c " ".
Proof. by destruct c as [[] [] [] [] [] [] [] []]. Qed.

Lemma ToLower_spaceless s : spaceless (ToLower s) = spaceless s.
Proof. induction s as [|c s IH]; [done|]. simpl. by rewrite lower_space, IH. Qed.

Lemma bearer_spaceless scheme : ToLower scheme = "bearer" → spaceless scheme = true.
Proof. intros Hs. by rewrite <- ToLower_spaceless, Hs. Qed.

Lemma SplitN2_app a b :
  spaceless a = true → SplitN2 (a +:+ " " +:+ b) = [a; b].
Proof.
  induction a as [|c a IH]; [done|]. simpl.
  destruct (Ascii.eqb c " "); [done|]. simpl. intros Ha. by rewrite (IH Ha).
Qed.

Lemma SplitN2_cases s :
  (spaceless s = true ∧ SplitN2 s = [s])
  ∨ (∃ a b, s = a +:+ " " +:+ b ∧ spaceless a = true ∧ SplitN2 s = [a; b]).
Proof.
  induction s as [|c s IH]; [by left|]. simpl.
  destruct (Ascii.eqb_spec c " ") as [->|Hc].
  - right. by exists "", s.
  - destruct IH as [[Hs ->]|(a & b & -> & Ha & ->)].
    + by left.
    + right. exists (String c a), b. simpl.
      destruct (Ascii.eqb_spec c " "); by try rewrite Ha.
Qed.

Lemma spaceless_app a b : spaceless (a +:+ " " +:+ b) = false.
Proof.
  induction a as [|c a IH]; [done|]. simpl. rewrite IH. apply andb_false_r.
Qed.

Lemma bearer_header_SplitN2 header tokenString :
  bearer_header header tokenString →
  ∃ scheme, ToLower scheme = "bearer" ∧ SplitN2 header = [scheme; tokenString]
            ∧ header ≠ "".
Proof.
  intros (scheme & Hs & ->). exists scheme. split; [done|]. split.
  - by apply SplitN2_app, bearer_spaceless.
  - by destruct scheme.
Qed.

(** ** The authorization gate *)

Lemma AuthMiddleware_bearer `{JWTWire} (j : JWTManager) next c w tokenString :
  bearer_header (Authorization c) tokenString →
  AuthMiddleware j next c w =
  match JWT.ValidateToken j tokenString w with
  | (Err _, w') => (Abort (utils.UnauthorizedError c "Invalid or expired token"), w')
  | (Ok claims, w') => next (inject claims c) w'
  end.
Proof.
  intros Hb. apply bearer_header_SplitN2 in Hb as (scheme & Hs & Hsplit & Hne).
  unfold AuthMiddleware. apply String.eqb_neq in Hne. rewrite Hne, Hsplit. simpl.
  by rewrite Hs.
Qed.

Lemma AuthMiddleware_not_bearer `{JWTWire} (j : JWTManager) next c w :
  Authorization c ≠ "" →
  (∀ tokenString, ¬ bearer_header (Authorization c) tokenString) →
  AuthMiddleware j next c w =
  (Abort (utils.UnauthorizedError c "Invalid authorization format. Use: Bearer <token>"), w).
Proof.
  intros Hne Hnot. unfold AuthMiddleware. apply String.eqb_neq in Hne. rewrite Hne.
  destruct (SplitN2_cases (Authorization c)) as [[_ ->]|(a & b & Hab & _ & ->)]; [done|].
  simpl. destruct (String.eqb_spec (ToLower a) "bearer") as [Ha|]; [|done].
  destruct (Hnot b). by exists a.
Qed.

Lemma bearer_header_unique header t1 t2 :
  bearer_header header t1 → bearer_header header t2 → t1 = t2.
Proof.
  intros (s1 & _ & E1 & _)%bearer_header_SplitN2 (s2 & _ & E2 & _)%bearer_header_SplitN2.
  congruence.
Qed.

(** Whether the header has the bearer shape can be decided by looking at
    it. *)
Lemma bearer_header_dec header :
  (∃ tokenString, bearer_header header tokenString)
  ∨ (∀ tokenString, ¬ bearer_header header tokenString).
Proof.
  destruct (SplitN2_cases header) as [[Hs _]|(a & b & -> & Ha & _)].
  - right. intros t (scheme & _ & ->). by rewrite spaceless_app in Hs.
  - destruct (String.eqb_spec (ToLower a) "bearer") as [Hb|Hb].
    + left. exists b, a. done.
    + right. intros t Ht.
      apply bearer_header_SplitN2 in Ht as (scheme & Hs & Hsplit & _).
      rewrite (SplitN2_app _ _ Ha) in Hsplit. congruence.
Qed.

Lemma GetUserID_inject claims c : GetUserID (inject claims c) = (UserID claims, true).
Proof.
  unfold GetUserID, Get, inject, Set_. simpl.
  by rewrite lookup_insert_ne, lookup_insert_eq.
Qed.

Lemma GetUserEmail_inject claims c : GetUserEmail (inject claims c) = (Email claims, true).
Proof.
  unfold GetUserEmail, Get, inject, Set_. simpl. by rewrite lookup_insert_eq.
Qed.

(** C6.  The gate refuses a request exactly when the authorization header
    is absent, is not a case-insensitive [Bearer] scheme followed by one
    space and the token string, or carries a token string that
    [ValidateToken] rejects.  When it refuses, it writes a 401
    [UNAUTHORIZED] response and aborts, and the rest of the chain does not
    run whatever it is; otherwise the rest of the chain runs on the context
    in which the identifier and the email of the token's claims are stored.
    In both cases the gate makes no round trip to the database and leaves
    its tables as they are. *)
Theorem gate_refuses_exactly_when `{JWTWire} (j : JWTManager) (c : Context) (w : World) :
  (refused j c w
   ∧ ∃ message w',
       message ≠ ""
       ∧ same_database w w'
       ∧ ∀ next : HandlerFunc,
           AuthMiddleware j next c w = (Abort (utils.UnauthorizedError c message), w')
           ∧ Aborted (AuthMiddleware j next c w).1 = true
           ∧ response (AuthMiddleware j next c w) = Unauthenticated message)
  ∨ (¬ refused j c w
     ∧ ∃ tokenString claims w',
         bearer_header (Authorization c) tokenString
         ∧ JWT.ValidateToken j tokenString w = (Ok claims, w')
         ∧ same_database w w'
         ∧ GetUserID (inject claims c) = (UserID claims, true)
         ∧ GetUserEmail (inject claims c) = (Email claims, true)
         ∧ ∀ next : HandlerFunc,
             AuthMiddleware j next c w = next (inject claims c) w').
Proof.
  destruct (String.eqb_spec (Authorization c) "") as [Hempty|Hne].
  { left. split; [by left|].
    exists "Authorization header required", w. split; [done|]. split; [done|].
    intros next. unfold AuthMiddleware, response. by rewrite Hempty. }
  destruct (bearer_header_dec (Authorization c)) as [[tokenString Hb]|Hnot].
  2: { left. split; [right; by left|].
       exists "Invalid authorization format. Use: Bearer <token>", w.
       split; [done|]. split; [done|].
       intros next. unfold response.
       by rewrite (AuthMiddleware_not_bearer j next c w Hne Hnot). }
  pose proof (ValidateToken_same_database j tokenString w) as Hdb.
  destruct (JWT.ValidateToken j tokenString w) as [[claims|e] w'] eqn:E.
  - right. split.
    + intros [?|[Hnot|(t & Ht & Hfail)]]; [done|by destruct (Hnot tokenString)|].
      rewrite (bearer_header_unique _ _ _ Ht Hb), E in Hfail. done.
    + exists tokenString, claims, w'.
      split; [done|]. split; [done|]. split; [done|].
      split; [apply GetUserID_inject|]. split; [apply GetUserEmail_inject|].
      intros next. by rewrite (AuthMiddleware_bearer j next c w tokenString Hb), E.
  - left. split.
    + right; right. exists tokenString. by rewrite E.
    + exists "Invalid or expired token", w'. split; [done|]. split; [done|].
      intros next. unfold response.
      by rewrite (AuthMiddleware_bearer j next c w tokenString Hb), E.
Qed.

(** ** Rejected tokens *)

(** C2 (as the code has it).  For every token string, secret and instant,
    each of the four rejection causes makes [ValidateToken] return an
    error, without a round trip to the database; that error is the
    library's and discloses the cause to the caller of [ValidateToken].
    The gate, which is that caller, answers every one of them with the
    same 401 response "Invalid or expired token" and aborts. *)
Theorem rejections_collapse_at_the_gate `{JWTWire} (j : JWTManager)
    (tokenString : string) (w : World) (r : Rejection) :
  rejection (secret j) tokenString (now w) = Some r →
  ∃ e w',
    JWT.ValidateToken j tokenString w = (Err e, w')
    ∧ disclosed e = Some r
    ∧ same_database w w'
    ∧ ∀ (next : HandlerFunc) (c : Context),
        bearer_header (Authorization c) tokenString →
        AuthMiddleware j next c w
        = (Abort (utils.UnauthorizedError c "Invalid or expired token"), w')
        ∧ response (AuthMiddleware j next c w) = Unauthenticated "Invalid or expired token".
Proof.
  intros Hr. pose proof (ValidateToken_cases j tokenString w) as Hc.
  rewrite Hr in Hc. destruct Hc as (e & w' & E & Hd & Hw).
  exists e, w'. split; [done|]. split; [done|]. split.
  - pose proof (ValidateToken_same_database j tokenString w) as Hdb.
    by rewrite E in Hdb.
  - intros next c Hb. unfold response.
    by rewrite (AuthMiddleware_bearer j next c w tokenString Hb), E.
Qed.

Lemma rejections_collapse_at_the_gate_witness :
  let c := request ("Bearer " +:+ Samples.fresh_token) "" "" in
  rejection (secret Reference.manager) Samples.fresh_token (now Samples.later_world)
  = Some OutsideValidityWindow
  ∧ ∀ next : HandlerFunc,
      response (AuthMiddleware Reference.manager next c Samples.later_world)
      = Unauthenticated "Invalid or expired token".
Proof.
  intros c. split; [vm_compute; reflexivity|]. intros next.
  destruct (rejections_collapse_at_the_gate Reference.manager Samples.fresh_token
              Samples.later_world OutsideValidityWindow)
    as (e & w' & _ & _ & _ & Hgate); [vm_compute; reflexivity|].
  apply Hgate. exists "Bearer". split; reflexivity.
Defined.

(** C2 (as stated) fails: the results of [ValidateToken] for a malformed
    token, a token of another algorithm family, a forged token and an
    expired token are four different errors with four different
    messages. *)
Lemma ValidateToken_discloses_the_cause :
  let validate t := (JWT.ValidateToken Reference.manager t Samples.later_world).1 in
  validate "garbage" = Err (ErrTokenMalformed "could not decode header")
  ∧ validate Samples.rs256_token
    = Err (ErrTokenUnverifiable "error while executing keyfunc: invalid signing method")
  ∧ validate Samples.forged_token = Err ErrTokenSignatureInvalid
  ∧ validate Samples.fresh_token = Err (ErrTokenInvalidClaims [TokenExpired])
  ∧ validate "garbage" ≠ validate Samples.fresh_token
  ∧ validate Samples.forged_token ≠ validate Samples.fresh_token
  ∧ (Error <$> [ErrTokenMalformed "could not decode header";
                ErrTokenUnverifiable "error while executing keyfunc: invalid signing method";
                ErrTokenSignatureInvalid;
                ErrTokenInvalidClaims [TokenExpired]])
    = ["token is malformed: could not decode header";
       "token is unverifiable: error while executing keyfunc: invalid signing method";
       "token signature is invalid: signature is invalid";
       "token has invalid claims: token is expired"].
Proof.
  intros validate. subst validate.
  repeat split; try (vm_compute; reflexivity); vm_compute; discriminate.
Qed.

(** ** Issue, then verify *)

Lemma Truncate_bounds t : Truncate t time_Second ≤ t < Truncate t time_Second + time_Second.
Proof.
  unfold Truncate. pose proof (Z.mod_pos_bound t time_Second).
  unfold time_Second in *. lia.
Qed.

(** What [ValidateToken] answers for a token assembled by [SignedString]
    that the wire format carries faithfully. *)
Lemma ValidateToken_signed `{JWTWire} (j : JWTManager) (claims : JWTClaims) w :
  wire_faithful "HS256" claims (HMAC SHA256 (secret j) (SigningString "HS256" claims)) →
  JWT.ValidateToken j
    (AppendSignature (SigningString "HS256" claims)
       (HMAC SHA256 (secret j) (SigningString "HS256" claims))) w
  = match (verifyExpiresAt claims (now w) ++ verifyNotBefore claims (now w))%list with
    | [] => (Ok claims, tick w)
    | errs => (Err (ErrTokenInvalidClaims errs), tick w)
    end.
Proof.
  intros Hf. unfold wire_faithful in Hf.
  unfold JWT.ValidateToken, ParseWithClaims. rewrite Hf. cbn [Seg_alg].
  change (GetSigningMethod "HS256") with (Some (SigningMethodHMAC SHA256)).
  unfold JWT.keyFunc. cbn [Method Seg_sig Seg_text Seg_claims]. unfold Verify.
  rewrite String.eqb_refl. unfold bind, Validate, bind, time_Now.
  by destruct (verifyExpiresAt claims (now w) ++ verifyNotBefore claims (now w))%list.
Qed.

Lemma verify_window (claims : JWTClaims) (t exp nbf : Time) :
  ExpiresAt claims = Some exp → NotBefore claims = Some nbf →
  ((verifyExpiresAt claims t ++ verifyNotBefore claims t)%list = [] ↔ nbf ≤ t < exp).
Proof.
  intros He Hn. unfold verifyExpiresAt, verifyNotBefore. rewrite He, Hn.
  destruct (Z.ltb_spec t exp), (Z.ltb_spec t nbf); simpl; split; try done; lia.
Qed.

(** C3 (as the code has it).  [GenerateToken] always returns a token; its
    claims carry the user identifier and email given, the configured
    issuer, and as issued-at, not-before and expires-at the clock readings
    (the first one plus the time to live) truncated to whole seconds.  When
    the wire format carries the token faithfully, verifying it with the
    same manager succeeds and returns exactly these claims at every instant
    from not-before up to, but excluding, expires-at, and fails at every
    other instant.  Every instant between the last clock reading of the
    issue and the first reading plus the time to live minus one second lies
    in that window; so verifying the token right after issuing it succeeds
    whenever the clock does not run backwards and the time to live is at
    least one second plus the time that passes between the first reading
    of the issue and the reading of the verification.  (With less than
    that the window can be empty, see
    [one_second_token_with_an_empty_window].) *)
Theorem issue_then_verify `{JWTWire} (j : JWTManager) (userID : uint) (email : string)
    (w : World) :
  let claims := issued_claims j userID email w in
  let nbf := Truncate (now (tick (tick w))) time_Second in
  let exp := Truncate (now w + expiry j) time_Second in
  wire_faithful "HS256" claims (HMAC SHA256 (secret j) (SigningString "HS256" claims)) →
  ∃ tokenString,
    JWT.GenerateToken j userID email w = (Ok tokenString, tick (tick (tick w)))
    ∧ UserID claims = userID
    ∧ Email claims = email
    ∧ Issuer claims = issuer j
    ∧ IssuedAt claims = Some (Truncate (now (tick w)) time_Second)
    ∧ NotBefore claims = Some nbf
    ∧ ExpiresAt claims = Some exp
    ∧ (∀ w', nbf ≤ now w' < exp →
         JWT.ValidateToken j tokenString w' = (Ok claims, tick w'))
    ∧ (∀ w', ¬ (nbf ≤ now w' < exp) →
         is_Ok (JWT.ValidateToken j tokenString w').1 = false)
    ∧ (∀ w', now (tick (tick w)) ≤ now w' ≤ now w + expiry j - time_Second →
         JWT.ValidateToken j tokenString w' = (Ok claims, tick w'))
    ∧ (now (tick (tick w)) ≤ now (tick (tick (tick w))) →
       time_Second + (now (tick (tick (tick w))) - now w) ≤ expiry j →
       JWT.ValidateToken j tokenString (tick (tick (tick w)))
       = (Ok claims, tick (tick (tick (tick w))))).
Proof.
  intros claims nbf exp Hf.
  exists (AppendSignature (SigningString "HS256" claims)
            (HMAC SHA256 (secret j) (SigningString "HS256" claims))).
  split; [reflexivity|].
  assert (∀ w', nbf ≤ now w' < exp →
            JWT.ValidateToken j
              (AppendSignature (SigningString "HS256" claims)
                 (HMAC SHA256 (secret j) (SigningString "HS256" claims))) w'
            = (Ok claims, tick w')) as Hin.
  { intros w' Hw. rewrite (ValidateToken_signed j claims w' Hf).
    by rewrite (proj2 (verify_window claims (now w') exp nbf eq_refl eq_refl) Hw). }
  do 6 (split; [done|]). split; [exact Hin|]. split.
  - intros w' Hw. rewrite (ValidateToken_signed j claims w' Hf).
    destruct (verifyExpiresAt claims (now w') ++ verifyNotBefore claims (now w'))%list eqn:E;
      [|done].
    by apply (verify_window claims (now w') exp nbf eq_refl eq_refl) in E.
  - assert (∀ w', now (tick (tick w)) ≤ now w' ≤ now w + expiry j - time_Second →
              nbf ≤ now w' < exp) as Hraw.
    { intros w' Hw. unfold nbf, exp.
      pose proof (Truncate_bounds (now (tick (tick w)))).
      pose proof (Truncate_bounds (now w + expiry j)). lia. }
    split.
    + intros w' Hw. by apply Hin, Hraw.
    + intros Hmono Httl. apply Hin, Hraw. lia.
Qed.

Lemma issue_then_verify_witness :
  ∃ tokenString,
    (JWT.GenerateToken Reference.manager 1 "alice@example.com" Samples.still_world).1
    = Ok tokenString
    ∧ (JWT.ValidateToken Reference.manager tokenString Samples.still_world).1
      = Ok (issued_claims Reference.manager 1 "alice@example.com" Samples.still_world).
Proof.
  destruct (issue_then_verify Reference.manager 1 "alice@example.com" Samples.still_world)
    as (tokenString & Hg & _ & _ & _ & _ & _ & _ & Hv & _);
    [vm_compute; reflexivity|].
  exists tokenString. split; [by rewrite Hg|].
  rewrite (Hv Samples.still_world); [reflexivity|].
  split; vm_compute; [discriminate|reflexivity].
Defined.

(** C3 (as stated) fails: with the positive time to live of one nanosecond,
    a token issued half a second past a whole second carries that whole
    second, not the instant of issue, as issued-at, not-before and
    expires-at, and verifying it at the very instant of issue fails. *)
Lemma positive_ttl_token_born_expired :
  let j := Samples.brief_manager in
  let w := Samples.still_world in
  0 < expiry j
  ∧ now w = 1700000000500000000
  ∧ (JWT.GenerateToken j 1 "alice@example.com" w).1 = Ok Samples.brief_token
  ∧ now (JWT.GenerateToken j 1 "alice@example.com" w).2 = now w
  ∧ ParseSegments Samples.brief_token
    = Wellformed
        (mkSegments (SigningString "HS256" (issued_claims j 1 "alice@example.com" w))
           (Some "HS256")
           (mkJWTClaims 1 "alice@example.com"
              (Some 1700000000000000000) (Some 1700000000000000000)
              (Some 1700000000000000000) "test")
           (Some (HMAC SHA256 "test-secret"
                    (SigningString "HS256" (issued_claims j 1 "alice@example.com" w)))))
  ∧ (JWT.ValidateToken j Samples.brief_token
       (JWT.GenerateToken j 1 "alice@example.com" w).2).1
    = Err (ErrTokenInvalidClaims [TokenExpired]).
Proof. repeat split; vm_compute; reflexivity. Qed.

(** The condition on the time to live cannot be dropped: a token that
    lives for one second, issued while the clock passes a whole second, has
    its not-before and its expires-at on that same second, and no instant
    lies in its window. *)
Lemma one_second_token_with_an_empty_window :
  let j := second_manager in
  let w := straddling_world in
  let claims := issued_claims j 1 "alice@example.com" w in
  expiry j = time_Second
  ∧ NotBefore claims = Some 1700000001000000000
  ∧ ExpiresAt claims = Some 1700000001000000000
  ∧ ∃ tokenString,
      (JWT.GenerateToken j 1 "alice@example.com" w).1 = Ok tokenString
      ∧ ∀ w', is_Ok (JWT.ValidateToken j tokenString w').1 = false.
Proof.
  intros j w claims. do 3 (split; [reflexivity|]).
  exists (AppendSignature (SigningString "HS256" claims)
            (HMAC SHA256 (secret j) (SigningString "HS256" claims))).
  split; [reflexivity|]. intros w'.
  rewrite (ValidateToken_signed j claims w'); [|vm_compute; reflexivity].
  destruct (verifyExpiresAt claims (now w') ++ verifyNotBefore claims (now w'))%list eqn:E;
    [|done].
  apply (verify_window claims (now w') 1700000001000000000 1700000001000000000
           eq_refl eq_refl) in E. lia.
Qed.

(** ** Tokens outside their validity window *)

(** C9.  (a) A token issued with a time to live that is not positive, -1 in
    particular, and carried faithfully by the wire format, is rejected as
    expired whenever it is verified at or after the instant of issue.
    (b) Whatever the token string, [ValidateToken] rejects it whenever the
    current time is before the not-before of its claims, or at or after
    their expires-at. *)
Theorem out_of_window_tokens_are_rejected `{JWTWire} (j : JWTManager) :
  (∀ (userID : uint) (email : string) (w w' : World),
     let claims := issued_claims j userID email w in
     expiry j ≤ 0 →
     wire_faithful "HS256" claims (HMAC SHA256 (secret j) (SigningString "HS256" claims)) →
     now w ≤ now w' →
     ∃ tokenString faults,
       JWT.GenerateToken j userID email w = (Ok tokenString, tick (tick (tick w)))
       ∧ JWT.ValidateToken j tokenString w'
         = (Err (ErrTokenInvalidClaims (TokenExpired :: faults)), tick w'))
  ∧ (∀ (tokenString : string) (s : Segments) (w' : World),
       ParseSegments tokenString = Wellformed s →
       (∃ nbf, NotBefore (Seg_claims s) = Some nbf ∧ now w' < nbf)
       ∨ (∃ exp, ExpiresAt (Seg_claims s) = Some exp ∧ exp ≤ now w') →
       is_Ok (JWT.ValidateToken j tokenString w').1 = false
       ∧ rejection (secret j) tokenString (now w') ≠ None).
Proof.
  split.
  - intros userID email w w' claims Httl Hf Hw.
    exists (AppendSignature (SigningString "HS256" claims)
              (HMAC SHA256 (secret j) (SigningString "HS256" claims))).
    exists (verifyNotBefore claims (now w')).
    split; [reflexivity|].
    rewrite (ValidateToken_signed j claims w' Hf).
    unfold verifyExpiresAt at 1. cbn [ExpiresAt claims issued_claims].
    pose proof (Truncate_bounds (now w + expiry j)).
    destruct (Z.ltb_spec (now w') (Truncate (now w + expiry j) time_Second)); [lia|].
    done.
  - intros tokenString s w' Hp Hout.
    assert (rejection (secret j) tokenString (now w') ≠ None) as Hr.
    { unfold rejection. rewrite Hp.
      destruct (Seg_alg s) as [alg|]; [|done].
      destruct (GetSigningMethod alg) as [[h|]|]; try done.
      destruct (Seg_sig s) as [sig|]; [|done].
      destruct (String.eqb sig _); [|done].
      unfold verifyExpiresAt, verifyNotBefore.
      destruct Hout as [(nbf & -> & Hn)|(exp & -> & He)].
      - destruct (Z.ltb_spec (now w') nbf); [|lia].
        by destruct (ExpiresAt (Seg_claims s)) as [exp|]; [destruct (now w' <? exp)|].
      - destruct (Z.ltb_spec (now w') exp); [lia|]. done. }
    split; [|done].
    pose proof (ValidateToken_cases j tokenString w') as Hc.
    destruct (rejection (secret j) tokenString (now w')); [|done].
    by destruct Hc as (e & w'' & -> & _).
Qed.

Lemma out_of_window_tokens_are_rejected_witness :
  ∃ tokenString,
    expiry Samples.expired_manager = -1
    ∧ (JWT.GenerateToken Samples.expired_manager 1 "alice@example.com"
         Samples.still_world).1 = Ok tokenString
    ∧ (JWT.ValidateToken Samples.expired_manager tokenString Samples.still_world).1
      = Err (ErrTokenInvalidClaims [TokenExpired])
    ∧ is_Ok (JWT.ValidateToken Reference.manager Samples.fresh_token
               Samples.later_world).1 = false.
Proof.
  destruct (out_of_window_tokens_are_rejected Samples.expired_manager) as [Ha _].
  destruct (Ha 1%N "alice@example.com" Samples.still_world Samples.still_world)
    as (tokenString & faults & Hg & Hv);
    [vm_compute; discriminate | vm_compute; reflexivity | vm_compute; discriminate |].
  destruct (out_of_window_tokens_are_rejected Reference.manager) as [_ Hb].
  destruct (Hb Samples.fresh_token
              (mkSegments
                 (SigningString "HS256"
                    (issued_claims Reference.manager 1 "alice@example.com" Samples.still_world))
                 (Some "HS256")
                 (issued_claims Reference.manager 1 "alice@example.com" Samples.still_world)
                 (Some (HMAC SHA256 "test-secret"
                          (SigningString "HS256"
                             (issued_claims Reference.manager 1 "alice@example.com"
                                Samples.still_world)))))
              Samples.later_world) as [Hfail _].
  - vm_compute. reflexivity.
  - right. eexists. split; [reflexivity|]. vm_compute. discriminate.
  - exists tokenString. split; [reflexivity|]. split; [by rewrite Hg|].
    split; [|exact Hfail].
    vm_compute in Hg. injection Hg as <-. vm_compute. reflexivity.
Defined.

(** * Further properties of the code *)

(** ** Statements over a table *)

(** A [WHERE] clause that pins the primary key selects at most the row of
    that key. *)
Lemma gorm_First_key {T} (live : T → bool) (tbl : gmap N T) cond id :
  (∀ k t, cond k t = true → k = id) →
  gorm_First live tbl cond =
  match tbl !! id with
  | Some t => if live t && cond id t then Ok (id, t) else Err ErrRecordNotFound
  | None => Err ErrRecordNotFound
  end.
Proof.
  intros Hkey. unfold gorm_First.
  destruct (first_by_key _) as [[k t]|] eqn:E.
  - apply first_by_key_In, gorm_select_In in E as (Hk & Hl & Hc).
    pose proof (Hkey _ _ Hc) as ->. by rewrite Hk, Hl, Hc.
  - apply first_by_key_None in E.
    destruct (tbl !! id) as [t|] eqn:Hk; [|done].
    destruct (live t && cond id t) eqn:Hc; [|done].
    apply andb_true_iff in Hc as [Hl Hc].
    assert (In (id, t) (gorm_select live tbl cond)) as Hin by by apply gorm_select_In.
    rewrite E in Hin. destruct Hin.
Qed.

Lemma gorm_Count_key {T} (live : T → bool) (tbl : gmap N T) cond id :
  (∀ k t, cond k t = true → k = id) →
  (gorm_Count live tbl cond =? 0)%N =
  match tbl !! id with
  | Some t => negb (live t && cond id t)
  | None => true
  end.
Proof.
  intros Hkey. pose proof (gorm_First_key live tbl cond id Hkey) as HF.
  unfold gorm_First in HF. unfold gorm_Count.
  destruct (gorm_select live tbl cond) as [|r rows] eqn:E.
  - simpl in HF. destruct (tbl !! id) as [t|]; [|done].
    by destruct (live t && cond id t).
  - assert (first_by_key (r :: rows) ≠ None) as Hne.
    { intros Hn. by apply first_by_key_None in Hn. }
    destruct (first_by_key (r :: rows)); [|done].
    destruct (tbl !! id) as [t|]; [|done].
    by destruct (live t && cond id t).
Qed.

Lemma filter_length_Permutation {A} (f : A → bool) (l1 l2 : list A) :
  l1 ≡ₚ l2 → length (List.filter f l1) = length (List.filter f l2).
Proof.
  induction 1 as [|x l1 l2 _ IH|x y l|l1 l2 l3 _ IH1 _ IH2]; simpl.
  - done.
  - destruct (f x); simpl; by rewrite IH.
  - by destruct (f x), (f y).
  - by rewrite IH1.
Qed.

(** Inserting a row under a free key raises a count by one when the row is
    live and matches, and leaves it as it is otherwise. *)
Lemma gorm_Count_insert {T} (live : T → bool) (tbl : gmap N T) cond k (x : T) :
  tbl !! k = None →
  gorm_Count live (<[k := x]> tbl) cond
  = (gorm_Count live tbl cond + (if live x && cond k x then 1 else 0))%N.
Proof.
  intros Hk. unfold gorm_Count, gorm_select.
  rewrite (filter_length_Permutation _ _ _ (map_to_list_insert tbl k x Hk)).
  simpl. destruct (live x && cond k x); simpl; lia.
Qed.

(** A count splits along any further condition. *)
Lemma gorm_Count_split {T} (live : T → bool) (tbl : gmap N T) (a b : N → T → bool) :
  gorm_Count live tbl a
  = (gorm_Count live tbl (fun k t => a k t && b k t)
     + gorm_Count live tbl (fun k t => a k t && negb (b k t)))%N.
Proof.
  unfold gorm_Count, gorm_select.
  induction (map_to_list tbl) as [|r l IH]; [done|]. simpl.
  destruct (live r.2), (a r.1 r.2), (b r.1 r.2); simpl; lia.
Qed.

Lemma gorm_Count_ext {T} (live : T → bool) (tbl : gmap N T) (a b : N → T → bool) :
  (∀ k t, a k t = b k t) → gorm_Count live tbl a = gorm_Count live tbl b.
Proof.
  intros Hab. unfold gorm_Count, gorm_select. f_equal. f_equal.
  apply List.filter_ext. intros r. by rewrite Hab.
Qed.

(** ** Creating a todo *)

Lemma TodoRepository_Create_cases todo w :
  TodoRepository.Create todo w =
  match next_fault w with
  | Some e => (Err e, served w)
  | None =>
      let id := if (Todo_ID todo =? 0)%N then (todos_seq w + 1)%N else Todo_ID todo in
      let todo' :=
        mkTodo id (Todo_Title todo) (Todo_Description todo) (Todo_Completed todo)
          (Todo_Priority todo) (Todo_DueDate todo) (Todo_UserID todo)
          (if Todo_CreatedAt todo =? time_zero then now w else Todo_CreatedAt todo)
          (if Todo_UpdatedAt todo =? time_zero then now w else Todo_UpdatedAt todo)
          (Todo_DeletedAt todo) in
      if bool_decide (is_Some (todos w !! id)) then
        (Err (ErrUniqueViolation "todos.id"), tick (served w))
      else
        (Ok todo',
         mkWorld (users w) (users_seq w) (<[id := todo']> (todos w))
           (N.max (todos_seq w) id) (faults (served w)) (wall (tick (served w)))
           (elapse (tick (served w))))
  end.
Proof.
  unfold TodoRepository.Create. rewrite db_exec_cases.
  destruct (next_fault w); [done|].
  unfold bind, time_Now. cbv zeta.
  destruct (tick_tables (served w)) as (-> & -> & -> & -> & ->).
  destruct (served_tables w) as (-> & -> & -> & -> & Hw & _).
  unfold now. rewrite Hw.
  by case_bool_decide.
Qed.

(** The row a successful [Create] leaves in the table. *)
Lemma create_stores_one_owned_todo_aux (userID : uint) (req : CreateTodoRequest)
    (resp : TodoResponse) (w w' : World) :
  TodoService.Create userID req w = (Ok resp, w') →
  ∃ new : Todo,
    todos w' = <[TR_ID resp := new]> (todos w)
    ∧ resp = Todo_ToResponse new
    ∧ Todo_ID new = TR_ID resp
    ∧ Todo_UserID new = userID
    ∧ Todo_live new = true
    ∧ Todo_Completed new = false
    ∧ todos w !! TR_ID resp = None.
Proof.
  unfold TodoService.Create, bind. rewrite TodoRepository_Create_cases.
  destruct (next_fault w); [done|]. cbv zeta.
  case_bool_decide as Hfree; [done|]. unfold ret. intros [= <- <-].
  eexists. repeat split; try reflexivity. by apply eq_None_not_Some.
Qed.

(** X1.  A successful [Create] stores exactly one new row, under an
    identifier that was free: a live, not completed todo owned by the
    caller, with the title, description and due date of the request, the
    priority of the request or ["medium"] when the request names none, and
    both timestamps set to the time of the insert.  The response describes
    that row, and no other row of either table changes. *)
Theorem create_stores_one_owned_todo (userID : uint) (req : CreateTodoRequest)
    (resp : TodoResponse) (w w' : World) :
  TodoService.Create userID req w = (Ok resp, w') →
  ∃ new : Todo,
    todos w !! TR_ID resp = None
    ∧ todos w' = <[TR_ID resp := new]> (todos w)
    ∧ users w' = users w
    ∧ resp = Todo_ToResponse new
    ∧ Todo_ID new = TR_ID resp
    ∧ Todo_UserID new = userID
    ∧ Todo_Completed new = false
    ∧ Todo_live new = true
    ∧ Todo_Title new = CReq_Title req
    ∧ Todo_Description new = CReq_Description req
    ∧ Todo_DueDate new = CReq_DueDate req
    ∧ Todo_Priority new
      = (if String.eqb (CReq_Priority req) "" then "medium" else CReq_Priority req)
    ∧ Todo_CreatedAt new = now w
    ∧ Todo_UpdatedAt new = now w.
Proof.
  unfold TodoService.Create, bind. rewrite TodoRepository_Create_cases.
  destruct (next_fault w); [done|]. cbv zeta.
  case_bool_decide as Hfree; [done|]. unfold ret. intros [= <- <-].
  eexists. split; [by apply eq_None_not_Some|].
  repeat split; reflexivity.
Qed.

Lemma create_stores_one_owned_todo_witness :
  ∃ resp w',
    TodoService.Create 2 (mkCreateTodoRequest "Buy milk" "" "" None) Reference.alice_world
    = (Ok resp, w')
    ∧ TR_ID resp = 8%N
    ∧ TR_Priority resp = "medium"
    ∧ ∃ new, todos w' !! 8%N = Some new ∧ Todo_UserID new = 2%N.
Proof.
  destruct (TodoService.Create 2 (mkCreateTodoRequest "Buy milk" "" "" None)
              Reference.alice_world) as [[resp|e] w'] eqn:E;
    [|vm_compute in E; discriminate E].
  exists resp, w'. split; [reflexivity|].
  destruct (create_stores_one_owned_todo _ _ _ _ _ E)
    as (new & _ & Ht & _ & _ & _ & Hu & _).
  vm_compute in E. injection E as <- <-.
  split; [reflexivity|]. split; [reflexivity|].
  exists new. split; [|exact Hu].
  rewrite Ht. apply lookup_insert_eq.
Defined.

(** What [GetByID] returns for a todo the caller owns. *)
Lemma GetByID_owned w id caller t :
  owned_by w id caller = Some t →
  TodoService.GetByID id caller w =
  match next_fault w with
  | Some e => (Err e, served w)
  | None => (Ok (Todo_ToResponse t), served w)
  end.
Proof.
  intros Ho. unfold TodoService.GetByID, bind.
  rewrite FindByIDAndUserID_cases, Ho. by destruct (next_fault w).
Qed.

(** X2.  Insert, then look up: after a successful [Create], [GetByID] with
    the returned identifier gives the creator back exactly the response
    that [Create] returned, and gives every other user the error
    ["todo not found"] (on a database that serves the query). *)
Theorem create_then_get (userID : uint) (req : CreateTodoRequest)
    (resp : TodoResponse) (w w' : World) :
  TodoService.Create userID req w = (Ok resp, w') →
  healthy w' →
  TodoService.GetByID (TR_ID resp) userID w' = (Ok resp, served w')
  ∧ ∀ other, other ≠ userID →
      TodoService.GetByID (TR_ID resp) other w'
      = (Err (errors_New "todo not found"), served w').
Proof.
  intros E Hh.
  destruct (create_stores_one_owned_todo_aux userID req resp w w' E)
    as (new & Ht & -> & Hid & Hu & Hl & _).
  split.
  - rewrite (GetByID_owned w' (TR_ID (Todo_ToResponse new)) userID
               (set_Todo_ID (TR_ID (Todo_ToResponse new)) new)).
    + rewrite Hh. by destruct new.
    + unfold owned_by. rewrite Ht, lookup_insert_eq, Hl, Hu, N.eqb_refl. done.
  - intros other Hne.
    rewrite (GetByID_not_owned w' _ other).
    + by rewrite (not_found_or_fault_healthy _ Hh).
    + apply (owned_by_foreign _ _ _ new); [by rewrite Ht, lookup_insert_eq|congruence].
Qed.

Lemma create_then_get_witness :
  ∃ resp w',
    TodoService.Create 2 (mkCreateTodoRequest "Buy milk" "" "high" None) Reference.alice_world
    = (Ok resp, w')
    ∧ (TodoService.GetByID (TR_ID resp) 2 w').1 = Ok resp
    ∧ (TodoService.GetByID (TR_ID resp) 1 w').1 = Err (errors_New "todo not found").
Proof.
  destruct (TodoService.Create 2 (mkCreateTodoRequest "Buy milk" "" "high" None)
              Reference.alice_world) as [[resp|e] w'] eqn:E;
    [|vm_compute in E; discriminate E].
  exists resp, w'. split; [reflexivity|].
  destruct (create_then_get _ _ _ _ _ E) as [Hown Hother].
  - vm_compute in E. injection E as _ <-. reflexivity.
  - split; [by rewrite Hown|]. by rewrite (Hother 1%N).
Defined.

(** ** Counting *)

Lemma CountByUserID_cases userID w :
  TodoRepository.CountByUserID userID w =
  match next_fault w with
  | Some e => (Err e, served w)
  | None => (Ok (count_todos w userID (fun _ => true)), served w)
  end.
Proof.
  unfold TodoRepository.CountByUserID. rewrite db_exec_cases.
  destruct (next_fault w); [done|]. unfold count_todos.
  destruct (served_tables w) as (_ & _ & -> & _).
  do 3 f_equal. apply gorm_Count_ext. intros k t.
  unfold TodoRepository.user_id_is. by rewrite andb_true_r.
Qed.

Lemma CountCompletedByUserID_cases userID w :
  TodoRepository.CountCompletedByUserID userID w =
  match next_fault w with
  | Some e => (Err e, served w)
  | None => (Ok (count_todos w userID Todo_Completed), served w)
  end.
Proof.
  unfold TodoRepository.CountCompletedByUserID. rewrite db_exec_cases.
  destruct (next_fault w); [done|]. unfold count_todos.
  destruct (served_tables w) as (_ & _ & -> & _).
  do 3 f_equal. apply gorm_Count_ext. intros k t.
  unfold TodoRepository.user_id_and_completed. by destruct (Todo_Completed t).
Qed.

(** X3.  A successful [Create] raises the creator's [CountByUserID] by
    exactly one and leaves the count of every other user as it was; the
    count of completed todos changes for nobody. *)
Theorem create_counts (userID : uint) (req : CreateTodoRequest)
    (resp : TodoResponse) (w w' : World) :
  TodoService.Create userID req w = (Ok resp, w') →
  healthy w' →
  ∀ u,
    TodoRepository.CountByUserID u w'
    = (Ok (count_todos w u (fun _ => true) + (if (u =? userID)%N then 1 else 0)),
       served w')
    ∧ TodoRepository.CountCompletedByUserID u w'
      = (Ok (count_todos w u Todo_Completed), served w').
Proof.
  intros E Hh u.
  destruct (create_stores_one_owned_todo_aux userID req resp w w' E)
    as (new & Ht & _ & _ & Hu & Hl & Hc & Hfree).
  rewrite CountByUserID_cases, CountCompletedByUserID_cases, Hh.
  unfold count_todos. rewrite Ht, !gorm_Count_insert by done.
  rewrite Hl, Hu, Hc, (N.eqb_sym userID u). simpl.
  split; f_equal; f_equal; destruct (u =? userID)%N; simpl; lia.
Qed.

Lemma create_counts_witness :
  ∃ resp w',
    TodoService.Create 2 (mkCreateTodoRequest "Buy milk" "" "" None) Reference.alice_world
    = (Ok resp, w')
    ∧ (TodoRepository.CountByUserID 2 Reference.alice_world).1 = Ok 0
    ∧ (TodoRepository.CountByUserID 2 w').1 = Ok 1
    ∧ (TodoRepository.CountByUserID 1 w').1 = Ok 1.
Proof.
  destruct (TodoService.Create 2 (mkCreateTodoRequest "Buy milk" "" "" None)
              Reference.alice_world) as [[resp|e] w'] eqn:E;
    [|vm_compute in E; discriminate E].
  exists resp, w'. split; [reflexivity|]. split; [reflexivity|].
  assert (healthy w') as Hh.
  { vm_compute in E. injection E as _ <-. reflexivity. }
  pose proof (create_counts _ _ _ _ _ E Hh) as Hc.
  destruct (Hc 2%N) as [-> _]. destruct (Hc 1%N) as [-> _].
  split; reflexivity.
Defined.

(** X4.  On a database that serves both counting queries, [GetStats]
    returns the three entries [total], [completed] and [pending], which
    count the caller's live todos, those of them that are completed and
    those that are not: [total = completed + pending], none of the three is
    negative, and the todos of other users do not enter. *)
Theorem stats_add_up (userID : uint) (w : World) :
  healthy w → healthy (served w) →
  ∃ stats : gmap string Z,
    TodoService.GetStats userID w = (Ok stats, served (served w))
    ∧ stats !! "total" = Some (count_todos w userID (fun _ => true))
    ∧ stats !! "completed" = Some (count_todos w userID Todo_Completed)
    ∧ stats !! "pending" = Some (count_todos w userID (fun t => negb (Todo_Completed t)))
    ∧ count_todos w userID (fun _ => true)
      = count_todos w userID Todo_Completed
        + count_todos w userID (fun t => negb (Todo_Completed t))
    ∧ 0 ≤ count_todos w userID Todo_Completed
    ∧ 0 ≤ count_todos w userID (fun t => negb (Todo_Completed t))
    ∧ dom stats = {[ "total"; "completed"; "pending" ]}.
Proof.
  intros Hh1 Hh2.
  assert (count_todos w userID (fun _ => true)
          = count_todos w userID Todo_Completed
            + count_todos w userID (fun t => negb (Todo_Completed t))) as Hsum.
  { unfold count_todos.
    rewrite (gorm_Count_split Todo_live (todos w)
               (fun _ t => (Todo_UserID t =? userID)%N && true)
               (fun _ t => Todo_Completed t)).
    rewrite N2Z.inj_add. f_equal; f_equal; apply gorm_Count_ext; intros k t;
      by rewrite andb_true_r. }
  assert (count_todos (served w) userID Todo_Completed
          = count_todos w userID Todo_Completed) as Hs.
  { unfold count_todos. by destruct (served_tables w) as (_ & _ & -> & _). }
  eexists. split.
  - unfold TodoService.GetStats, bind.
    rewrite CountByUserID_cases, Hh1, CountCompletedByUserID_cases, Hh2, Hs.
    reflexivity.
  - split; [done|]. split; [done|]. split.
    { rewrite lookup_insert_ne, lookup_insert_ne, lookup_singleton_eq by done.
      f_equal. lia. }
    split; [done|]. unfold count_todos. split; [lia|]. split; [lia|].
    rewrite !dom_insert_L, dom_singleton_L. set_solver.
Qed.

Lemma stats_add_up_witness :
  ∃ stats,
    (TodoService.GetStats 1 Reference.alice_world).1 = Ok stats
    ∧ stats !! "total" = Some 1 ∧ stats !! "completed" = Some 0
    ∧ stats !! "pending" = Some 1.
Proof.
  destruct (stats_add_up 1 Reference.alice_world) as (stats & E & Ht & Hc & Hp & _);
    [reflexivity | reflexivity |].
  exists stats. split; [by rewrite E|].
  rewrite Ht, Hc, Hp. repeat split; vm_compute; reflexivity.
Defined.

(** ** Deleting a todo *)

Lemma alter_as_insert {T} (f : T → T) (tbl : gmap N T) id old :
  tbl !! id = Some old → alter f id tbl = <[id := f old]> tbl.
Proof.
  intros Hold. apply map_eq. intros k. rewrite lookup_alter.
  destruct (decide (id = k)) as [<-|Hne].
  - by rewrite Hold, lookup_insert_eq.
  - by rewrite lookup_insert_ne.
Qed.

Lemma TodoRepository_Delete_cases id w :
  TodoRepository.Delete id w =
  match next_fault w with
  | Some e => (Err e, served w)
  | None =>
      (Ok tt,
       set_todos
         (alter (fun r => if Todo_live r then set_Todo_DeletedAt (Some (now w)) r else r)
                id (todos w))
         (tick (served w)))
  end.
Proof.
  unfold TodoRepository.Delete. rewrite db_exec_cases.
  destruct (next_fault w); [done|]. unfold bind, time_Now.
  destruct (tick_tables (served w)) as (_ & _ & -> & _).
  destruct (served_tables w) as (_ & _ & -> & _ & Hw & _).
  unfold now. by rewrite Hw.
Qed.

(** What a successful service [Delete] does to the table. *)
Lemma Delete_Ok id userID w w' :
  TodoService.Delete id userID w = (Ok tt, w') →
  ∃ old : Todo,
    todos w !! id = Some old
    ∧ Todo_live old = true
    ∧ Todo_UserID old = userID
    ∧ todos w' = <[id := set_Todo_DeletedAt (Some (now w)) old]> (todos w)
    ∧ users w' = users w.
Proof.
  unfold TodoService.Delete, bind. rewrite FindByIDAndUserID_cases.
  destruct (next_fault w); [done|].
  destruct (owned_by w id userID) as [t|] eqn:Ho; [|done].
  apply owned_by_Some in Ho as (old & Hold & Hlive & Howner & ->).
  rewrite TodoRepository_Delete_cases.
  destruct (next_fault (served w)); [done|]. intros [= <-].
  destruct (served_tables w) as (Hu & _ & Ht & _ & Hw & _).
  destruct (tick_tables (served (served w))) as (Hu2 & _).
  destruct (served_tables (served w)) as (Hu1 & _).
  exists old. repeat split; try done.
  - simpl. rewrite Ht. rewrite (alter_as_insert _ _ _ _ Hold), Hlive.
    unfold now. by rewrite Hw.
  - simpl. congruence.
Qed.

(** X5.  [Delete] is a soft delete.  After it has succeeded the row is
    still in the table, changed in nothing but its deletion mark, which
    carries the time of the delete; no other row of either table changes;
    and from then on the todo is found for no user, so that [GetByID],
    [Update] and a second [Delete] all answer ["todo not found"] (on a
    database that serves the lookup). *)
Theorem delete_is_soft_and_final (id userID : uint) (w w' : World) :
  TodoService.Delete id userID w = (Ok tt, w') →
  ∃ old : Todo,
    todos w !! id = Some old
    ∧ Todo_UserID old = userID
    ∧ todos w' = <[id := set_Todo_DeletedAt (Some (now w)) old]> (todos w)
    ∧ users w' = users w
    ∧ (∀ u, owned_by w' id u = None)
    ∧ (healthy w' →
       ∀ u req,
         TodoService.GetByID id u w' = (Err (errors_New "todo not found"), served w')
         ∧ TodoService.Update id u req w' = (Err (errors_New "todo not found"), served w')
         ∧ TodoService.Delete id u w' = (Err (errors_New "todo not found"), served w')).
Proof.
  intros E. destruct (Delete_Ok _ _ _ _ E) as (old & Hold & Hlive & Hu & Ht & Hus).
  assert (∀ u, owned_by w' id u = None) as Hgone.
  { intros u. unfold owned_by. by rewrite Ht, lookup_insert_eq. }
  exists old. repeat split; try done.
  - by rewrite (GetByID_not_owned _ _ _ (Hgone u)), not_found_or_fault_healthy.
  - by rewrite (Update_not_owned _ _ _ (Hgone u)), not_found_or_fault_healthy.
  - by rewrite (Delete_not_owned _ _ _ (Hgone u)), not_found_or_fault_healthy.
Qed.

Lemma delete_is_soft_and_final_witness :
  ∃ w',
    TodoService.Delete 7 1 Reference.alice_world = (Ok tt, w')
    ∧ (Todo_DeletedAt <$> todos w' !! 7%N) = Some (Some 1700000000500000000)
    ∧ (TodoService.GetByID 7 1 w').1 = Err (errors_New "todo not found").
Proof.
  destruct (TodoService.Delete 7 1 Reference.alice_world) as [[[]|e] w'] eqn:E;
    [|vm_compute in E; discriminate E].
  exists w'. split; [reflexivity|].
  destruct (delete_is_soft_and_final _ _ _ _ E) as (old & Hold & _ & Ht & _ & _ & Hfinal).
  vm_compute in Hold. injection Hold as <-.
  split; [by rewrite Ht, lookup_insert_eq|].
  assert (healthy w') as Hh.
  { vm_compute in E. injection E as <-. reflexivity. }
  destruct (Hfinal Hh 1%N (mkUpdateTodoRequest None None None None None)) as [Hg _].
  by rewrite Hg.
Defined.

Lemma soft_delete_id_and_user_id id userID t (tbl : gmap N Todo) :
  TodoRepository.soft_delete (TodoRepository.id_and_user_id id userID) t tbl =
  match tbl !! id with
  | Some old =>
      if Todo_live old && (Todo_UserID old =? userID)%N
      then <[id := set_Todo_DeletedAt (Some t) old]> tbl
      else tbl
  | None => tbl
  end.
Proof.
  apply map_eq. intros k. unfold TodoRepository.soft_delete.
  rewrite map_lookup_imap. unfold TodoRepository.id_and_user_id.
  destruct (decide (k = id)) as [->|Hne].
  - destruct (tbl !! id) as [old|] eqn:Hold; simpl; [|by rewrite Hold].
    rewrite N.eqb_refl. simpl.
    destruct (Todo_live old && (Todo_UserID old =? userID)%N).
    + by rewrite lookup_insert_eq.
    + by rewrite Hold.
  - assert ((k =? id)%N = false) as Hk by by apply N.eqb_neq.
    assert (tbl !! k ≫= (fun r : Todo =>
              Some (if Todo_live r && ((k =? id)%N && (Todo_UserID r =? userID)%N)
                    then set_Todo_DeletedAt (Some t) r else r)) = tbl !! k) as ->.
    { destruct (tbl !! k) as [r|]; [|done]. simpl. by rewrite Hk, andb_false_r. }
    destruct (tbl !! id) as [old|]; [|done].
    destruct (Todo_live old && (Todo_UserID old =? userID)%N); [|done].
    by rewrite lookup_insert_ne.
Qed.

Lemma DeleteByIDAndUserID_cases id userID w :
  TodoRepository.DeleteByIDAndUserID id userID w =
  match next_fault w with
  | Some _ => (Err ErrRecordNotFound, served w)
  | None =>
      match todos w !! id with
      | Some old =>
          if Todo_live old && (Todo_UserID old =? userID)%N
          then (Ok tt,
                set_todos (<[id := set_Todo_DeletedAt (Some (now w)) old]> (todos w))
                  (tick (served w)))
          else (Err ErrRecordNotFound, set_todos (todos w) (tick (served w)))
      | None => (Err ErrRecordNotFound, set_todos (todos w) (tick (served w)))
      end
  end.
Proof.
  unfold TodoRepository.DeleteByIDAndUserID. rewrite db_exec_cases.
  destruct (next_fault w); [done|]. unfold bind, time_Now.
  destruct (tick_tables (served w)) as (_ & _ & -> & _).
  destruct (served_tables w) as (_ & _ & -> & _ & Hw & _).
  rewrite soft_delete_id_and_user_id.
  rewrite (gorm_Count_key Todo_live (todos w) (TodoRepository.id_and_user_id id userID) id).
  2: { intros k t Hc. unfold TodoRepository.id_and_user_id in Hc.
       apply andb_true_iff in Hc as [Hk _]. by apply N.eqb_eq in Hk. }
  unfold TodoRepository.id_and_user_id, now. rewrite N.eqb_refl, Hw.
  destruct (todos w !! id) as [old|]; [|done]. simpl.
  by destruct (Todo_live old && (Todo_UserID old =? userID)%N).
Qed.

(** X6.  The ownership-checked delete of the repository succeeds exactly
    when the database serves the statement and the todo is live and owned
    by the given user.  In every other case it answers
    [gorm.ErrRecordNotFound] and leaves both tables as they are; this
    includes a statement that the driver fails, whose own error is never
    returned.  Where the service's [Delete] (lookup, then delete by
    identifier) succeeds, the ownership-checked delete leaves the same two
    tables. *)
Theorem ownership_checked_delete (id userID : uint) (w : World) :
  ((TodoRepository.DeleteByIDAndUserID id userID w).1 = Ok tt
   ↔ healthy w ∧ is_Some (owned_by w id userID))
  ∧ ((TodoRepository.DeleteByIDAndUserID id userID w).1 ≠ Ok tt →
     (TodoRepository.DeleteByIDAndUserID id userID w).1 = Err ErrRecordNotFound
     ∧ todos (TodoRepository.DeleteByIDAndUserID id userID w).2 = todos w)
  ∧ users (TodoRepository.DeleteByIDAndUserID id userID w).2 = users w
  ∧ (∀ w', TodoService.Delete id userID w = (Ok tt, w') →
           (TodoRepository.DeleteByIDAndUserID id userID w).1 = Ok tt
           ∧ todos (TodoRepository.DeleteByIDAndUserID id userID w).2 = todos w'
           ∧ users (TodoRepository.DeleteByIDAndUserID id userID w).2 = users w').
Proof.
  rewrite DeleteByIDAndUserID_cases. unfold healthy, owned_by.
  destruct (served_tables w) as (Hu & _ & Ht & _).
  destruct (tick_tables (served w)) as (Hu' & _).
  assert (∀ w', TodoService.Delete id userID w = (Ok tt, w') →
            next_fault w = None
            ∧ ∃ old, todos w !! id = Some old
                     ∧ Todo_live old && (Todo_UserID old =? userID)%N = true
                     ∧ todos w' = <[id := set_Todo_DeletedAt (Some (now w)) old]> (todos w)
                     ∧ users w' = users w) as Hsvc.
  { intros w' E. split.
    - revert E. unfold TodoService.Delete, bind. rewrite FindByIDAndUserID_cases.
      by destruct (next_fault w).
    - destruct (Delete_Ok _ _ _ _ E) as (old & Hold & Hl & Ho & Ht' & Hu'').
      exists old. by rewrite Hl, Ho, N.eqb_refl. }
  destruct (next_fault w) as [e|] eqn:Hf.
  { simpl. repeat split; try done; try congruence.
    - by intros [? _].
    - by destruct (Hsvc w' H).
    - by destruct (Hsvc w' H).
    - by destruct (Hsvc w' H). }
  destruct (todos w !! id) as [old|] eqn:Hold.
  2: { simpl. repeat split; try done; try congruence.
       - by intros [_ [? ?]].
       - by destruct (Hsvc w' H) as (_ & ? & ? & _).
       - by destruct (Hsvc w' H) as (_ & ? & ? & _).
       - by destruct (Hsvc w' H) as (_ & ? & ? & _). }
  destruct (Todo_live old && (Todo_UserID old =? userID)%N) eqn:Hc; simpl.
  - repeat split; try done; try congruence.
    + destruct (Hsvc w' H) as (_ & old' & Hold' & _ & -> & _). congruence.
    + destruct (Hsvc w' H) as (_ & old' & _ & _ & _ & ->). congruence.
  - repeat split; try done; try congruence.
    + by intros [_ [? ?]].
    + destruct (Hsvc w' H) as (_ & old' & Hold' & Hc' & _). congruence.
    + destruct (Hsvc w' H) as (_ & old' & Hold' & Hc' & _). congruence.
    + destruct (Hsvc w' H) as (_ & old' & Hold' & Hc' & _). congruence.
Qed.

(** ** Lookup by identifier *)

Lemma FindByID_cases id w :
  TodoRepository.FindByID id w =
  match next_fault w with
  | Some e => (Err e, served w)
  | None =>
      (Ok (match todos w !! id with
           | Some t => if Todo_live t then Some (set_Todo_ID id t) else None
           | None => None
           end), served w)
  end.
Proof.
  unfold TodoRepository.FindByID. rewrite db_exec_cases.
  destruct (next_fault w); [done|].
  rewrite (gorm_First_key Todo_live _ (TodoRepository.id_is id) id).
  2: { intros k t Hc. by apply N.eqb_eq in Hc. }
  destruct (served_tables w) as (_ & _ & -> & _).
  unfold TodoRepository.id_is. rewrite N.eqb_refl.
  destruct (todos w !! id) as [t|]; [|done].
  by destruct (Todo_live t).
Qed.

(** X7.  The ownership-scoped lookup is the plain lookup by identifier
    followed by a check of the owner: it returns what [FindByID] returns,
    except that a todo of another user is reported as absent.  Neither
    lookup returns a soft-deleted row, and the todo returned carries the
    identifier asked for. *)
Theorem scoped_lookup_is_filtered_lookup (id userID : uint) (w : World) :
  TodoRepository.FindByIDAndUserID id userID w =
  match TodoRepository.FindByID id w with
  | (Ok (Some t), w') =>
      if (Todo_UserID t =? userID)%N then (Ok (Some t), w') else (Ok None, w')
  | r => r
  end
  ∧ (∀ t w', TodoRepository.FindByID id w = (Ok (Some t), w') →
             Todo_ID t = id ∧ Todo_DeletedAt t = None
             ∧ ∃ row, todos w !! id = Some row ∧ t = set_Todo_ID id row).
Proof.
  rewrite FindByIDAndUserID_cases, FindByID_cases. unfold owned_by.
  destruct (next_fault w); [split; [done|by intros]|].
  destruct (todos w !! id) as [row|]; [|split; [done|by intros]].
  unfold Todo_live. destruct (Todo_DeletedAt row) eqn:Hd; simpl.
  - split; [done|by intros].
  - split; [by destruct (Todo_UserID row =? userID)%N|].
    intros t w' [= <- <-]. simpl. eauto.
Qed.

(** ** Requests that the handlers turn away *)

Lemma strconv_ParseUint32_bound s n :
  strconv_ParseUint32 s = Ok n → (n < 2 ^ 32)%N ∧ s ≠ "".
Proof.
  unfold strconv_ParseUint32. destruct s as [|c s]; [done|].
  destruct (parse_digits (String c s) 0) as [m|]; [|done].
  destruct (N.ltb_spec m (2 ^ 32)); [|done]. by intros [= <-].
Qed.

(** X8.  The handlers turn a request away before they touch the database:
    without an injected identity the four todo handlers answer 401
    [UNAUTHORIZED]; with an identity but a path parameter that is not a
    decimal number below [2^32], [GetByID], [Update] and [Delete] answer
    400 [BAD_REQUEST]; and a body that does not bind makes [Update],
    [Create], [Register] and [Login] answer 400 [VALIDATION_ERROR].  In
    each of these cases the handler writes that response and returns: the
    world is left exactly as it was, and the context is not aborted (its
    abort flag stays as it was).  An identifier that is accepted is below
    [2^32]. *)
Theorem handlers_turn_away_before_the_database
    `{Binding} `{BindingCreate} `{Bcrypt} `{JWTWire}
    (j : JWTManager) (c : Context) (w : World) :
  ((GetUserID c).2 = false →
     refused_with 401 "UNAUTHORIZED" c w (TodoHandler.Create c w)
     ∧ refused_with 401 "UNAUTHORIZED" c w (TodoHandler.GetByID c w)
     ∧ refused_with 401 "UNAUTHORIZED" c w (TodoHandler.Update c w)
     ∧ refused_with 401 "UNAUTHORIZED" c w (TodoHandler.Delete c w))
  ∧ ((GetUserID c).2 = true → is_Ok (strconv_ParseUint32 (Param_id c)) = false →
       refused_with 400 "BAD_REQUEST" c w (TodoHandler.GetByID c w)
       ∧ refused_with 400 "BAD_REQUEST" c w (TodoHandler.Update c w)
       ∧ refused_with 400 "BAD_REQUEST" c w (TodoHandler.Delete c w))
  ∧ ((GetUserID c).2 = true → is_Ok (strconv_ParseUint32 (Param_id c)) = true →
       is_Ok (ShouldBindJSON_UpdateTodo (Body c)) = false →
       refused_with 400 "VALIDATION_ERROR" c w (TodoHandler.Update c w))
  ∧ ((GetUserID c).2 = true → is_Ok (ShouldBindJSON_CreateTodo (Body c)) = false →
       refused_with 400 "VALIDATION_ERROR" c w (TodoHandler.Create c w))
  ∧ (is_Ok (ShouldBindJSON_Register (Body c)) = false →
       refused_with 400 "VALIDATION_ERROR" c w (AuthHandler.Register j c w))
  ∧ (is_Ok (ShouldBindJSON_Login (Body c)) = false →
       refused_with 400 "VALIDATION_ERROR" c w (AuthHandler.Login j c w))
  ∧ (∀ id, strconv_ParseUint32 (Param_id c) = Ok id → (id < 2 ^ 32)%N).
Proof.
  unfold refused_with, TodoHandler.Create, TodoHandler.GetByID, TodoHandler.Update,
    TodoHandler.Delete, AuthHandler.Register, AuthHandler.Register_with, AuthHandler.Login.
  destruct (GetUserID c) as [userID [|]]; simpl;
    destruct (strconv_ParseUint32 (Param_id c)) as [id|e] eqn:Hp; simpl;
    destruct (ShouldBindJSON_UpdateTodo (Body c)); simpl;
    destruct (ShouldBindJSON_CreateTodo (Body c)); simpl;
    destruct (ShouldBindJSON_Register (Body c)); simpl;
    destruct (ShouldBindJSON_Login (Body c)); simpl;
    repeat split; try done; eauto;
    try (intros id' [= <-]; by apply (strconv_ParseUint32_bound _ _ Hp)).
Qed.

Lemma handlers_turn_away_before_the_database_witness :
  refused_with 401 "UNAUTHORIZED" (request "" "7" "") Reference.alice_world
    (TodoHandler.GetByID (request "" "7" "") Reference.alice_world)
  ∧ refused_with 400 "BAD_REQUEST"
      (with_Param_id "4294967296" (Reference.request_of 1 "a@b.c" "")) Reference.alice_world
      (TodoHandler.Delete (with_Param_id "4294967296" (Reference.request_of 1 "a@b.c" ""))
         Reference.alice_world)
  ∧ refused_with 400 "VALIDATION_ERROR" (request "" "" "no-space") Reference.alice_world
      (AuthHandler.Login Reference.manager (request "" "" "no-space") Reference.alice_world).
Proof.
  split; [|split].
  - apply (handlers_turn_away_before_the_database Reference.manager
             (request "" "7" "") Reference.alice_world). reflexivity.
  - apply (handlers_turn_away_before_the_database Reference.manager
             (with_Param_id "4294967296" (Reference.request_of 1 "a@b.c" ""))
             Reference.alice_world); reflexivity.
  - apply (handlers_turn_away_before_the_database Reference.manager
             (request "" "" "no-space") Reference.alice_world). reflexivity.
Defined.

(** ** The gate in front of the handlers *)

Lemma same_database_views w w' id u :
  same_database w w' →
  owned_by w' id u = owned_by w id u ∧ next_fault w' = next_fault w
  ∧ todos (served w') = todos w ∧ users (served w') = users w.
Proof.
  intros (Hu & _ & Ht & _ & Hf). unfold owned_by, next_fault.
  destruct (served_tables w') as (Hu' & _ & Ht' & _).
  rewrite Ht, Hf. repeat split; congruence.
Qed.

Lemma with_Param_id_eta c : with_Param_id (Param_id c) c = c.
Proof. by destruct c. Qed.

(** X9.  Isolation end to end: a request that passes the gate with a valid
    token and asks for a todo that the token's user does not own is
    answered by [GetByID] with the 404 [NOT_FOUND] response, and on a
    database that serves the lookup by [Update] and [Delete] as well, with
    both tables left as they were; a request for a todo that the token's
    user owns is answered by [GetByID], on a database that serves the
    lookup, with 200 and that todo. *)
Theorem gate_then_handler_isolation `{Binding} `{JWTWire} (j : JWTManager)
    (c : Context) (w w1 : World) (tokenString : string) (claims : JWTClaims)
    (id : uint) (req : UpdateTodoRequest) :
  bearer_header (Authorization c) tokenString →
  JWT.ValidateToken j tokenString w = (Ok claims, w1) →
  strconv_ParseUint32 (Param_id c) = Ok id →
  ShouldBindJSON_UpdateTodo (Body c) = Ok req →
  (owned_by w id (UserID claims) = None →
     response (AuthMiddleware j TodoHandler.GetByID c w) = NotFound "Todo"
     ∧ (healthy w →
          response (AuthMiddleware j TodoHandler.Update c w) = NotFound "Todo"
        ∧ response (AuthMiddleware j TodoHandler.Delete c w) = NotFound "Todo"
        ∧ todos (AuthMiddleware j TodoHandler.Update c w).2 = todos w
        ∧ todos (AuthMiddleware j TodoHandler.Delete c w).2 = todos w))
  ∧ (∀ t, owned_by w id (UserID claims) = Some t → healthy w →
       response (AuthMiddleware j TodoHandler.GetByID c w)
       = succeeded_with 200 "Todo retrieved" (DataTodo (Todo_ToResponse t))
       ∧ Todo_UserID t = UserID claims).
Proof.
  intros Hb Hv Hp Hbody.
  pose proof (ValidateToken_same_database j tokenString w) as Hdb. rewrite Hv in Hdb.
  simpl in Hdb.
  destruct (same_database_views w w1 id (UserID claims) Hdb) as (Ho & Hf & Ht & _).
  assert (∀ next, AuthMiddleware j next c w = next (inject claims c) w1) as Hgate.
  { intros next. by rewrite (AuthMiddleware_bearer j next c w tokenString Hb), Hv. }
  rewrite !Hgate.
  pose proof (GetUserID_inject claims c) as Hid.
  split.
  - intros Hnone. rewrite <- Ho in Hnone.
    pose proof (handler_GetByID_not_owned w1 id (UserID claims) (inject claims c) _
                  Hnone Hid Hp) as Hg.
    pose proof (handler_Update_not_owned w1 id (UserID claims) (inject claims c) _
                  Hnone Hid Hp req Hbody) as Hu.
    pose proof (handler_Delete_not_owned w1 id (UserID claims) (inject claims c) _
                  Hnone Hid Hp) as Hd.
    change (with_Param_id (Param_id c) (inject claims c))
      with (with_Param_id (Param_id (inject claims c)) (inject claims c)) in Hg, Hu, Hd.
    rewrite with_Param_id_eta in Hg, Hu, Hd. rewrite Hg, Hu, Hd.
    split; [done|]. intros Hh.
    assert (healthy w1) as Hh1 by (unfold healthy; congruence).
    rewrite (not_found_or_fault_healthy _ Hh1). simpl. done.
  - intros t Hsome Hh. rewrite <- Ho in Hsome.
    assert (healthy w1) as Hh1 by (unfold healthy; congruence).
    unfold response, TodoHandler.GetByID. rewrite Hid.
    change (Param_id (inject claims c)) with (Param_id c). rewrite Hp.
    rewrite (GetByID_owned _ _ _ _ Hsome), Hh1. split; [done|].
    apply owned_by_Some in Hsome as (old & _ & _ & Hu & ->). done.
Qed.

Lemma gate_then_handler_isolation_witness :
  let bob := NewJWTManager "test-secret" time_Hour "test" in
  let c := request ("Bearer " +:+ Samples.fresh_token) "7" "title" in
  let w := mkWorld ∅ 0 {[ 7%N := Reference.alice_todo;
                          9%N := bob_todo ]} 9 []
             1700000000500000000 [] in
  response (AuthMiddleware bob TodoHandler.GetByID c w)
  = succeeded_with 200 "Todo retrieved" (DataTodo (Todo_ToResponse Reference.alice_todo))
  ∧ response (AuthMiddleware bob TodoHandler.GetByID (with_Param_id "9" c) w)
    = NotFound "Todo".
Proof.
  intros bob c w.
  destruct (gate_then_handler_isolation bob c w
              (JWT.ValidateToken bob Samples.fresh_token w).2 Samples.fresh_token
              (issued_claims Reference.manager 1 "alice@example.com" Samples.still_world)
              7 (mkUpdateTodoRequest (Some "title") None None None None))
    as [_ Hown];
    [exists "Bearer"; split; reflexivity | vm_compute; reflexivity
    | reflexivity | reflexivity |].
  destruct (gate_then_handler_isolation bob (with_Param_id "9" c) w
              (JWT.ValidateToken bob Samples.fresh_token w).2 Samples.fresh_token
              (issued_claims Reference.manager 1 "alice@example.com" Samples.still_world)
              9 (mkUpdateTodoRequest (Some "title") None None None None))
    as [Hforeign _];
    [exists "Bearer"; split; reflexivity | vm_compute; reflexivity
    | reflexivity | reflexivity |].
  split.
  - destruct (Hown Reference.alice_todo) as [Hr _]; [reflexivity|reflexivity|exact Hr].
  - destruct Hforeign as [Hr _]; [reflexivity|exact Hr].
Defined.

(** ** From an issued token to the injected identity *)

(** Validation of a token of [GenerateToken] inside its window. *)
Lemma ValidateToken_issued `{JWTWire} (j : JWTManager) userID email w w' :
  let claims := issued_claims j userID email w in
  wire_faithful "HS256" claims (HMAC SHA256 (secret j) (SigningString "HS256" claims)) →
  Truncate (now (tick (tick w))) time_Second ≤ now w'
  < Truncate (now w + expiry j) time_Second →
  ∃ tokenString,
    JWT.GenerateToken j userID email w = (Ok tokenString, tick (tick (tick w)))
    ∧ JWT.ValidateToken j tokenString w' = (Ok claims, tick w').
Proof.
  intros claims Hf Hw.
  exists (AppendSignature (SigningString "HS256" claims)
            (HMAC SHA256 (secret j) (SigningString "HS256" claims))).
  split; [reflexivity|].
  rewrite (ValidateToken_signed j claims w' Hf).
  by rewrite (proj2 (verify_window claims (now w') _ _ eq_refl eq_refl) Hw).
Qed.

(** X10.  The identity that reaches the handlers is the one the token was
    issued for: when a token of [GenerateToken] for a user identifier and
    email is presented as a bearer credential inside its validity window,
    the gate runs the rest of the chain on a context from which
    [GetUserID] and [GetUserEmail] read exactly that identifier and email,
    whatever the context held under these keys before. *)
Theorem issued_identity_reaches_the_handlers `{JWTWire} (j : JWTManager)
    (userID : uint) (email : string) (w w' : World) (c : Context) (tokenString : string) :
  let claims := issued_claims j userID email w in
  wire_faithful "HS256" claims (HMAC SHA256 (secret j) (SigningString "HS256" claims)) →
  (JWT.GenerateToken j userID email w).1 = Ok tokenString →
  bearer_header (Authorization c) tokenString →
  Truncate (now (tick (tick w))) time_Second ≤ now w'
  < Truncate (now w + expiry j) time_Second →
  ∃ c',
    (∀ next : HandlerFunc, AuthMiddleware j next c w' = next c' (tick w'))
    ∧ GetUserID c' = (userID, true)
    ∧ GetUserEmail c' = (email, true)
    ∧ Aborted c' = Aborted c ∧ Written c' = Written c
    ∧ Param_id c' = Param_id c ∧ Body c' = Body c.
Proof.
  intros claims Hf Hg Hb Hw.
  destruct (ValidateToken_issued j userID email w w' Hf Hw) as (t & Hg' & Hv).
  rewrite Hg' in Hg. injection Hg as ->.
  exists (inject claims c). split.
  - intros next. by rewrite (AuthMiddleware_bearer j next c w' tokenString Hb), Hv.
  - split; [apply GetUserID_inject|]. split; [apply GetUserEmail_inject|]. done.
Qed.

Lemma issued_identity_reaches_the_handlers_witness :
  ∃ c',
    AuthMiddleware Reference.manager TodoHandler.GetByID
      (Set_ (request ("bearer " +:+ Samples.fresh_token) "7" "") "user_id" (AnyUint 99))
      Samples.still_world
    = TodoHandler.GetByID c' (tick Samples.still_world)
    ∧ GetUserID c' = (1%N, true)
    ∧ GetUserEmail c' = ("alice@example.com", true).
Proof.
  destruct (issued_identity_reaches_the_handlers Reference.manager 1 "alice@example.com"
              Samples.still_world Samples.still_world
              (Set_ (request ("bearer " +:+ Samples.fresh_token) "7" "") "user_id" (AnyUint 99))
              Samples.fresh_token)
    as (c' & Hrun & Hid & Hemail & _);
    [vm_compute; reflexivity | reflexivity | exists "bearer"; split; reflexivity
    | split; vm_compute; [discriminate|reflexivity] |].
  exists c'. split; [apply Hrun|]. split; [exact Hid|exact Hemail].
Defined.

(** ** Refreshing a token *)

(** X11.  [RefreshToken] looks at nothing but the user identifier and the
    email of the claims it is given: claims that agree on these two yield
    the same token, whatever their dates and issuer, so that claims long
    expired are refreshed like valid ones.  The new token carries the dates
    of the refresh and validates inside its own window, returning the same
    identifier and email. *)
Theorem refresh_keeps_identity_and_ignores_dates `{JWTWire} (j : JWTManager)
    (claims : JWTClaims) (w : World) :
  (∀ claims', UserID claims' = UserID claims → Email claims' = Email claims →
              JWT.RefreshToken j claims' w = JWT.RefreshToken j claims w)
  ∧ JWT.RefreshToken j claims w = JWT.GenerateToken j (UserID claims) (Email claims) w
  ∧ (let fresh := issued_claims j (UserID claims) (Email claims) w in
     wire_faithful "HS256" fresh (HMAC SHA256 (secret j) (SigningString "HS256" fresh)) →
     ∃ tokenString,
       JWT.RefreshToken j claims w = (Ok tokenString, tick (tick (tick w)))
       ∧ ∀ w', Truncate (now (tick (tick w))) time_Second ≤ now w'
               < Truncate (now w + expiry j) time_Second →
               JWT.ValidateToken j tokenString w' = (Ok fresh, tick w')
               ∧ UserID fresh = UserID claims ∧ Email fresh = Email claims).
Proof.
  split; [|split].
  - intros claims' Hu He. unfold JWT.RefreshToken. by rewrite Hu, He.
  - done.
  - intros fresh Hf.
    exists (AppendSignature (SigningString "HS256" fresh)
              (HMAC SHA256 (secret j) (SigningString "HS256" fresh))).
    split; [reflexivity|]. intros w' Hw.
    rewrite (ValidateToken_signed j fresh w' Hf).
    by rewrite (proj2 (verify_window fresh (now w') _ _ eq_refl eq_refl) Hw).
Qed.

Lemma refresh_keeps_identity_and_ignores_dates_witness :
  let stale := mkJWTClaims 1 "alice@example.com" (Some 1000000000) (Some 0) (Some 0) "old" in
  ∃ tokenString,
    (JWT.RefreshToken Reference.manager stale Samples.still_world).1 = Ok tokenString
    ∧ (JWT.ValidateToken Reference.manager tokenString Samples.still_world).1
      = Ok (issued_claims Reference.manager 1 "alice@example.com" Samples.still_world).
Proof.
  intros stale.
  destruct (refresh_keeps_identity_and_ignores_dates Reference.manager stale
              Samples.still_world) as (_ & _ & Hfresh).
  destruct Hfresh as (tokenString & Hr & Hv); [vm_compute; reflexivity|].
  exists tokenString. split; [by rewrite Hr|].
  destruct (Hv Samples.still_world) as [-> _];
    [split; vm_compute; [discriminate|reflexivity]|reflexivity].
Defined.

(** ** What an update cannot do *)

(** The row a successful [Update] stores. *)
Lemma Update_Ok todoID userID req resp w w' :
  TodoService.Update todoID userID req w = (Ok resp, w') →
  ∃ old : Todo,
    todos w !! todoID = Some old
    ∧ Todo_live old = true
    ∧ Todo_UserID old = userID
    ∧ resp = Todo_ToResponse
               (set_Todo_UpdatedAt (now w)
                  (TodoService.apply_updates req (set_Todo_ID todoID old)))
    ∧ todos w' !! todoID
      = Some (set_Todo_UpdatedAt (now w)
                (TodoService.apply_updates req (set_Todo_ID todoID old))).
Proof.
  unfold TodoService.Update, bind. rewrite FindByIDAndUserID_cases.
  destruct (next_fault w); [done|].
  destruct (owned_by w todoID userID) as [t|] eqn:Ho; [|done].
  apply owned_by_Some in Ho as (old & Hold & Hlive & Howner & ->).
  rewrite TodoRepository_Update_cases.
  destruct (next_fault (served w)); [done|]. cbv zeta. unfold ret.
  intros [= <- <-].
  assert (now (served (served w)) = now w) as ->.
  { unfold now. destruct (served_tables w) as (_ & _ & _ & _ & Hw & _).
    destruct (served_tables (served w)) as (_ & _ & _ & _ & Hw1 & _). congruence. }
  assert (Todo_ID (TodoService.apply_updates req (set_Todo_ID todoID old)) = todoID) as ->.
  { unfold TodoService.apply_updates, if_not_nil.
    by destruct (Req_Title req), (Req_Description req), (Req_Completed req),
      (Req_Priority req), (Req_DueDate req). }
  exists old. repeat split; try done. simpl. by rewrite lookup_insert_eq.
Qed.

(** X12.  [Update] can set or replace a due date but never remove one: the
    due date after a successful update is the one supplied, or the previous
    one when the request supplies none, so a todo that has a due date keeps
    having one.  Likewise no update changes when the todo was created, and
    an update of a todo never makes it a deleted one. *)
Theorem update_never_clears_due_date (todoID userID : uint) (req : UpdateTodoRequest)
    (resp : TodoResponse) (w w' : World) :
  TodoService.Update todoID userID req w = (Ok resp, w') →
  ∃ old new : Todo,
    todos w !! todoID = Some old
    ∧ todos w' !! todoID = Some new
    ∧ (TR_DueDate resp = None ↔ Todo_DueDate old = None ∧ Req_DueDate req = None)
    ∧ (is_Some (Todo_DueDate old) → is_Some (Todo_DueDate new))
    ∧ Todo_DueDate new = TR_DueDate resp
    ∧ TR_CreatedAt resp = Todo_CreatedAt old
    ∧ Todo_live new = true.
Proof.
  intros E. destruct (Update_Ok _ _ _ _ _ _ E) as (old & Hold & Hl & _ & -> & Hnew).
  exists old. eexists. split; [done|]. split; [exact Hnew|].
  unfold TodoService.apply_updates, if_not_nil, Todo_live in *.
  destruct (Req_Title req), (Req_Description req), (Req_Completed req),
    (Req_Priority req), (Req_DueDate req), (Todo_DueDate old) eqn:Hd; simpl;
    rewrite ?Hd; repeat split; try done; try (by intros [? ?]); try (by intros [? ?]%is_Some_None);
    try (intros; by eexists); by intros [[=] _] || by intros [_ [=]] || idtac.
Qed.

Lemma update_never_clears_due_date_witness :
  ∃ resp w',
    TodoService.Update 7 1 (mkUpdateTodoRequest (Some "Report") None None None None) due_world
    = (Ok resp, w')
    ∧ TR_DueDate resp = Some 1700600000000000000.
Proof.
  destruct (TodoService.Update 7 1 (mkUpdateTodoRequest (Some "Report") None None None None)
              due_world) as [[resp|e] w'] eqn:E;
    [|vm_compute in E; discriminate E].
  exists resp, w'. split; [reflexivity|].
  destruct (update_never_clears_due_date _ _ _ _ _ _ E)
    as (old & new & Hold & _ & Hnone & _).
  vm_compute in E. injection E as <- _. reflexivity.
Defined.

(** ** Paging parameters *)

(** X13.  [List] hands the repository a page number of at least 1 and a
    page size between 1 and 100: parameters inside these ranges pass
    unchanged, a page below 1 becomes 1, and a page size below 1 or above
    100 becomes 10 (not 100); the user and the completion filter pass
    unchanged. *)
Theorem list_clamps_its_parameters `{Listing} (userID : uint) (page perPage : Z)
    (completed : option bool) :
  ∃ page' perPage',
    TodoService.List userID page perPage completed
    = ListByUserID userID page' perPage' completed
    ∧ 1 ≤ page'
    ∧ 1 ≤ perPage' ≤ 100
    ∧ page' = Z.max 1 page
    ∧ (1 ≤ perPage ≤ 100 → perPage' = perPage)
    ∧ (perPage < 1 ∨ 100 < perPage → perPage' = 10).
Proof.
  unfold TodoService.List.
  destruct (Z.ltb_spec page 1), (Z.ltb_spec perPage 1), (Z.ltb_spec 100 perPage); simpl;
    eexists _, _; (split; [reflexivity|]); lia.
Qed.

(** ** Durations from the environment *)

(** X14.  [getDurationEnv] returns the default when the variable is unset,
    empty or not an integer.  For an integer [n] it returns [n] seconds as
    long as [n] seconds fit the 64 bits of a [time.Duration], that is for
    [n] between -9223372036 and 9223372036, negative values included (no
    sign check is made); from 9223372037 up to 18446744073 the
    multiplication wraps around and the result is the negative duration
    [n * 10^9 - 2^64]. *)
Theorem durations_from_the_environment (env : gmap string string) (key : string)
    (defaultValue : Duration) :
  (env !! key = None ∨ env !! key = Some "" →
     config.getDurationEnv env key defaultValue = defaultValue)
  ∧ (∀ v, env !! key = Some v → is_Ok (strconv_Atoi v) = false →
       config.getDurationEnv env key defaultValue = defaultValue)
  ∧ (∀ v n, env !! key = Some v → strconv_Atoi v = Ok n →
       (-9223372036 ≤ n ≤ 9223372036 →
          config.getDurationEnv env key defaultValue = n * time_Second)
       ∧ (9223372037 ≤ n ≤ 18446744073 →
            config.getDurationEnv env key defaultValue = n * time_Second - 2 ^ 64
            ∧ config.getDurationEnv env key defaultValue < 0)).
Proof.
  unfold config.getDurationEnv, config.Getenv. split; [|split].
  - by intros [-> | ->].
  - intros v -> Hv. simpl. destruct (String.eqb v ""); [done|]. simpl.
    by destruct (strconv_Atoi v).
  - intros v n -> Hn. simpl.
    assert (String.eqb v "" = false) as ->.
    { destruct v; [|done]. vm_compute in Hn. discriminate Hn. }
    simpl. rewrite Hn. unfold int64, time_Second.
    split.
    + intros Hr. rewrite Z.mod_small; lia.
    + intros Hr.
      assert ((n * 1000000000 + 2 ^ 63) mod 2 ^ 64 = n * 1000000000 + 2 ^ 63 - 2 ^ 64) as ->.
      { symmetry. apply (Z.mod_unique_pos _ _ 1); lia. }
      lia.
Qed.

Lemma durations_from_the_environment_witness :
  config.getDurationEnv {[ "JWT_EXPIRY" := "3600" ]} "JWT_EXPIRY" (24 * time_Hour)
  = 3600 * time_Second
  ∧ config.getDurationEnv {[ "JWT_EXPIRY" := "1h" ]} "JWT_EXPIRY" (24 * time_Hour)
    = 24 * time_Hour
  ∧ config.getDurationEnv {[ "JWT_EXPIRY" := "9223372037" ]} "JWT_EXPIRY" (24 * time_Hour) < 0.
Proof.
  destruct (durations_from_the_environment {[ "JWT_EXPIRY" := "3600" ]} "JWT_EXPIRY"
              (24 * time_Hour)) as (_ & _ & H1).
  destruct (durations_from_the_environment {[ "JWT_EXPIRY" := "1h" ]} "JWT_EXPIRY"
              (24 * time_Hour)) as (_ & H2 & _).
  destruct (durations_from_the_environment {[ "JWT_EXPIRY" := "9223372037" ]} "JWT_EXPIRY"
              (24 * time_Hour)) as (_ & _ & H3).
  split; [|split].
  - destruct (H1 "3600" 3600) as [Hin _]; [reflexivity|reflexivity|].
    apply Hin. split; vm_compute; discriminate.
  - apply (H2 "1h"); reflexivity.
  - destruct (H3 "9223372037" 9223372037) as [_ Hw]; [reflexivity|reflexivity|].
    apply Hw. split; vm_compute; discriminate.
Defined.

Lemma getDurationEnv_not_positive (env : gmap string string) key d v n :
  env !! key = Some v → strconv_Atoi v = Ok n →
  -9223372036 ≤ n ≤ 0 ∨ 9223372037 ≤ n ≤ 18446744073 →
  config.getDurationEnv env key d ≤ 0.
Proof.
  intros Hk Hn Hr. unfold config.getDurationEnv, config.Getenv. rewrite Hk. simpl.
  assert (String.eqb v "" = false) as ->.
  { destruct v; [|done]. vm_compute in Hn. discriminate Hn. }
  simpl. rewrite Hn. unfold int64, time_Second. destruct Hr as [Hr|Hr].
  - rewrite Z.mod_small; lia.
  - assert ((n * 1000000000 + 2 ^ 63) mod 2 ^ 64 = n * 1000000000 + 2 ^ 63 - 2 ^ 64) as ->.
    { symmetry. apply (Z.mod_unique_pos _ _ 1); lia. }
    lia.
Qed.

(** A token issued with a time to live that is not positive is expired at
    and after the instant of issue. *)
Lemma born_expired `{JWTWire} (j : JWTManager) userID email w w' :
  let claims := issued_claims j userID email w in
  expiry j ≤ 0 →
  wire_faithful "HS256" claims (HMAC SHA256 (secret j) (SigningString "HS256" claims)) →
  now w ≤ now w' →
  ∃ tokenString faults,
    JWT.GenerateToken j userID email w = (Ok tokenString, tick (tick (tick w)))
    ∧ JWT.ValidateToken j tokenString w'
      = (Err (ErrTokenInvalidClaims (TokenExpired :: faults)), tick w').
Proof.
  intros claims Httl Hf Hw.
  exists (AppendSignature (SigningString "HS256" claims)
            (HMAC SHA256 (secret j) (SigningString "HS256" claims))).
  exists (verifyNotBefore claims (now w')).
  split; [reflexivity|].
  rewrite (ValidateToken_signed j claims w' Hf).
  unfold verifyExpiresAt at 1. cbn [ExpiresAt claims issued_claims].
  pose proof (Truncate_bounds (now w + expiry j)).
  destruct (Z.ltb_spec (now w') (Truncate (now w + expiry j) time_Second)); [lia|].
  done.
Qed.

(** X15.  The configuration accepts a [JWT_EXPIRY] that makes every token
    useless: when the variable holds an integer [n] with
    [-9223372036 <= n <= 0], or with [9223372037 <= n <= 18446744073] (for
    which the conversion to a duration wraps around to a negative one),
    [Load] passes a time to live that is not positive to the JWT manager,
    without an error, and every token that manager issues is rejected as
    expired from the instant of issue on.  The secret and the issuer come from
    [JWT_SECRET] and [JWT_ISSUER], or from their defaults when these are
    unset or empty. *)
Theorem configured_expiry_is_not_checked `{JWTWire} (env : gmap string string)
    (v : string) (n : Z) (userID : uint) (email : string) (w w' : World) :
  let j := main_jwtManager (config.Load env) in
  let claims := issued_claims j userID email w in
  env !! "JWT_EXPIRY" = Some v → strconv_Atoi v = Ok n →
  -9223372036 ≤ n ≤ 0 ∨ 9223372037 ≤ n ≤ 18446744073 →
  wire_faithful "HS256" claims (HMAC SHA256 (secret j) (SigningString "HS256" claims)) →
  now w ≤ now w' →
  expiry j ≤ 0
  ∧ secret j = config.getEnv env "JWT_SECRET" "your-super-secret-key-change-in-production"
  ∧ issuer j = config.getEnv env "JWT_ISSUER" "todo-api"
  ∧ ∃ tokenString faults,
      JWT.GenerateToken j userID email w = (Ok tokenString, tick (tick (tick w)))
      ∧ JWT.ValidateToken j tokenString w'
        = (Err (ErrTokenInvalidClaims (TokenExpired :: faults)), tick w').
Proof.
  intros j claims Hk Hn Hr Hf Hw.
  assert (expiry j ≤ 0) as Httl.
  { exact (getDurationEnv_not_positive env "JWT_EXPIRY" (24 * time_Hour) v n Hk Hn Hr). }
  split; [exact Httl|]. split; [reflexivity|]. split; [reflexivity|].
  exact (born_expired j userID email w w' Httl Hf Hw).
Qed.

Lemma configured_expiry_is_not_checked_witness :
  let j := main_jwtManager (config.Load {[ "JWT_EXPIRY" := "-1"; "JWT_SECRET" := "s3cret" ]}) in
  expiry j = - time_Second
  ∧ secret j = "s3cret"
  ∧ issuer j = "todo-api"
  ∧ ∃ tokenString,
      (JWT.GenerateToken j 1 "alice@example.com" Samples.still_world).1 = Ok tokenString
      ∧ is_Ok (JWT.ValidateToken j tokenString Samples.still_world).1 = false.
Proof.
  intros j. split; [reflexivity|]. split; [reflexivity|]. split; [reflexivity|].
  destruct (configured_expiry_is_not_checked
              {[ "JWT_EXPIRY" := "-1"; "JWT_SECRET" := "s3cret" ]} "-1" (-1) 1
              "alice@example.com" Samples.still_world Samples.still_world)
    as (_ & _ & _ & tokenString & faults & Hg & Hv);
    [reflexivity | reflexivity | left; split; vm_compute; discriminate
    | vm_compute; reflexivity | vm_compute; discriminate |].
  exists tokenString. fold j in Hg, Hv. split; [by rewrite Hg|by rewrite Hv].
Defined.

(** The lower bound of the first range is sharp: one second further down
    the conversion wraps around to a positive time to live. *)
Lemma expiry_below_the_range_wraps_to_positive :
  0 < expiry (main_jwtManager (config.Load {[ "JWT_EXPIRY" := "-9223372037" ]})).
Proof. vm_compute. reflexivity. Qed.

(** ** Creating a todo through the gate *)

Lemma Create_Err userID req e w w' :
  TodoService.Create userID req w = (Err e, w') → todos w' = todos w ∧ users w' = users w.
Proof.
  unfold TodoService.Create, bind. rewrite TodoRepository_Create_cases.
  destruct (served_tables w) as (Hu & _ & Ht & _).
  destruct (tick_tables (served w)) as (Hu' & _ & Ht' & _).
  destruct (next_fault w); [intros [= _ <-]; done|]. cbv zeta.
  case_bool_decide; [|done]. intros [= _ <-]. split; congruence.
Qed.

(** X16.  The owner of a new todo is the user of the token, never a value
    of the request body: for a request that passes the gate and whose body
    binds, [Create] answers 201 with the stored todo, which is owned by the
    user identifier of the token's claims and stored under an identifier
    that was free; or, when the insert fails, it answers 500
    ["Failed to create todo"] and both tables stay as they were. *)
Theorem created_todo_is_owned_by_the_token_user `{Binding} `{BindingCreate} `{JWTWire}
    (j : JWTManager) (c : Context) (w w1 : World) (tokenString : string)
    (claims : JWTClaims) (req : CreateTodoRequest) :
  bearer_header (Authorization c) tokenString →
  JWT.ValidateToken j tokenString w = (Ok claims, w1) →
  ShouldBindJSON_CreateTodo (Body c) = Ok req →
  match TodoService.Create (UserID claims) req w1 with
  | (Ok resp, w2) =>
      (AuthMiddleware j TodoHandler.Create c w).2 = w2
      ∧ response (AuthMiddleware j TodoHandler.Create c w)
        = succeeded_with 201 "Todo created successfully" (DataTodo resp)
      ∧ todos w !! TR_ID resp = None
      ∧ ∃ new, todos w2 = <[TR_ID resp := new]> (todos w)
               ∧ Todo_UserID new = UserID claims
               ∧ resp = Todo_ToResponse new
  | (Err _, w2) =>
      (AuthMiddleware j TodoHandler.Create c w).2 = w2
      ∧ response (AuthMiddleware j TodoHandler.Create c w) = Internal "Failed to create todo"
      ∧ todos w2 = todos w ∧ users w2 = users w
  end.
Proof.
  intros Hb Hv Hbody.
  pose proof (ValidateToken_same_database j tokenString w) as Hdb. rewrite Hv in Hdb.
  destruct Hdb as (Hu & _ & Ht & _). simpl in Hu, Ht.
  rewrite (AuthMiddleware_bearer j _ c w tokenString Hb), Hv.
  unfold response, TodoHandler.Create. rewrite GetUserID_inject.
  change (Body (inject claims c)) with (Body c). rewrite Hbody.
  destruct (TodoService.Create (UserID claims) req w1) as [[resp|e] w2] eqn:E.
  - destruct (create_stores_one_owned_todo_aux _ _ _ _ _ E)
      as (new & Ht2 & Hr & _ & Ho & _ & _ & Hfree).
    split; [done|]. split; [done|]. split; [congruence|].
    exists new. repeat split; congruence.
  - destruct (Create_Err _ _ _ _ _ E) as [Ht2 Hu2].
    repeat split; try done; congruence.
Qed.

Lemma created_todo_is_owned_by_the_token_user_witness :
  let c := request ("Bearer " +:+ Samples.fresh_token) "" "Buy milk" in
  ∃ resp,
    response (AuthMiddleware Reference.manager TodoHandler.Create c Samples.still_world)
    = succeeded_with 201 "Todo created successfully" (DataTodo resp)
    ∧ TR_Title resp = "Buy milk"
    ∧ (Todo_UserID <$> todos (AuthMiddleware Reference.manager TodoHandler.Create c
                                Samples.still_world).2 !! TR_ID resp) = Some 1%N.
Proof.
  intros c.
  pose proof (created_todo_is_owned_by_the_token_user Reference.manager c
                Samples.still_world
                (JWT.ValidateToken Reference.manager Samples.fresh_token Samples.still_world).2
                Samples.fresh_token
                (issued_claims Reference.manager 1 "alice@example.com" Samples.still_world)
                (mkCreateTodoRequest "Buy milk" "" "" None)) as Hc.
  destruct (TodoService.Create _ _ _) as [[resp|e] w2] eqn:E in Hc;
    [|vm_compute in E; discriminate E].
  destruct Hc as (Hw & Hr & _ & new & Ht & Ho & Hresp);
    [exists "Bearer"; split; reflexivity | vm_compute; reflexivity | reflexivity |].
  exists resp. split; [exact Hr|]. split.
  - vm_compute in E. injection E as <- _. reflexivity.
  - rewrite Hw, Ht, lookup_insert_eq. simpl. by rewrite Ho.
Defined.

(** ** Logging in after registering *)

Lemma set_User_ID_same u : set_User_ID (User_ID u) u = u.
Proof. by destruct u. Qed.

(** X17.  Register, then log in: after a successful registration, a login
    with the same email and password, served by the database, succeeds and
    returns the same user (identifier, email and creation time) together
    with a token generated for that identifier and email, provided that
    bcrypt accepts a password against the hash it produced for it; it
    reads the store without changing it. *)
Theorem login_after_register `{Bcrypt} `{JWTWire} (j : JWTManager)
    (req : RegisterRequest) (resp : AuthResponse) (w w1 : World) :
  AuthService.Register j req w = (Ok resp, w1) →
  healthy w1 →
  (∀ hashedPassword, GenerateFromPassword (Reg_Password req) = Ok hashedPassword →
                     CompareHashAndPassword hashedPassword (Reg_Password req) = Ok tt) →
  ∃ resp' w2,
    AuthService.Login j (mkLoginRequest (Reg_Email req) (Reg_Password req)) w1
    = (Ok resp', w2)
    ∧ AR_User resp' = AR_User resp
    ∧ UR_Email (AR_User resp') = Reg_Email req
    ∧ JWT.GenerateToken j (UR_ID (AR_User resp)) (Reg_Email req) (served w1)
      = (Ok (AR_Token resp'), w2)
    ∧ users w2 = users w1.
Proof.
  intros E1 Hh Hbcrypt. unfold AuthService.Register in E1.
  rewrite Register_among_cases in E1.
  destruct (next_fault w); [done|].
  destruct (email_taken w (Reg_Email req)); [done|].
  destruct (GenerateFromPassword (Reg_Password req)) as [hashed|] eqn:Hhash; [|done].
  destruct (UserRepository.Create _ _) as [[user|e] w0] eqn:EC; [|done].
  rewrite GenerateToken_cases in E1. injection E1 as <- <-.
  destruct (Create_Ok _ _ _ _ EC eq_refl)
    as (Hin & Hfresh & Heq & Hemail & Hpw & Hlive & Huniq & _).
  simpl in Hemail, Hpw, Huniq.
  set (w1 := tick (tick (tick w0))) in *.
  assert (users w1 = users w0) as Hu1.
  { unfold w1. by rewrite !(proj1 (tick_tables _)). }
  assert (user_by_email w1 (Reg_Email req) = Some user) as Hfind.
  { destruct (user_by_email w1 (Reg_Email req)) as [u'|] eqn:Eu.
    - apply user_by_email_Some in Eu as (k & u & Hk & _ & He & ->).
      rewrite Hu1, Heq in Hk.
      apply lookup_insert_Some in Hk as [[<- <-]|[_ Hold]].
      + by rewrite set_User_ID_same.
      + by destruct (Huniq k u Hold).
    - pose proof (proj1 (user_by_email_None w1 (Reg_Email req)) Eu
                    (User_ID user) user) as Hno.
      rewrite Hu1 in Hno. by destruct (Hno Hin Hlive). }
  unfold AuthService.Login, bind. rewrite FindByEmail_cases, Hh. cbn [Login_Email].
  rewrite Hfind. cbn [Login_Password]. rewrite Hpw, (Hbcrypt hashed eq_refl).
  rewrite GenerateToken_cases.
  eexists _, _. split; [reflexivity|]. simpl.
  split; [done|]. split; [done|]. split; [by rewrite Hemail|].
  rewrite !(proj1 (tick_tables _)). by destruct (served_tables w1) as (-> & _).
Qed.

Lemma login_after_register_witness :
  let req := mkRegisterRequest "alice@example.com" "password123" in
  ∃ resp resp',
    (AuthService.Register Reference.manager req Reference.empty_world).1 = Ok resp
    ∧ (AuthService.Login Reference.manager
         (mkLoginRequest "alice@example.com" "password123")
         (AuthService.Register Reference.manager req Reference.empty_world).2).1 = Ok resp'
    ∧ AR_User resp' = AR_User resp.
Proof.
  intros req.
  destruct (AuthService.Register Reference.manager req Reference.empty_world)
    as [[resp|e] w1] eqn:E; [|vm_compute in E; discriminate E].
  destruct (login_after_register Reference.manager req resp Reference.empty_world w1 E)
    as (resp' & w2 & Hl & Hu & _).
  - vm_compute in E. injection E as _ <-. reflexivity.
  - intros hashed Hh. vm_compute in Hh. injection Hh as <-. reflexivity.
  - exists resp, resp'. split; [reflexivity|]. split; [exact (f_equal fst Hl)|exact Hu].
Defined.

(** ** Identifiers of new todos *)

(** X18.  On a database that serves the insert and whose sequence is ahead
    of every identifier in use, [Create] always succeeds; the new todo gets
    the next value of the sequence, which no todo has had, and the sequence
    stays ahead of every identifier, so that the next [Create] succeeds as
    well.  Successful updates and deletes keep the sequence ahead too.
    When the driver fails the insert, [Create] returns the driver's error
    and stores nothing. *)
Theorem create_takes_the_next_identifier (userID : uint) (req : CreateTodoRequest)
    (w : World) :
  seq_covers w →
  (healthy w →
     ∃ resp w',
       TodoService.Create userID req w = (Ok resp, w')
       ∧ TR_ID resp = (todos_seq w + 1)%N
       ∧ todos w !! TR_ID resp = None
       ∧ todos_seq w' = (todos_seq w + 1)%N
       ∧ seq_covers w')
  ∧ (∀ e, next_fault w = Some e →
          TodoService.Create userID req w = (Err e, served w)
          ∧ todos (served w) = todos w)
  ∧ (∀ id u r resp w', TodoService.Update id u r w = (Ok resp, w') → seq_covers w')
  ∧ (∀ id u w', TodoService.Delete id u w = (Ok tt, w') → seq_covers w').
Proof.
  intros Hcov. split; [|split; [|split]].
  - intros Hh. unfold TodoService.Create, bind.
    rewrite TodoRepository_Create_cases, Hh. cbn [Todo_ID]. cbv zeta.
    change (0 =? 0)%N with true. cbv iota.
    assert (todos w !! (todos_seq w + 1)%N = None) as Hfree.
    { apply eq_None_not_Some. intros Hs. apply Hcov in Hs. lia. }
    case_bool_decide as Hdec; [by rewrite Hfree in Hdec; destruct Hdec|].
    assert (N.max (todos_seq w) (todos_seq w + 1) = (todos_seq w + 1)%N) as -> by lia.
    eexists _, _. split; [reflexivity|].
    cbn [todos todos_seq TR_ID Todo_ToResponse Todo_ID].
    split; [done|]. split; [done|]. split; [done|].
    intros k Hk. cbn [todos todos_seq] in *.
    apply lookup_insert_is_Some in Hk as [<-|[_ Hk]].
    + lia.
    + apply Hcov in Hk. lia.
  - intros e He. unfold TodoService.Create, bind.
    rewrite TodoRepository_Create_cases, He.
    by destruct (served_tables w) as (_ & _ & -> & _).
  - intros id u r resp w'. unfold TodoService.Update, bind.
    rewrite FindByIDAndUserID_cases.
    destruct (next_fault w); [done|].
    destruct (owned_by w id u) as [t|] eqn:Ho; [|done].
    apply owned_by_Some in Ho as (old & Hold & _ & _ & ->).
    rewrite TodoRepository_Update_cases.
    destruct (next_fault (served w)); [done|]. cbv zeta. unfold ret.
    intros [= _ <-].
    assert (Todo_ID (TodoService.apply_updates r (set_Todo_ID id old)) = id) as ->.
    { unfold TodoService.apply_updates, if_not_nil.
      by destruct (Req_Title r), (Req_Description r), (Req_Completed r),
        (Req_Priority r), (Req_DueDate r). }
    destruct (tick_tables (served (served w))) as (_ & _ & Ht & Hs & _).
    destruct (served_tables (served w)) as (_ & _ & Ht1 & Hs1 & _).
    destruct (served_tables w) as (_ & _ & Ht2 & Hs2 & _).
    intros k Hk. simpl in Hk. simpl.
    rewrite Ht, Ht1, Ht2 in Hk. rewrite Hs, Hs1, Hs2.
    apply lookup_insert_is_Some in Hk as [<-|[_ Hk]]; apply Hcov; [by rewrite Hold|done].
  - intros id u w' E.
    assert (todos_seq w' = todos_seq w) as Hs.
    { revert E. unfold TodoService.Delete, bind. rewrite FindByIDAndUserID_cases.
      destruct (next_fault w); [done|].
      destruct (owned_by w id u); [|done].
      rewrite TodoRepository_Delete_cases.
      destruct (next_fault (served w)); [done|]. intros [= <-]. simpl.
      destruct (tick_tables (served (served w))) as (_ & _ & _ & -> & _).
      destruct (served_tables (served w)) as (_ & _ & _ & -> & _).
      by destruct (served_tables w) as (_ & _ & _ & -> & _). }
    destruct (Delete_Ok _ _ _ _ E) as (old & Hold & _ & _ & Ht & _).
    intros k Hk. rewrite Ht in Hk. rewrite Hs.
    apply lookup_insert_is_Some in Hk as [<-|[_ Hk]]; apply Hcov; [by rewrite Hold|done].
Qed.

Lemma create_takes_the_next_identifier_witness :
  ∃ resp w',
    TodoService.Create 2 (mkCreateTodoRequest "Buy milk" "" "" None) Reference.alice_world
    = (Ok resp, w')
    ∧ TR_ID resp = 8%N ∧ todos_seq w' = 8%N.
Proof.
  destruct (create_takes_the_next_identifier 2 (mkCreateTodoRequest "Buy milk" "" "" None)
              Reference.alice_world) as [Hok _].
  - assert (map_Forall (fun (k : N) (_ : Todo) => (k ≤ 7)%N)
              (todos Reference.alice_world)) as Hall.
    { apply (bool_decide_unpack
               (map_Forall (fun (k : N) (_ : Todo) => (k ≤ 7)%N)
                  (todos Reference.alice_world))).
      vm_compute. exact I. }
    intros k [t Hk]. exact (Hall k t Hk).
  - destruct Hok as (resp & w' & E & Hid & _ & Hs & _); [reflexivity|].
    exists resp, w'. split; [exact E|]. split; [exact Hid|exact Hs].
Defined.
